(** * Webull trade matcher: a shallow embedding of [utils/csv_parser.py]

    The development follows the class [WebullTradeParser]:

    - [Py]      the Python and pandas values the parser manipulates
                (floats, timestamps, strings, exceptions);
    - [Clock]   civil dates, [strftime], [strptime] and the US/Eastern rule;
    - [Matcher] [_estimate_total_exits], [_match_symbol_trades] and
                [match_trades_with_scaling];
    - [Normalizer] [_parse_datetime_robust];
    - [Spec], [Sample], [Outcome]  the quantities, sessions and case
                descriptions the theorems are stated with.
    - [Related], [Cells]  relations between runs of the matcher, and one
                cell of the column of times on its own;
    - [Summary] [display_trades_summary];
    - [Analyst] the class [TradeAnalyzer] of [ai_analyst/trade_analyzer.py];
    - [Cleaner] [_clean_webull_data] and [parse_webull_csv];
    - [Binary64], [Rounded], [Lots]  the loop of the matcher with every
                operation on floats rounded as binary64 rounds it, and the
                lots the cost basis is the mean price of.

    Conventions of the embedding.
    - A Python [float] is an exact rational or [NaN]; rounding error of
      binary64 and the infinities are not modelled.  Division by a zero
      float raises [ZeroDivisionError], as in Python.  The cost basis,
      where the last digits matter, is stated on the loop of [Rounded],
      in which every operation on floats returns the nearest binary64
      number.
    - A Python [int] is a [Z].
    - A pandas [Timestamp] is its wall-clock reading in whole seconds
      together with the UTC offset of its zone, if it has one.
    - Code that may raise lives in the monad [M]: a state transformer that
      returns [Ok] or [Raise] together with the state reached so far, so
      that what was assigned before an exception stays assigned. *)

From Stdlib Require Import ZArith QArith Qround String Ascii List Bool Lia.
From Stdlib Require Import DecimalString Sorted Permutation Qabs Qpower Lqa.
Import ListNotations.

Local Open Scope string_scope.
Local Open Scope Z_scope.

(* ================================================================== *)
(** * Python values *)
(* ================================================================== *)

Module Py.

(** The exceptions the modelled operations can raise. *)
Inductive exn : Type :=
| ZeroDivisionError
| TypeError
| ValueError.

Inductive result (A : Type) : Type :=
| Ok (a : A)
| Raise (e : exn).

Arguments Ok {A} a.
Arguments Raise {A} e.

(** ** Floats *)

Inductive pyfloat : Type :=
| Fin (q : Q)
| NaN.

Definition of_int (z : Z) : pyfloat := Fin (inject_Z z).

Definition fadd (a b : pyfloat) : pyfloat :=
  match a, b with
  | Fin x, Fin y => Fin (x + y)%Q
  | _, _ => NaN
  end.

Definition fsub (a b : pyfloat) : pyfloat :=
  match a, b with
  | Fin x, Fin y => Fin (x - y)%Q
  | _, _ => NaN
  end.

Definition fmul (a b : pyfloat) : pyfloat :=
  match a, b with
  | Fin x, Fin y => Fin (x * y)%Q
  | _, _ => NaN
  end.

Definition is_zero (a : pyfloat) : bool :=
  match a with
  | Fin x => Qeq_bool x 0
  | NaN => false
  end.

(** [a / b]: a zero divisor raises whatever the dividend is. *)
Definition fdiv (a b : pyfloat) : result pyfloat :=
  if is_zero b then Raise ZeroDivisionError
  else match a, b with
       | Fin x, Fin y => Ok (Fin (x / y)%Q)
       | _, _ => Ok NaN
       end.

(** Nearest integer, ties to the even neighbour. *)
Definition round_half_even (q : Q) : Z :=
  let f := Qfloor q in
  match Qcompare (q - inject_Z f)%Q (1 # 2)%Q with
  | Lt => f
  | Gt => f + 1
  | Eq => if Z.even f then f else f + 1
  end.

(** [round(x, 2)]: a NaN is returned as it is. *)
Definition round2 (a : pyfloat) : pyfloat :=
  match a with
  | Fin x => Fin (inject_Z (round_half_even (x * 100)%Q) / 100)%Q
  | NaN => NaN
  end.

(** Equality of floats as numbers; [NaN] is only related to itself here,
    which is the reading "the same float" and not Python's [==]. *)
Definition feq (a b : pyfloat) : Prop :=
  match a, b with
  | Fin x, Fin y => (x == y)%Q
  | NaN, NaN => True
  | _, _ => False
  end.

Definition feqb (a b : pyfloat) : bool :=
  match a, b with
  | Fin x, Fin y => Qeq_bool x y
  | NaN, NaN => true
  | _, _ => false
  end.

(** ** Timestamps *)

(** [wall] is the wall-clock reading, in seconds since 1970-01-01 00:00:00
    of the same clock; [utcoffset] is [None] for a naive timestamp and the
    zone's offset from UTC, in seconds, for an aware one. *)
Record Timestamp : Type := mkTimestamp {
  wall : Z;
  utcoffset : option Z
}.

(** A cell of a datetime column: [pd.NaT] or a [Timestamp]. *)
Inductive pytime : Type :=
| NaT
| Ts (t : Timestamp).

(** [pd.isna] on such a cell. *)
Definition isna (t : pytime) : bool :=
  match t with
  | NaT => true
  | Ts _ => false
  end.

(** [a - b] in seconds ([Timedelta.total_seconds]); mixing a naive and an
    aware timestamp raises. *)
Definition ts_sub (a b : Timestamp) : result Z :=
  match utcoffset a, utcoffset b with
  | Some oa, Some ob => Ok ((wall a - oa) - (wall b - ob))
  | None, None => Ok (wall a - wall b)
  | _, _ => Raise TypeError
  end.

(** [a > b], with the same restriction. *)
Definition ts_gt (a b : Timestamp) : result bool :=
  match ts_sub a b with
  | Ok d => Ok (0 <? d)
  | Raise e => Raise e
  end.

(** [x > t] on a cell: a [NaT] compares false. *)
Definition cell_gt (x : pytime) (t : Timestamp) : result bool :=
  match x with
  | NaT => Ok false
  | Ts u => ts_gt u t
  end.

(** ** The operator [==] on the values the matcher compares *)

Inductive pyval : Type :=
| VNone
| VStr (s : string)
| VTime (t : pytime).

(** Two strings are compared by content.  A string never equals [None],
    [NaT] or a [Timestamp]: neither side implements the comparison and
    Python answers [False].  [NaT] equals nothing, itself included. *)
Definition py_eq (a b : pyval) : bool :=
  match a, b with
  | VNone, VNone => true
  | VStr s, VStr s' => String.eqb s s'
  | VTime (Ts t), VTime (Ts t') =>
      match ts_sub t t' with
      | Ok d => d =? 0
      | Raise _ => false
      end
  | _, _ => false
  end.

(** ** Strings *)

(** [str(z)] for an integer. *)
Definition str (z : Z) : string := NilZero.string_of_int (Z.to_int z).

Definition is_space (c : ascii) : bool :=
  let n := nat_of_ascii c in
  ((9 <=? n) && (n <=? 13))%nat || (n =? 32)%nat || ((28 <=? n) && (n <=? 31))%nat.

Fixpoint lstrip (s : string) : string :=
  match s with
  | String c s' => if is_space c then lstrip s' else s
  | EmptyString => EmptyString
  end.

Fixpoint rstrip (s : string) : string :=
  match s with
  | String c s' =>
      match rstrip s' with
      | EmptyString => if is_space c then EmptyString else String c EmptyString
      | r => String c r
      end
  | EmptyString => EmptyString
  end.

(** [s.strip()] *)
Definition strip (s : string) : string := rstrip (lstrip s).

(** [pat in s] *)
Fixpoint contains (pat s : string) : bool :=
  if String.prefix pat s then true
  else match s with
       | String _ s' => contains pat s'
       | EmptyString => false
       end.

(** [s.replace(old, "")] for a non-empty [old]: [skip] counts the
    characters of a match that are still to be dropped. *)
Fixpoint remove_from (old : string) (skip : nat) (s : string) : string :=
  match s with
  | EmptyString => EmptyString
  | String c s' =>
      match skip with
      | S k => remove_from old k s'
      | O => if String.prefix old s
             then remove_from old (String.length old - 1) s'
             else String c (remove_from old 0 s')
      end
  end.

Definition remove (old s : string) : string := remove_from old 0 s.

(** [s.split(sep)[0]] for a one-character separator. *)
Fixpoint split_head (sep : ascii) (s : string) : string :=
  match s with
  | EmptyString => EmptyString
  | String c s' => if Ascii.eqb c sep then EmptyString
                   else String c (split_head sep s')
  end.

(** The text after the first separator (empty when there is none). *)
Fixpoint split_tail (sep : ascii) (s : string) : string :=
  match s with
  | EmptyString => EmptyString
  | String c s' => if Ascii.eqb c sep then s' else split_tail sep s'
  end.

(** ** Computations that may raise *)

Definition M (S A : Type) : Type := S -> S * result A.

Definition ret {S A : Type} (a : A) : M S A := fun s => (s, Ok a).

Definition bind {S A B : Type} (c : M S A) (k : A -> M S B) : M S B :=
  fun s =>
    match c s with
    | (s', Ok a) => k a s'
    | (s', Raise e) => (s', Raise e)
    end.

Definition lift {S A : Type} (r : result A) : M S A := fun s => (s, r).

Definition gets {S A : Type} (f : S -> A) : M S A := fun s => (s, Ok (f s)).

Definition modify {S : Type} (f : S -> S) : M S unit := fun s => (f s, Ok tt).

(** [try: c  except Exception as e: h e] *)
Definition try_except {S A : Type} (c : M S A) (h : exn -> M S A) : M S A :=
  fun s =>
    match c s with
    | (s', Raise e) => h e s'
    | r => r
    end.

(** [for x in xs: f x] *)
Fixpoint for_each {S A : Type} (xs : list A) (f : A -> M S unit) : M S unit :=
  match xs with
  | [] => ret tt
  | x :: xs' => bind (f x) (fun _ => for_each xs' f)
  end.

Declare Scope py_scope.
Delimit Scope py_scope with py.
Notation "x <- c ;; k" := (bind c (fun x => k))
  (at level 61, c at next level, right associativity) : py_scope.
Notation "c ;; k" := (bind c (fun _ => k))
  (at level 61, right associativity) : py_scope.

End Py.

(* ================================================================== *)
(** * Calendar: civil dates, formatting, parsing, US/Eastern *)
(* ================================================================== *)

Module Clock.
Import Py.

(** Days since 1970-01-01 of a proleptic Gregorian date. *)
Definition days_from_civil (y m d : Z) : Z :=
  let y' := if m <=? 2 then y - 1 else y in
  let era := y' / 400 in
  let yoe := y' - era * 400 in
  let mp := if 2 <? m then m - 3 else m + 9 in
  let doy := (153 * mp + 2) / 5 + d - 1 in
  let doe := yoe * 365 + yoe / 4 - yoe / 100 + doy in
  era * 146097 + doe - 719468.

(** The inverse: year, month and day of a day number. *)
Definition civil_from_days (z : Z) : Z * Z * Z :=
  let z' := z + 719468 in
  let era := z' / 146097 in
  let doe := z' - era * 146097 in
  let yoe := (doe - doe / 1460 + doe / 36524 - doe / 146096) / 365 in
  let doy := doe - (365 * yoe + yoe / 4 - yoe / 100) in
  let mp := (5 * doy + 2) / 153 in
  let d := doy - (153 * mp + 2) / 5 + 1 in
  let m := if mp <? 10 then mp + 3 else mp - 9 in
  let y := yoe + era * 400 in
  (if m <=? 2 then y + 1 else y, m, d).

(** 0 is Sunday; 1970-01-01 was a Thursday. *)
Definition weekday (days : Z) : Z := (days + 4) mod 7.

Definition is_leap (y : Z) : bool :=
  ((y mod 4 =? 0) && negb (y mod 100 =? 0)) || (y mod 400 =? 0).

Definition days_in_month (y m : Z) : Z :=
  if m =? 2 then (if is_leap y then 29 else 28)
  else if (m =? 4) || (m =? 6) || (m =? 9) || (m =? 11) then 30
  else 31.

Definition pad2 (n : Z) : string :=
  if n <? 10 then "0" ++ str n else str n.

Definition pad4 (n : Z) : string :=
  if n <? 10 then "000" ++ str n
  else if n <? 100 then "00" ++ str n
  else if n <? 1000 then "0" ++ str n
  else str n.

(** [t.strftime("%H:%M:%S EDT")]: the zone letters are part of the format
    string, whatever the zone of [t]. *)
Definition strftime_HMS_EDT (t : Timestamp) : string :=
  let sod := wall t mod 86400 in
  pad2 (sod / 3600) ++ ":" ++ pad2 (sod mod 3600 / 60) ++ ":"
    ++ pad2 (sod mod 60) ++ " EDT".

(** [t.strftime("%Y-%m-%d")] *)
Definition strftime_Ymd (t : Timestamp) : string :=
  let '(y, m, d) := civil_from_days (wall t / 86400) in
  pad4 y ++ "-" ++ pad2 m ++ "-" ++ pad2 d.

(** ** Parsing *)

Definition digit (c : ascii) : option Z :=
  let n := Z.of_nat (nat_of_ascii c) in
  if (48 <=? n) && (n <=? 57) then Some (n - 48) else None.

(** Reads up to [n] further digits, as many as there are. *)
Fixpoint more_digits (n : nat) (acc : Z) (s : string) : Z * string :=
  match n, s with
  | S k, String c s' =>
      match digit c with
      | Some v => more_digits k (10 * acc + v) s'
      | None => (acc, s)
      end
  | _, _ => (acc, s)
  end.

(** Reads between one and [S n] digits. *)
Definition digits_upto (n : nat) (s : string) : option (Z * string) :=
  match s with
  | String c s' =>
      match digit c with
      | Some v => Some (more_digits n v s')
      | None => None
      end
  | EmptyString => None
  end.

Fixpoint digits_exactly (n : nat) (acc : Z) (s : string) : option (Z * string) :=
  match n with
  | O => Some (acc, s)
  | S k =>
      match s with
      | String c s' =>
          match digit c with
          | Some v => digits_exactly k (10 * acc + v) s'
          | None => None
          end
      | EmptyString => None
      end
  end.

(** A number of one or two digits within [lo, hi]. *)
Definition field (lo hi : Z) (s : string) : option (Z * string) :=
  match digits_upto 1 s with
  | Some (v, rest) => if (lo <=? v) && (v <=? hi) then Some (v, rest) else None
  | None => None
  end.

Definition expect (c : ascii) (s : string) : option string :=
  match s with
  | String c' s' => if Ascii.eqb c c' then Some s' else None
  | EmptyString => None
  end.

(** One or more white-space characters. *)
Definition spaces (s : string) : option string :=
  match s with
  | String c s' => if is_space c then Some (lstrip s') else None
  | EmptyString => None
  end.

(** The seconds pandas can represent around the epoch with nanosecond
    resolution (1677-09-21 .. 2262-04-11). *)
Definition min_seconds : Z := -9223372036.
Definition max_seconds : Z := 9223372036.

Definition in_bounds (w : Z) : bool := (min_seconds <=? w) && (w <=? max_seconds).

Definition bind_opt {A B : Type} (o : option A) (f : A -> option B) : option B :=
  match o with
  | Some a => f a
  | None => None
  end.

Local Notation "' p <- o ;; k" := (bind_opt o (fun p => k))
  (at level 61, p pattern, o at next level, right associativity).

(** The wall-clock seconds of a text in the layout month/day/year
    hour:minute:second; the whole text has to match. *)
Definition parse_mdY_HMS (s : string) : option Z :=
  ' (mo, s) <- field 1 12 s ;;
  ' s <- expect "/" s ;;
  ' (d, s) <- field 1 31 s ;;
  ' s <- expect "/" s ;;
  ' (y, s) <- digits_exactly 4 0 s ;;
  ' s <- spaces s ;;
  ' (h, s) <- field 0 23 s ;;
  ' s <- expect ":" s ;;
  ' (mi, s) <- field 0 59 s ;;
  ' s <- expect ":" s ;;
  ' (se, s) <- field 0 59 s ;;
  match s with
  | EmptyString =>
      if (1 <=? y) && (d <=? days_in_month y mo)
      then Some (days_from_civil y mo d * 86400 + h * 3600 + mi * 60 + se)
      else None
  | _ => None
  end.

(** [pd.to_datetime(s, format="%m/%d/%Y %H:%M:%S")]: a naive timestamp, or
    [ValueError] when the text does not match or lies outside the range. *)
Definition to_datetime_mdY_HMS (s : string) : result Timestamp :=
  match parse_mdY_HMS s with
  | Some w => if in_bounds w then Ok (mkTimestamp w None) else Raise ValueError
  | None => Raise ValueError
  end.

(** The same for the layout year-month-day hour:minute:second. *)
Definition parse_Ymd_HMS (s : string) : option Z :=
  ' (y, s) <- digits_exactly 4 0 s ;;
  ' s <- expect "-" s ;;
  ' (mo, s) <- digits_exactly 2 0 s ;;
  ' s <- expect "-" s ;;
  ' (d, s) <- digits_exactly 2 0 s ;;
  ' s <- expect " " s ;;
  ' (h, s) <- digits_exactly 2 0 s ;;
  ' s <- expect ":" s ;;
  ' (mi, s) <- digits_exactly 2 0 s ;;
  ' s <- expect ":" s ;;
  ' (se, s) <- digits_exactly 2 0 s ;;
  match s with
  | EmptyString =>
      if (1 <=? y) && (1 <=? mo) && (mo <=? 12) && (1 <=? d)
         && (d <=? days_in_month y mo) && (h <=? 23) && (mi <=? 59) && (se <=? 59)
      then Some (days_from_civil y mo d * 86400 + h * 3600 + mi * 60 + se)
      else None
  | _ => None
  end.

(** [pd.to_datetime(s, errors="coerce")] restricted to that one layout:
    pandas guesses many more, which this function answers with [NaT]. *)
Definition to_datetime_iso (s : string) : result pytime :=
  match parse_Ymd_HMS s with
  | Some w => if in_bounds w then Ok (Ts (mkTimestamp w None)) else Ok NaT
  | None => Ok NaT
  end.

(** ** US/Eastern *)

Definition EST : Z := -18000.
Definition EDT : Z := -14400.

(** The second Sunday of March and the first Sunday of November (the rule
    in force since 2007, applied here to every year). *)
Definition dst_start_day (y : Z) : Z :=
  let d8 := days_from_civil y 3 8 in d8 + (7 - weekday d8) mod 7.

Definition dst_end_day (y : Z) : Z :=
  let d1 := days_from_civil y 11 1 in d1 + (7 - weekday d1) mod 7.

Definition year_of (w : Z) : Z :=
  let '(y, _, _) := civil_from_days (w / 86400) in y.

(** [pytz.timezone("US/Eastern").localize(t)] on a naive timestamp, with
    pytz's default of resolving towards standard time: the repeated hour
    of November is read as EST, and a reading inside the skipped hour of
    March is the instant one hour later on the daylight clock.  pytz
    probes the day before and the day after, which have to stay in
    range. *)
Definition localize_eastern (t : Timestamp) : result Timestamp :=
  match utcoffset t with
  | Some _ => Raise ValueError
  | None =>
      let w := wall t in
      if negb (in_bounds (w - 86400) && in_bounds (w + 86400))
      then Raise ValueError
      else
        let y := year_of w in
        let gap := dst_start_day y * 86400 + 2 * 3600 in
        let back := dst_end_day y * 86400 + 3600 in
        if (gap <=? w) && (w <? gap + 3600)
        then Ok (mkTimestamp (w + 3600) (Some EDT))
        else if (gap + 3600 <=? w) && (w <? back)
        then Ok (mkTimestamp w (Some EDT))
        else Ok (mkTimestamp w (Some EST))
  end.

(** A timestamp carrying one of the two Eastern offsets. *)
Definition is_eastern (t : Timestamp) : bool :=
  match utcoffset t with
  | Some o => (o =? EST) || (o =? EDT)
  | None => false
  end.

End Clock.

(* ================================================================== *)
(** * The position matcher *)
(* ================================================================== *)

Module Matcher.
Import Py Clock.

(** ** Data *)

(** A row of the orders frame.  [Name] is [None] when the frame has no
    such column. *)
Record Order : Type := mkOrder {
  Symbol : string;
  Name : option string;
  Side : string;
  Filled : Z;
  AvgPrice : pyfloat;
  FilledTime : pytime
}.

(** The dictionary built for each exit, one field per key. *)
Module Trade.
Record t : Type := mk {
  date : string;
  symbol : string;
  company_name : string;
  entry_price : pyfloat;
  entry_time : string;
  exit_price : pyfloat;
  exit_time : string;
  quantity : Z;
  pnl_dollar : pyfloat;
  pnl_percent : pyfloat;
  duration_minutes : Z;
  scale_number : string;
  position_type : string;
  entry_reason : string;
  exit_reason : string;
  emotional_state : string;
  market_context : string;
  lessons_learned : string;
  ai_analysis : string;
  trade_grade : string
}.

(** [trade["scale_number"] = s] *)
Definition set_scale_number (s : string) (x : t) : t :=
  mk (date x) (symbol x) (company_name x) (entry_price x) (entry_time x)
     (exit_price x) (exit_time x) (quantity x) (pnl_dollar x) (pnl_percent x)
     (duration_minutes x) s (position_type x) (entry_reason x) (exit_reason x)
     (emotional_state x) (market_context x) (lessons_learned x) (ai_analysis x)
     (trade_grade x).
End Trade.

(** What the parser prints, one constructor per message. *)
Inductive Diag : Type :=
| PrintEntry (symbol : string) (position : Z) (avg_cost : pyfloat)
| PrintAdd (symbol : string) (filled : Z) (price avg_cost : pyfloat)
| PrintNoDuration (symbol : string)
| PrintExit (symbol : string) (exit_quantity : Z) (price pnl : pyfloat)
| PrintOrderError (symbol : string) (e : exn)
| PrintNoOrders
| PrintNoValidOrders (symbol : string)
| PrintProcessing (symbol : string) (n : nat)
| PrintSymbolError (symbol : string) (e : exn)
| PrintMatched (n : nat).

(** The local variables of [_match_symbol_trades], and the console. *)
Record Locals : Type := mkLocals {
  trades : list Trade.t;
  position : Z;
  avg_cost : pyfloat;
  entry_time : option pytime;
  entry_orders : list Order;
  console : list Diag
}.

Local Open Scope py_scope.

(** Assignments to the locals. *)
Definition set_trades (v : list Trade.t) : M Locals unit :=
  modify (fun l => mkLocals v (position l) (avg_cost l) (entry_time l)
                     (entry_orders l) (console l)).
Definition set_position (v : Z) : M Locals unit :=
  modify (fun l => mkLocals (trades l) v (avg_cost l) (entry_time l)
                     (entry_orders l) (console l)).
Definition set_avg_cost (v : pyfloat) : M Locals unit :=
  modify (fun l => mkLocals (trades l) (position l) v (entry_time l)
                     (entry_orders l) (console l)).
Definition set_entry_time (v : option pytime) : M Locals unit :=
  modify (fun l => mkLocals (trades l) (position l) (avg_cost l) v
                     (entry_orders l) (console l)).
Definition set_entry_orders (v : list Order) : M Locals unit :=
  modify (fun l => mkLocals (trades l) (position l) (avg_cost l) (entry_time l)
                     v (console l)).
Definition print (d : Diag) : M Locals unit :=
  modify (fun l => mkLocals (trades l) (position l) (avg_cost l) (entry_time l)
                     (entry_orders l) (console l ++ [d])).

(** ** [_estimate_total_exits] *)

(** The rows later than [t] whose side is Sell; one comparison that raises
    makes the whole selection raise. *)
Fixpoint future_sells (orders : list Order) (t : Timestamp) : result (list Order) :=
  match orders with
  | [] => Ok []
  | o :: rest =>
      match cell_gt (FilledTime o) t, future_sells rest t with
      | Ok later, Ok l => Ok (if later && (Side o =? "Sell")%string then o :: l else l)
      | Raise e, _ => Raise e
      | _, Raise e => Raise e
      end
  end.

Definition _estimate_total_exits (orders : list Order) (entry_time : option pytime) : Z :=
  match entry_time with
  | Some (Ts t) =>
      match future_sells orders t with
      | Ok sells => Z.max (Z.of_nat (length sells)) 1
      | Raise _ => 1
      end
  | _ => 1
  end.

(** ** [_match_symbol_trades] *)

Definition time_val (entry_time : option pytime) : pyval :=
  match entry_time with
  | None => VNone
  | Some t => VTime t
  end.

(** [t["symbol"] == symbol and t["entry_time"] == entry_time]: the key of
    the dictionary holds the formatted text, the local variable holds the
    time itself. *)
Definition same_entry (symbol : string) (entry_time : option pytime)
    (t : Trade.t) : bool :=
  py_eq (VStr (Trade.symbol t)) (VStr symbol)
  && py_eq (VStr (Trade.entry_time t)) (time_val entry_time).

(** The loop that writes the final total into the earlier scale-outs.  The
    dictionaries are changed in place; while the loop of the matcher runs
    the list [trades] is their only holder, so a map over it says the
    same. *)
Definition update_previous (symbol : string) (entry_time : option pytime)
    (total_exits : Z) (ts : list Trade.t) : list Trade.t :=
  map (fun prev_trade =>
         if same_entry symbol entry_time prev_trade
            && py_eq (VStr (Trade.position_type prev_trade)) (VStr "Scale Out")
         then Trade.set_scale_number
                (split_head "/" (Trade.scale_number prev_trade)
                   ++ "/" ++ str total_exits) prev_trade
         else prev_trade) ts.

Definition on_buy (symbol : string) (order : Order) : M Locals unit :=
  position0 <- gets position ;;
  if position0 =? 0 then
    set_entry_time (Some (FilledTime order)) ;;
    set_avg_cost (AvgPrice order) ;;
    set_position (Filled order) ;;
    set_entry_orders [order] ;;
    print (PrintEntry symbol (Filled order) (AvgPrice order))
  else
    avg_cost0 <- gets avg_cost ;;
    let total_cost :=
      fadd (fmul (of_int position0) avg_cost0)
           (fmul (of_int (Filled order)) (AvgPrice order)) in
    set_position (position0 + Filled order) ;;
    position1 <- gets position ;;
    avg_cost1 <- lift (fdiv total_cost (of_int position1)) ;;
    set_avg_cost avg_cost1 ;;
    entry_orders0 <- gets entry_orders ;;
    set_entry_orders (entry_orders0 ++ [order]) ;;
    print (PrintAdd symbol (Filled order) (AvgPrice order) avg_cost1).

(** "Safely calculate duration": whole minutes, [int(seconds / 60)]. *)
Definition calculate_duration (symbol : string) (entry_time0 : option pytime)
    (order : Order) : M Locals Z :=
  match entry_time0, FilledTime order with
  | Some (Ts et), Ts ot =>
      seconds <- lift (ts_sub ot et) ;;
      ret (Z.quot seconds 60)
  | _, _ =>
      print (PrintNoDuration symbol) ;;
      ret 0
  end.

(** "Calculate scale information": the label [k/n] and the position type. *)
Definition scale_information (symbol : string) (orders : list Order)
    (entry_time0 : option pytime) (remaining_after_exit : Z)
    : M Locals (string * string) :=
  trades0 <- gets trades ;;
  let scale_num :=
    Z.of_nat (length (filter (same_entry symbol entry_time0) trades0)) + 1 in
  if 0 <? remaining_after_exit then
    let total_planned_exits := _estimate_total_exits orders entry_time0 in
    ret (str scale_num ++ "/" ++ str total_planned_exits, "Scale Out")
  else
    let total_exits := scale_num in
    set_trades (update_previous symbol entry_time0 total_exits trades0) ;;
    ret (str scale_num ++ "/" ++ str total_exits,
         if 1 <? scale_num then "Final Exit" else "Full Exit").

(** "Create trade record": the only step that can raise is the division
    by [avg_cost] of the percentage. *)
Definition create_trade (symbol : string) (order : Order)
    (entry_time0 : option pytime) (avg_cost0 : pyfloat) (exit_quantity : Z)
    (duration_minutes : Z) (scale : string * string) : result Trade.t :=
  let entry_time_str :=
    match entry_time0 with
    | Some (Ts et) => strftime_HMS_EDT et
    | _ => "Unknown"
    end in
  let exit_time_str :=
    match FilledTime order with
    | Ts ot => strftime_HMS_EDT ot
    | NaT => "Unknown"
    end in
  let date_str :=
    match entry_time0 with
    | Some (Ts et) => strftime_Ymd et
    | _ => "Unknown"
    end in
  let pnl_dollar :=
    round2 (fmul (fsub (AvgPrice order) avg_cost0) (of_int exit_quantity)) in
  match fdiv (fsub (AvgPrice order) avg_cost0) avg_cost0 with
  | Raise e => Raise e
  | Ok ratio =>
      Ok (Trade.mk date_str symbol
            (match Name order with Some n => n | None => symbol end)
            (round2 avg_cost0) entry_time_str (AvgPrice order) exit_time_str
            exit_quantity pnl_dollar (round2 (fmul ratio (of_int 100)))
            duration_minutes (fst scale) (snd scale)
            "" "" "" "" "" "" "")
  end.

(** "Update position", and the reset once it is closed. *)
Definition update_position (exit_quantity : Z) : M Locals unit :=
  position0 <- gets position ;;
  set_position (position0 - exit_quantity) ;;
  position1 <- gets position ;;
  if position1 <=? 0 then
    set_position 0 ;;
    set_avg_cost (of_int 0) ;;
    set_entry_time None ;;
    set_entry_orders []
  else ret tt.

Definition on_sell (symbol : string) (orders : list Order) (order : Order)
    : M Locals unit :=
  position0 <- gets position ;;
  let exit_quantity := Z.min (Filled order) position0 in
  entry_time0 <- gets entry_time ;;
  duration_minutes <- calculate_duration symbol entry_time0 order ;;
  let remaining_after_exit := position0 - exit_quantity in
  scale <- scale_information symbol orders entry_time0 remaining_after_exit ;;
  avg_cost0 <- gets avg_cost ;;
  trade <- lift (create_trade symbol order entry_time0 avg_cost0 exit_quantity
                   duration_minutes scale) ;;
  trades1 <- gets trades ;;
  set_trades (trades1 ++ [trade]) ;;
  print (PrintExit symbol exit_quantity (AvgPrice order) (Trade.pnl_dollar trade)) ;;
  update_position exit_quantity.

(** The body of the [try] inside the loop. *)
Definition body (symbol : string) (orders : list Order) (order : Order)
    : M Locals unit :=
  if (Side order =? "Buy")%string then on_buy symbol order
  else
    position0 <- gets position ;;
    if (Side order =? "Sell")%string && (0 <? position0)
    then on_sell symbol orders order
    else ret tt.

(** One turn of the loop: the body, and the handler that prints and goes
    on to the next row. *)
Definition iteration (symbol : string) (orders : list Order) (order : Order)
    : M Locals unit :=
  try_except (body symbol orders order)
             (fun e => print (PrintOrderError symbol e)).

(** The locals as they are initialised, on a given console. *)
Definition initial (out : list Diag) : Locals :=
  mkLocals [] 0 (of_int 0) None [] out.

Definition match_loop (symbol : string) (orders rows : list Order)
    : M Locals unit :=
  for_each rows (iteration symbol orders).

Definition _match_symbol_trades (symbol : string) (orders : list Order)
    : M Locals (list Trade.t) :=
  match_loop symbol orders orders ;;
  gets trades.

(** ** [match_trades_with_scaling] *)

(** The parser object, the local list [trades] and the console. *)
Record Parser : Type := mkParser {
  raw_orders : option (list Order);
  matched_trades : list Trade.t;
  all_trades : list Trade.t;
  output : list Diag
}.

Definition say (d : Diag) : M Parser unit :=
  modify (fun p => mkParser (raw_orders p) (matched_trades p) (all_trades p)
                     (output p ++ [d])).

Definition extend (ts : list Trade.t) : M Parser unit :=
  modify (fun p => mkParser (raw_orders p) (matched_trades p)
                     (all_trades p ++ ts) (output p)).

(** [series.unique()]: the distinct values in order of first appearance. *)
Fixpoint unique (xs : list string) : list string :=
  match xs with
  | [] => []
  | x :: xs' => x :: filter (fun y => negb (y =? x)%string) (unique xs')
  end.

(** [frame.dropna(subset=["Filled Time"])] *)
Definition dropna (rows : list Order) : list Order :=
  filter (fun o => negb (isna (FilledTime o))) rows.

(** Runs [_match_symbol_trades] in a frame of its own; its messages go to
    the same console, and an exception it raises is raised here. *)
Definition call_match_symbol_trades (symbol : string) (orders : list Order)
    : M Parser (list Trade.t) :=
  fun p =>
    let '(l, r) := _match_symbol_trades symbol orders (initial (output p)) in
    (mkParser (raw_orders p) (matched_trades p) (all_trades p) (console l), r).

Definition per_symbol (rows : list Order) (symbol : string) : M Parser unit :=
  try_except
    (let symbol_orders :=
       dropna (filter (fun o => (Symbol o =? symbol)%string) rows) in
     if (length symbol_orders =? 0)%nat then say (PrintNoValidOrders symbol)
     else
       say (PrintProcessing symbol (length symbol_orders)) ;;
       symbol_trades <- call_match_symbol_trades symbol symbol_orders ;;
       extend symbol_trades)
    (fun e => say (PrintSymbolError symbol e)).

Definition match_trades_with_scaling : M Parser (list Trade.t) :=
  raw <- gets raw_orders ;;
  match raw with
  | None => say PrintNoOrders ;; ret []
  | Some rows =>
      modify (fun p => mkParser (raw_orders p) (matched_trades p) [] (output p)) ;;
      for_each (unique (map Symbol rows)) (per_symbol rows) ;;
      ts <- gets all_trades ;;
      modify (fun p => mkParser (raw_orders p) ts (all_trades p) (output p)) ;;
      say (PrintMatched (length ts)) ;;
      ret ts
  end.

(** ** The loop as a fold *)

(** The locals after one row. *)
Definition step (symbol : string) (orders : list Order) (l : Locals)
    (order : Order) : Locals :=
  fst (iteration symbol orders order l).

(** The locals after the rows [rows], from [l]. *)
Definition run (symbol : string) (orders rows : list Order) (l : Locals)
    : Locals :=
  fold_left (step symbol orders) rows l.

End Matcher.

(* ================================================================== *)
(** * The timestamp normalizer *)
(* ================================================================== *)

Module Normalizer.
Import Py Clock.
Local Open Scope py_scope.

(** The warning printed by the handler: the text as it stands when the
    exception is raised, which is after the call to [strip], and the
    exception. *)
Inductive Warn : Type :=
| PrintFailed (dt_str : option string) (e : exn).

(** A result that is the missing-value marker or carries an Eastern
    offset. *)
Definition eastern_or_missing (dt : pytime) : Prop :=
  match dt with
  | NaT => True
  | Ts t => is_eastern t = true
  end.

Section Robust.

(** [pd.to_datetime(s, errors="coerce")], the permissive parser of pandas:
    it is not part of the repository and is left open. *)
Variable to_datetime_coerce : string -> result pytime.

Definition warn (w : Warn) : M (list Warn) unit :=
  modify (fun out : list Warn => (out ++ [w])%list).

(** The Webull layout: drop the zone letters, read the rest as
    month/day/year hour:minute:second, attach US/Eastern. *)
Definition webull (zone dt_str : string) : M (list Warn) pytime :=
  let dt_str_clean := strip (remove (" " ++ zone) dt_str) in
  dt <- lift (to_datetime_mdY_HMS dt_str_clean) ;;
  dt <- lift (localize_eastern dt) ;;
  ret (Ts dt).

(** One turn of the loop; a cell of the column is a text, or missing. *)
Definition parse_cell (cell : option string) : M (list Warn) pytime :=
  try_except
    (match cell with
     | None => ret NaT
     | Some s =>
         if (s =? "")%string then ret NaT
         else
           let dt_str := strip s in
           if contains "EDT" dt_str then webull "EDT" dt_str
           else if contains "EST" dt_str then webull "EST" dt_str
           else lift (to_datetime_coerce dt_str)
     end)
    (fun e => warn (PrintFailed (option_map strip cell) e) ;; ret NaT).

Fixpoint _parse_datetime_robust (datetime_series : list (option string))
    : M (list Warn) (list pytime) :=
  match datetime_series with
  | [] => ret []
  | cell :: rest =>
      dt <- parse_cell cell ;;
      parsed_times <- _parse_datetime_robust rest ;;
      ret (dt :: parsed_times)
  end.

End Robust.

End Normalizer.

(* ================================================================== *)
(** * Quantities the statements below compare the code with *)
(* ================================================================== *)

Module Spec.
Import Py Clock Matcher.

(** Total quantity of the Buy rows. *)
Definition bought (rows : list Order) : Z :=
  fold_right (fun o acc => if (Side o =? "Buy")%string then Filled o + acc else acc)
             0 rows.

(** Total quantity of a list of trades. *)
Definition sold (ts : list Trade.t) : Z :=
  fold_right (fun t acc => Trade.quantity t + acc) 0 ts.

(** Duration as the specification words it:
    [max(0, round(seconds / 60))]. *)
Definition rounded_minutes (seconds : Z) : Z :=
  Z.max 0 (round_half_even (inject_Z seconds / 60)%Q).

(** The Sell rows among [rows] that are later than [t]. *)
Definition later_sells (rows : list Order) (t : Timestamp) : list Order :=
  filter (fun o =>
            match cell_gt (FilledTime o) t with
            | Ok true => (Side o =? "Sell")%string
            | _ => false
            end) rows.

(** The provisional denominator as the specification words it: the number,
    at least 1, of Sell rows later than the entry among the rows not yet
    consumed. *)
Definition remaining_exits (unconsumed : list Order) (t : Timestamp) : Z :=
  Z.max (Z.of_nat (length (later_sells unconsumed t))) 1.

(** The denominator of a label [k/n]. *)
Definition denominator (scale_number : string) : string :=
  split_tail "/" scale_number.

(** Every timestamp of the rows can be compared with [t]. *)
Definition comparable (rows : list Order) (t : Timestamp) : Prop :=
  Forall (fun o => exists b, cell_gt (FilledTime o) t = Ok b) rows.

(** The rows of the specification's data model: a positive quantity. *)
Definition positive_quantities (rows : list Order) : Prop :=
  Forall (fun o => 0 < Filled o) rows.

End Spec.

(* ================================================================== *)
(** * Sample sessions *)
(* ================================================================== *)

Module Sample.
Import Py Clock Matcher.

(** 2025-09-15 09:30:00 on the Eastern daylight clock, plus [s] seconds. *)
Definition at_ (s : Z) : pytime :=
  Ts (mkTimestamp (1757928600 + s) (Some EDT)).

Definition buy (q : Z) (p : Q) (s : Z) : Order :=
  mkOrder "ACME" None "Buy" q (Fin p) (at_ s).

Definition sell (q : Z) (p : Q) (s : Z) : Order :=
  mkOrder "ACME" None "Sell" q (Fin p) (at_ s).

(** One entry closed in two legs. *)
Definition two_legs : list Order :=
  [buy 500 10 0; buy 500 12 60; sell 400 13 120; sell 600 14 180].

(** One entry closed in two legs, then a second entry. *)
Definition two_entries : list Order :=
  [buy 100 10 0; sell 30 11 100; sell 70 12 200; buy 50 10 300; sell 50 11 400].

(** One entry closed in three legs. *)
Definition three_legs : list Order :=
  [buy 100 10 0; sell 30 11 60; sell 30 11 120; sell 40 11 180].

(** An exit one hundred seconds after the entry. *)
Definition quick_exit : list Order :=
  [buy 100 10 0; sell 100 11 100].

(** A Buy whose price is missing, then a Sell. *)
Definition missing_price : list Order :=
  [mkOrder "ACME" None "Buy" 100 NaN (at_ 0); sell 100 11 60].

(** A Buy at price zero, then a Sell and a regular round trip. *)
Definition zero_price : list Order :=
  [buy 100 0 0; sell 100 11 60; buy 10 5 120; sell 110 6 180].

(** An average cost with more than two decimals. *)
Definition thirds : list Order :=
  [buy 100 10 0; buy 200 (1001 # 100) 60; sell 300 11 120].

Definition run_all (rows : list Order) : Locals :=
  run "ACME" rows rows (initial []).

End Sample.

(* ================================================================== *)
(** * What one row does to the locals *)
(* ================================================================== *)

Module Outcome.
Import Py Clock Matcher.
Local Open Scope list_scope.

(** The label and the position type a Sell gets, given what remains; the
    count of earlier legs is always zero, which makes every numerator 1. *)
Definition scale_of (orders : list Order) (et : option pytime) (remaining : Z)
    : string * string :=
  if 0 <? remaining
  then (("1/" ++ str (_estimate_total_exits orders et))%string, "Scale Out"%string)
  else ("1/1"%string, "Full Exit"%string).

(** The locals with other lines on the console. *)
Definition with_console (l : Locals) (out : list Diag) : Locals :=
  mkLocals (trades l) (position l) (avg_cost l) (entry_time l) (entry_orders l) out.

Definition warning (warned : bool) (symbol : string) : list Diag :=
  if warned then [PrintNoDuration symbol] else [].

(** The outcome of the duration block: the minutes or the exception, and
    whether the warning was printed. *)
Inductive duration_outcome (et : option pytime) (ot : pytime)
    : result Z -> bool -> Prop :=
| duration_known t u seconds :
    et = Some (Ts t) -> ot = Ts u -> ts_sub u t = Ok seconds ->
    duration_outcome et ot (Ok (Z.quot seconds 60)) false
| duration_raises t u e :
    et = Some (Ts t) -> ot = Ts u -> ts_sub u t = Raise e ->
    duration_outcome et ot (Raise e) false
| duration_unknown :
    et = None \/ et = Some NaT \/ ot = NaT ->
    duration_outcome et ot (Ok 0) true.

(** The locals once the trade [t] of quantity [q] is recorded. *)
Definition closed_or_reduced (l : Locals) (q : Z) (t : Trade.t) (out : list Diag)
    : Locals :=
  if position l - q <=? 0
  then mkLocals (trades l ++ [t]) 0 (of_int 0) None [] out
  else mkLocals (trades l ++ [t]) (position l - q) (avg_cost l) (entry_time l)
         (entry_orders l) out.

(** A Sell against an open position: the row is skipped, and only the
    console changes, or one trade is appended. *)
Inductive sell_outcome (symbol : string) (orders : list Order) (l : Locals)
    (o : Order) : Locals -> Prop :=
| sell_skipped_duration e :
    duration_outcome (entry_time l) (FilledTime o) (Raise e) false ->
    sell_outcome symbol orders l o
      (with_console l (console l ++ [PrintOrderError symbol e]))
| sell_skipped_trade d warned e :
    duration_outcome (entry_time l) (FilledTime o) (Ok d) warned ->
    create_trade symbol o (entry_time l) (avg_cost l)
      (Z.min (Filled o) (position l)) d
      (scale_of orders (entry_time l)
         (position l - Z.min (Filled o) (position l))) = Raise e ->
    sell_outcome symbol orders l o
      (with_console l
         (console l ++ warning warned symbol ++ [PrintOrderError symbol e]))
| sell_recorded d warned t :
    duration_outcome (entry_time l) (FilledTime o) (Ok d) warned ->
    create_trade symbol o (entry_time l) (avg_cost l)
      (Z.min (Filled o) (position l)) d
      (scale_of orders (entry_time l)
         (position l - Z.min (Filled o) (position l))) = Ok t ->
    sell_outcome symbol orders l o
      (closed_or_reduced l (Z.min (Filled o) (position l)) t
         (console l ++ warning warned symbol
            ++ [PrintExit symbol (Z.min (Filled o) (position l)) (AvgPrice o)
                  (Trade.pnl_dollar t)])).

(** The cost basis after adding [o] to an open position. *)
Definition averaged (l : Locals) (o : Order) : result pyfloat :=
  fdiv (fadd (fmul (of_int (position l)) (avg_cost l))
             (fmul (of_int (Filled o)) (AvgPrice o)))
       (of_int (position l + Filled o)).

(** A Buy: a new position, an addition, or an addition that brings the
    quantity to zero and fails in the division. *)
Inductive buy_outcome (symbol : string) (l : Locals) (o : Order) : Locals -> Prop :=
| buy_opens :
    position l = 0 ->
    buy_outcome symbol l o
      (mkLocals (trades l) (Filled o) (AvgPrice o) (Some (FilledTime o)) [o]
         (console l ++ [PrintEntry symbol (Filled o) (AvgPrice o)]))
| buy_adds a :
    position l <> 0 -> position l + Filled o <> 0 ->
    averaged l o = Ok a ->
    buy_outcome symbol l o
      (mkLocals (trades l) (position l + Filled o) a (entry_time l)
         (entry_orders l ++ [o])
         (console l ++ [PrintAdd symbol (Filled o) (AvgPrice o) a]))
| buy_fails :
    position l <> 0 -> position l + Filled o = 0 ->
    buy_outcome symbol l o
      (mkLocals (trades l) 0 (avg_cost l) (entry_time l) (entry_orders l)
         (console l ++ [PrintOrderError symbol ZeroDivisionError])).

End Outcome.

(* ================================================================== *)
(** * More sample sessions *)
(* ================================================================== *)

Module Sample2.
Import Py Clock Matcher.

Definition row (symbol side : string) (q : Z) (p : Q) (s : Z) : Order :=
  mkOrder symbol None side q (Fin p) (Sample.at_ s).

(** Two symbols whose rows alternate, and a row without a time. *)
Definition interleaved : list Order :=
  [row "ACME" "Buy" 100 10 0; row "BOLT" "Buy" 20 50 30;
   row "ACME" "Sell" 100 11 60;
   mkOrder "BOLT" None "Sell" 5 (Fin 52) NaT;
   row "BOLT" "Sell" 20 49 90].

End Sample2.

(* ================================================================== *)
(** * Relations between runs of the matcher *)
(* ================================================================== *)

Module Related.
Import Py Clock Matcher.
Local Open Scope list_scope.

(** Two frames of the matcher that hold the same position and, when it is
    open, the same cost basis and entry time.  The trades, the entry
    orders and the console may differ. *)
Definition agree (l l' : Locals) : Prop :=
  position l = position l'
  /\ (position l <> 0 -> avg_cost l = avg_cost l' /\ entry_time l = entry_time l').

(** The rows of one symbol that have a time, as the driver selects them. *)
Definition group (rows : list Order) (symbol : string) : list Order :=
  dropna (filter (fun o => (Symbol o =? symbol)%string) rows).

(** The trades of one symbol, matched in a frame of its own. *)
Definition matched (rows : list Order) (symbol : string) : list Trade.t :=
  trades (run symbol (group rows symbol) (group rows symbol) (initial [])).

(** Number of Sell rows. *)
Definition sells (rows : list Order) : nat :=
  length (filter (fun o => (Side o =? "Sell")%string) rows).

(** The instant of a timestamp, in seconds: the wall clock less the
    offset of the zone, when there is one. *)
Definition instant (t : Timestamp) : Z :=
  match utcoffset t with
  | Some off => wall t - off
  | None => wall t
  end.

Definition aware (t : Timestamp) : bool :=
  match utcoffset t with
  | Some _ => true
  | None => false
  end.

(** Rows that all have a time, all with a zone or all without. *)
Definition timed (zone : bool) (rows : list Order) : Prop :=
  Forall (fun o => exists t, FilledTime o = Ts t /\ aware t = zone) rows.

(** The time of a row, for rows that have one. *)
Definition instant_of (o : Order) : Z :=
  match FilledTime o with
  | Ts t => instant t
  | NaT => 0
  end.

(** Rows in time order. *)
Definition in_time_order (rows : list Order) : Prop :=
  StronglySorted (fun a b => instant_of a <= instant_of b) rows.

(** Rows that all have a time, and a frame that has an entry time while
    its position is open. *)
Definition has_times (l : Locals) (rows : list Order) : Prop :=
  Forall (fun o => isna (FilledTime o) = false) rows
  /\ (position l <> 0 -> exists et, entry_time l = Some (Ts et)).

(** The lines that warn of a duration that could not be computed. *)
Definition is_warning (d : Diag) : bool :=
  match d with
  | PrintNoDuration _ => true
  | _ => false
  end.

(** Rows in time order that all have a time of the kind [zone], and a
    frame whose entry time, while its position is open, is of that kind
    and not later than the rows still to come. *)
Definition ordered_from (zone : bool) (l : Locals) (rows : list Order) : Prop :=
  timed zone rows
  /\ in_time_order rows
  /\ (position l <> 0 ->
      exists et, entry_time l = Some (Ts et) /\ aware et = zone
                 /\ Forall (fun o => instant et <= instant_of o) rows).

(** [xs] is [ys] with some elements left out. *)
Inductive subsequence {A : Type} : list A -> list A -> Prop :=
| subsequence_nil : subsequence [] []
| subsequence_skip xs y ys : subsequence xs ys -> subsequence xs (y :: ys)
| subsequence_take x xs ys : subsequence xs ys -> subsequence (x :: xs) (x :: ys).

End Related.

(* ================================================================== *)
(** * The session summary of the parser *)
(* ================================================================== *)

Module Summary.
Import Py Clock Matcher.
Local Open Scope list_scope.

(** [x > 0] on a float: false for a NaN. *)
Definition fpos (x : pyfloat) : bool :=
  match x with
  | Fin q => negb (Qle_bool q 0)
  | NaN => false
  end.







End Summary.

(* ================================================================== *)
(** * The AI analyst *)
(* ================================================================== *)

Module Analyst.
Import Py Clock Matcher Summary.

(** ** [_extract_grade] *)

(** [for char in chars: if f"GRADE: {char}" in analysis: return char] *)
Fixpoint first_marked (chars : list string) (analysis : string) : option string :=
  match chars with
  | [] => None
  | char :: rest =>
      if contains ("GRADE: " ++ char) analysis then Some char
      else first_marked rest analysis
  end.

Definition _extract_grade (analysis : string) : string :=
  match first_marked ["A"; "B"; "C"; "D"; "F"]%string analysis with
  | Some char => char
  | None => "C"%string
  end.

(** ** The statistics of [analyze_trading_session] *)

(** [sum(t["pnl_dollar"] for t in trades_list)]: the built-in sum, from
    the left, starting at 0; a NaN makes it NaN. *)
Definition total_pnl (trades_list : list Trade.t) : pyfloat :=
  fold_left fadd (map Trade.pnl_dollar trades_list) (of_int 0).

(** [sum(t["duration_minutes"] ...) / len(trades_list)] *)
Definition avg_duration (trades_list : list Trade.t) : result pyfloat :=
  fdiv (of_int (fold_left Z.add (map Trade.duration_minutes trades_list) 0))
       (of_int (Z.of_nat (length trades_list))).

(** [sum(1 for t in trades_list if t["pnl_dollar"] > 0) / len(trades_list)] *)
Definition win_rate (trades_list : list Trade.t) : result pyfloat :=
  fdiv (of_int (Z.of_nat (length (filter (fun t => fpos (Trade.pnl_dollar t))
                                         trades_list))))
       (of_int (Z.of_nat (length trades_list))).

(** The answer of the messages API: the text of the first block of the
    response, or the message of the exception raised on the way. *)
Inductive reply : Type :=
| Text (text : string)
| Failed (message : string).

Section Client.

(** [client.messages.create(model=..., max_tokens=..., messages=[...])]
    followed by [response.content[0].text]. *)
Variable create : string -> Z -> string -> reply.

(** [str(x)] and [format(x, spec)] on a float, and on an integer. *)
Variable show : pyfloat -> string.
Variable format : string -> pyfloat -> string.

Definition model : string := "claude-sonnet-4-20250514".

Definition newline : string := String (ascii_of_nat 10) EmptyString.

(** [_create_analysis_prompt]; [voice_input] is [None] for [None]. *)
Definition _create_analysis_prompt (trade : Trade.t) (voice_input : option string)
    : string :=
  let voice_context :=
    match voice_input with
    | Some (String c s) =>
        newline ++ newline ++ "Trader's Commentary: " ++ String c s
    | _ => ""
    end in
  (newline
   ++ "Analyze this day trade for a trader who focuses on 7-10:30 AM momentum plays:"
   ++ newline ++ newline
   ++ "TRADE DETAILS:" ++ newline
   ++ "Symbol: " ++ Trade.symbol trade ++ " (" ++ Trade.company_name trade ++ ")"
   ++ newline
   ++ "Entry: $" ++ show (Trade.entry_price trade) ++ " at " ++ Trade.entry_time trade
   ++ newline
   ++ "Exit: $" ++ show (Trade.exit_price trade) ++ " at " ++ Trade.exit_time trade
   ++ newline
   ++ "P&L: $" ++ show (Trade.pnl_dollar trade)
   ++ " (" ++ format "+.1f" (Trade.pnl_percent trade) ++ "%)" ++ newline
   ++ "Duration: " ++ str (Trade.duration_minutes trade) ++ " minutes" ++ newline
   ++ "Position Type: " ++ Trade.position_type trade ++ newline
   ++ newline
   ++ voice_context ++ newline
   ++ newline
   ++ "Provide analysis in this format:" ++ newline
   ++ "ANALYSIS: [2-3 sentences about execution, setup quality, and market timing]"
   ++ newline
   ++ "LESSON: [Key takeaway for improvement]" ++ newline
   ++ "GRADE: [A/B/C/D/F based on process, not just outcome]" ++ newline
   ++ newline
   ++ "Focus on:" ++ newline
   ++ "- Trade execution and timing" ++ newline
   ++ "- Risk management " ++ newline
   ++ "- Emotional factors if mentioned" ++ newline
   ++ "- Specific improvements for next time" ++ newline)%string.

(** [analyze_trade]: the pair of [ai_analysis] and [trade_grade]; the
    line it prints when the call fails repeats the message and is left
    out. *)
Definition analyze_trade (trade_data : Trade.t) (voice_input : option string)
    : string * string :=
  let prompt := _create_analysis_prompt trade_data voice_input in
  match create model 500 prompt with
  | Text analysis => (analysis, _extract_grade analysis)
  | Failed e => (("Analysis failed: " ++ e)%string, "N/A"%string)
  end.

(** The lines of the session prompt that list the trades. *)
Fixpoint session_lines (i : nat) (trades_list : list Trade.t) : string :=
  match trades_list with
  | [] => ""
  | trade :: rest =>
      (str (Z.of_nat i) ++ ". " ++ Trade.symbol trade ++ ": $"
       ++ format "+.2f" (Trade.pnl_dollar trade) ++ " in "
       ++ str (Trade.duration_minutes trade) ++ "min" ++ newline
       ++ session_lines (S i) rest)%string
  end.

(** [analyze_trading_session]; the divisions are those of the two
    averages, which the test on the empty list keeps from raising. *)
Definition analyze_trading_session (trades_list : list Trade.t) : result string :=
  match trades_list with
  | [] => Ok "No trades to analyze"%string
  | _ =>
      match avg_duration trades_list, win_rate trades_list with
      | Ok avg, Ok win =>
          let session_prompt :=
            (newline ++ "Analyze this trading session for a day trader:" ++ newline
             ++ newline
             ++ "SESSION SUMMARY:" ++ newline
             ++ "Total Trades: " ++ str (Z.of_nat (length trades_list)) ++ newline
             ++ "Total P&L: $" ++ format ".2f" (total_pnl trades_list) ++ newline
             ++ "Win Rate: " ++ format ".1%" win ++ newline
             ++ "Avg Duration: " ++ format ".1f" avg ++ " minutes" ++ newline
             ++ newline
             ++ "INDIVIDUAL TRADES:" ++ newline
             ++ session_lines 1 trades_list
             ++ newline
             ++ "Provide session analysis focusing on:" ++ newline
             ++ "1. Overall patterns and recurring issues" ++ newline
             ++ "2. Risk management assessment  " ++ newline
             ++ "3. Three specific improvements for next session" ++ newline
             ++ "4. Psychological/emotional patterns observed" ++ newline
             ++ newline
             ++ "Keep response concise but actionable." ++ newline)%string in
          match create model 400 session_prompt with
          | Text text => Ok text
          | Failed e => Ok ("Session analysis failed: " ++ e)%string
          end
      | Raise e, _ => Raise e
      | _, Raise e => Raise e
      end
  end.

End Client.

End Analyst.

(* ================================================================== *)
(** * Sample replies *)
(* ================================================================== *)

Module Sample3.
Import Py Clock Matcher Analyst.

Definition graded_b (model : string) (max_tokens : Z) (prompt : string) : reply :=
  Text "Solid entry. GRADE: B".

Definition unreachable (model : string) (max_tokens : Z) (prompt : string) : reply :=
  Failed "connection error".

Definition show (x : pyfloat) : string := "0.0".

Definition format (spec : string) (x : pyfloat) : string := "+0.0".

Definition trade : Trade.t :=
  Trade.mk "2025-09-15" "ACME" "ACME" (Fin 10) "09:30:00 EDT" (Fin 11)
    "09:31:40 EDT" 100 (Fin 100) (Fin 10) 1 "1/1" "Full Exit" "" "" "" "" "" "" "".


End Sample3.

(* ================================================================== *)
(** * One cell of the column of times *)
(* ================================================================== *)

Module Cells.
Import Py Clock Normalizer.

Section Robust.
Variable coerce : string -> result pytime.

(** What [_parse_datetime_robust] appends for a cell that stands alone,
    and what it prints for it. *)
Definition cell_time (cell : option string) : pytime :=
  match snd (parse_cell coerce cell []) with
  | Ok dt => dt
  | Raise _ => NaT
  end.

Definition cell_warnings (cell : option string) : list Warn :=
  fst (parse_cell coerce cell []).

End Robust.

End Cells.

(* ================================================================== *)
(** * Reading and cleaning the orders *)
(* ================================================================== *)

Module Cleaner.
Import Py Clock Matcher Normalizer Related.
Local Open Scope list_scope.

(** A cell of a column that holds numbers, as [read_csv] delivers it: a
    number, or a text when the column could not be read as numbers. *)
Inductive cell : Type :=
| Number (x : pyfloat)
| Words (s : string).

(** A row of the frame that [read_csv] returns, for a file with the
    columns Symbol, Side, Status, Filled, Avg Price and Filled Time;
    [Name] and [Price] are [None] when the file has no such column, and
    [FilledTime] is [None] for an empty cell. *)
Module Raw.
Record t : Type := mk {
  Symbol : string;
  Name : option string;
  Side : string;
  Status : string;
  Filled : Z;
  Price : option cell;
  AvgPrice : cell;
  FilledTime : option string
}.
End Raw.

(** A row of the cleaned frame: the columns the matcher reads, and the
    two it does not. *)
Record Row : Type := mkRow {
  order : Order;
  Status : string;
  Price : option pyfloat
}.

(** What made the parsing fail: the reading, with the message of its
    exception, or an exception of the cleaning. *)
Inductive failure : Type :=
| Reading (message : string)
| Cleaning (e : exn).

(** What [parse_webull_csv] and [_clean_webull_data] print; the warnings
    of the normalizer go to the same console. *)
Inductive Note : Type :=
| Loaded (n : nat)
| Columns
| Parsing
| Warned (w : Warn)
| FailedCount (n : nat)
| FailedHeader
| FailedRow (index : nat)
| FilledCount (n : nat)
| SampleHeader
| SampleRow (symbol side : string) (time : pytime)
| ParseError (e : failure).

(** What [pd.read_csv] gives: a frame, or the message of the exception
    it raised. *)
Inductive loaded : Type :=
| Frame (rows : list Raw.t)
| Unreadable (message : string).

(** ** [sort_values(["Symbol", "Filled Time"], na_position="last")] *)

(** Order of two cells of the time column, the missing ones last. *)
Definition time_le (a b : pytime) : bool :=
  match a, b with
  | Ts x, Ts y => instant x <=? instant y
  | Ts _, NaT => true
  | NaT, Ts _ => false
  | NaT, NaT => true
  end.

(** Order of two rows: by symbol, then by time. *)
Definition row_le (a b : Row) : bool :=
  match String.compare (Symbol (order a)) (Symbol (order b)) with
  | Lt => true
  | Eq => time_le (FilledTime (order a)) (FilledTime (order b))
  | Gt => false
  end.

(** Rows with the same symbol and the same time. *)
Definition same_key (a b : Row) : bool := row_le a b && row_le b a.

(** Puts a row before the first row it does not come after. *)
Fixpoint insert (x : Row) (ys : list Row) : list Row :=
  match ys with
  | [] => [x]
  | y :: ys' => if row_le x y then x :: ys else y :: insert x ys'
  end.

(** The rows in order, rows with equal keys as they were. *)
Definition sorted_rows (rows : list Row) : list Row :=
  fold_right insert [] rows.

(** Whether the times that are not missing are all with a zone or all
    without: ordering a column that mixes the two raises. *)
Definition kinds (rows : list Row) : list bool :=
  flat_map (fun r => match FilledTime (order r) with
                     | Ts t => [aware t]
                     | NaT => []
                     end) rows.

(** The rows whose time, when they have one, is of the kind [zone]. *)
Definition of_kind (zone : bool) (rows : list Row) : Prop :=
  Forall (fun r => match FilledTime (order r) with
                   | Ts t => aware t = zone
                   | NaT => True
                   end) rows.

Definition one_kind (rows : list Row) : bool :=
  match kinds rows with
  | [] => true
  | zone :: rest => forallb (Bool.eqb zone) rest
  end.

Definition sort_values (rows : list Row) : result (list Row) :=
  if one_kind rows then Ok (sorted_rows rows) else Raise TypeError.

(** The indices of the rows whose time is missing. *)
Fixpoint failed_rows (i : nat) (times : list pytime) : list nat :=
  match times with
  | [] => []
  | t :: rest => if isna t then i :: failed_rows (S i) rest
                 else failed_rows (S i) rest
  end.

Section Pandas.

(** [pd.to_numeric] on a text, with [errors="coerce"]; [str] on a float;
    the generic parser of timestamps; [pd.read_csv]. *)
Variable numeric : string -> pyfloat.
Variable show : pyfloat -> string.
Variable coerce : string -> result pytime.
Variable read_csv : string -> loaded.

(** [pd.to_numeric(column, errors="coerce")] on a cell. *)
Definition to_numeric (c : cell) : pyfloat :=
  match c with
  | Number x => x
  | Words s => numeric s
  end.

(** [column.astype(str).str.replace("@", "").str.replace(",", "")] *)
Definition clean_price (c : cell) : string :=
  let text := match c with Number x => show x | Words s => s end in
  remove "," (remove "@" text).

(** The row with its cleaned cells and its parsed time. *)
Definition cleaned (r : Raw.t) (time : pytime) : Row :=
  mkRow (mkOrder (Raw.Symbol r) (Raw.Name r) (Raw.Side r) (Raw.Filled r)
                 (to_numeric (Raw.AvgPrice r)) time)
        (Raw.Status r)
        (option_map (fun c => numeric (clean_price c)) (Raw.Price r)).

(** The frame before it is sorted, given the parsed column of times. *)
Definition with_times (df : list Raw.t) (times : list pytime) : list Row :=
  map (fun rt => cleaned (fst rt) (snd rt)) (combine df times).

(** [_clean_webull_data]: what is printed, and the cleaned frame or the
    exception. *)
Definition _clean_webull_data (df : list Raw.t) : list Note * result (list Row) :=
  match _parse_datetime_robust coerce (map Raw.FilledTime df) [] with
  | (warnings, Raise e) => (Parsing :: map Warned warnings, Raise e)
  | (warnings, Ok times) =>
      let failed := failed_rows 0 times in
      let notes :=
        Parsing :: map Warned warnings
        ++ (if (0 <? length failed)%nat
            then FailedCount (length failed) :: FailedHeader :: map FailedRow failed
            else []) in
      (notes, sort_values (with_times df times))
  end.

(** [parse_webull_csv]: the parser afterwards, what is printed, and the
    frame returned ([None] for [None]). *)
Definition parse_webull_csv (self : Parser) (csv_file_path : string)
    : Parser * list Note * option (list Row) :=
  match read_csv csv_file_path with
  | Unreadable message => (self, [ParseError (Reading message)], None)
  | Frame df =>
      let notes := [Loaded (length df); Columns] in
      match _clean_webull_data df with
      | (more, Raise e) =>
          (self, notes ++ more ++ [ParseError (Cleaning e)], None)
      | (more, Ok cleaned_df) =>
          let filled_orders :=
            filter (fun r => (Status r =? "Filled")%string) cleaned_df in
          let sample :=
            map (fun r => SampleRow (Symbol (order r)) (Side (order r))
                                    (FilledTime (order r)))
                (firstn 3 filled_orders) in
          (mkParser (Some (map order filled_orders)) (matched_trades self)
                    (all_trades self) (output self),
           notes ++ more ++ [FilledCount (length filled_orders); SampleHeader]
             ++ sample,
           Some filled_orders)
      end
  end.

End Pandas.

End Cleaner.

(* ================================================================== *)
(** * A sample file *)
(* ================================================================== *)

Module Sample4.
Import Py Clock Matcher Normalizer Cleaner.
Local Open Scope list_scope.

Definition numeric (s : string) : pyfloat := NaN.

Definition show (x : pyfloat) : string := "0.0".

(** A file listed latest first, with a cancelled order and an empty
    time. *)
Definition file : list Raw.t :=
  [Raw.mk "ACME" (Some "Acme Corp") "Sell" "Filled" 100 (Some (Words "@11.00"))
     (Number (Fin 11)) (Some "09/15/2025 09:49:00 EDT");
   Raw.mk "BOLT" None "Buy" "Cancelled" 10 None (Number NaN) None;
   Raw.mk "ACME" (Some "Acme Corp") "Buy" "Filled" 100 (Some (Words "@10.00"))
     (Number (Fin 10)) (Some "09/15/2025 09:30:00 EDT")].

Definition read_csv (path : string) : loaded :=
  if (path =? "orders.csv")%string then Frame file
  else Unreadable "No such file or directory".

(** A file that mixes a timestamp with a zone and one without. *)
Definition mixed : list Raw.t :=
  [Raw.mk "ACME" None "Buy" "Filled" 100 None (Number (Fin 10))
     (Some "09/15/2025 09:30:00 EDT");
   Raw.mk "ACME" None "Sell" "Filled" 100 None (Number (Fin 11))
     (Some "2025-09-15 09:49:00")].

Definition fresh : Parser := mkParser None [] [] [].

(** The column of times of [file], parsed. *)
Definition times : list Warn * list pytime :=
  match _parse_datetime_robust to_datetime_iso (map Raw.FilledTime file) [] with
  | (warnings, Ok ts) => (warnings, ts)
  | (warnings, Raise _) => (warnings, [])
  end.

(** What parsing [file] gives: the parser, what was printed and the rows
    returned. *)
Definition parsed : Parser * list Note * option (list Row) :=
  Eval vm_compute in parse_webull_csv numeric show to_datetime_iso read_csv fresh "orders.csv".

Definition rows : list Row :=
  match parsed with
  | (_, _, Some rows) => rows
  | (_, _, None) => []
  end.

End Sample4.

(* ================================================================== *)
(** * Binary64 arithmetic *)
(* ================================================================== *)

Module Binary64.

(** The exponent [e] of a number other than zero:
    [2^(e-1) <= |x| < 2^e]. *)
Definition exponent (x : Q) : Z :=
  let e0 := Z.log2 (Z.abs (Qnum x)) - Z.log2 (Zpos (Qden x)) in
  if Qle_bool (2 ^ e0) (Qabs x) then e0 + 1 else e0.

(** The nearest number with 53 significant bits, ties to the even one:
    what a binary64 operation returns when [x] is its exact result.
    Overflow, the subnormal numbers and the sign of zero are not
    modelled. *)
Definition nearest (x : Q) : Q :=
  if Qeq_bool x 0 then 0%Q
  else
    let s := 53 - exponent x in
    Qred (inject_Z (Py.round_half_even (x * 2 ^ s)) / 2 ^ s).

(** The unit roundoff, [2^-53]. *)
Definition u : Q := 1 # 9007199254740992.

(** [x] to the power [k]. *)
Fixpoint power (x : Q) (k : nat) : Q :=
  match k with
  | O => 1
  | S k' => x * power x k'
  end.

End Binary64.

(* ================================================================== *)
(** * The loop of the matcher with rounded arithmetic *)
(* ================================================================== *)

Module Rounded.
Import Py Clock Matcher.
Local Open Scope py_scope.

Section Arithmetic.

(** What an operation returns for its exact result: [Binary64.nearest]
    for the floats of Python, the identity for the exact arithmetic of
    [Matcher]. *)
Variable rnd : Q -> Q.

(** [float(z)], the conversion an [int] undergoes next to a float. *)
Definition of_int_r (z : Z) : pyfloat := Fin (rnd (inject_Z z)).

Definition add_r (a b : pyfloat) : pyfloat :=
  match a, b with
  | Fin x, Fin y => Fin (rnd (x + y))
  | _, _ => NaN
  end.

Definition sub_r (a b : pyfloat) : pyfloat :=
  match a, b with
  | Fin x, Fin y => Fin (rnd (x - y))
  | _, _ => NaN
  end.

Definition mul_r (a b : pyfloat) : pyfloat :=
  match a, b with
  | Fin x, Fin y => Fin (rnd (x * y))
  | _, _ => NaN
  end.

Definition div_r (a b : pyfloat) : result pyfloat :=
  if is_zero b then Raise ZeroDivisionError
  else match a, b with
       | Fin x, Fin y => Ok (Fin (rnd (x / y)))
       | _, _ => Ok NaN
       end.

(** [round(x, 2)]: the decimal nearest to the float, ties to even, and
    then the float nearest to that decimal. *)
Definition round2_r (a : pyfloat) : pyfloat :=
  match a with
  | Fin x => Fin (rnd (inject_Z (round_half_even (x * 100)) / 100))
  | NaN => NaN
  end.

(** The Buy branch, lines 167 to 186. *)
Definition on_buy_r (symbol : string) (order : Order) : M Locals unit :=
  position0 <- gets position ;;
  if position0 =? 0 then
    set_entry_time (Some (FilledTime order)) ;;
    set_avg_cost (AvgPrice order) ;;
    set_position (Filled order) ;;
    set_entry_orders [order] ;;
    print (PrintEntry symbol (Filled order) (AvgPrice order))
  else
    avg_cost0 <- gets avg_cost ;;
    let total_cost :=
      add_r (mul_r (of_int_r position0) avg_cost0)
            (mul_r (of_int_r (Filled order)) (AvgPrice order)) in
    set_position (position0 + Filled order) ;;
    position1 <- gets position ;;
    avg_cost1 <- lift (div_r total_cost (of_int_r position1)) ;;
    set_avg_cost avg_cost1 ;;
    entry_orders0 <- gets entry_orders ;;
    set_entry_orders (entry_orders0 ++ [order]) ;;
    print (PrintAdd symbol (Filled order) (AvgPrice order) avg_cost1).

(** "Create trade record", lines 256 to 300. *)
Definition create_trade_r (symbol : string) (order : Order)
    (entry_time0 : option pytime) (avg_cost0 : pyfloat) (exit_quantity : Z)
    (duration_minutes : Z) (scale : string * string) : result Trade.t :=
  let entry_time_str :=
    match entry_time0 with
    | Some (Ts et) => strftime_HMS_EDT et
    | _ => "Unknown"
    end in
  let exit_time_str :=
    match FilledTime order with
    | Ts ot => strftime_HMS_EDT ot
    | NaT => "Unknown"
    end in
  let date_str :=
    match entry_time0 with
    | Some (Ts et) => strftime_Ymd et
    | _ => "Unknown"
    end in
  let pnl_dollar :=
    round2_r (mul_r (sub_r (AvgPrice order) avg_cost0) (of_int_r exit_quantity)) in
  match div_r (sub_r (AvgPrice order) avg_cost0) avg_cost0 with
  | Raise e => Raise e
  | Ok ratio =>
      Ok (Trade.mk date_str symbol
            (match Name order with Some n => n | None => symbol end)
            (round2_r avg_cost0) entry_time_str (AvgPrice order) exit_time_str
            exit_quantity pnl_dollar (round2_r (mul_r ratio (of_int_r 100)))
            duration_minutes (fst scale) (snd scale)
            "" "" "" "" "" "" "")
  end.

(** The Sell branch, lines 188 to 315. *)
Definition on_sell_r (symbol : string) (orders : list Order) (order : Order)
    : M Locals unit :=
  position0 <- gets position ;;
  let exit_quantity := Z.min (Filled order) position0 in
  entry_time0 <- gets entry_time ;;
  duration_minutes <- calculate_duration symbol entry_time0 order ;;
  let remaining_after_exit := position0 - exit_quantity in
  scale <- scale_information symbol orders entry_time0 remaining_after_exit ;;
  avg_cost0 <- gets avg_cost ;;
  trade <- lift (create_trade_r symbol order entry_time0 avg_cost0 exit_quantity
                   duration_minutes scale) ;;
  trades1 <- gets trades ;;
  set_trades (trades1 ++ [trade]) ;;
  print (PrintExit symbol exit_quantity (AvgPrice order) (Trade.pnl_dollar trade)) ;;
  update_position exit_quantity.

Definition body_r (symbol : string) (orders : list Order) (order : Order)
    : M Locals unit :=
  if (Side order =? "Buy")%string then on_buy_r symbol order
  else
    position0 <- gets position ;;
    if (Side order =? "Sell")%string && (0 <? position0)
    then on_sell_r symbol orders order
    else ret tt.

Definition iteration_r (symbol : string) (orders : list Order) (order : Order)
    : M Locals unit :=
  try_except (body_r symbol orders order)
             (fun e => print (PrintOrderError symbol e)).

Definition step_r (symbol : string) (orders : list Order) (l : Locals)
    (order : Order) : Locals :=
  fst (iteration_r symbol orders order l).

Definition run_r (symbol : string) (orders rows : list Order) (l : Locals)
    : Locals :=
  fold_left (step_r symbol orders) rows l.

(** The cost basis after adding [o] to an open position. *)
Definition averaged_r (l : Locals) (o : Order) : result pyfloat :=
  div_r (add_r (mul_r (of_int_r (position l)) (avg_cost l))
               (mul_r (of_int_r (Filled o)) (AvgPrice o)))
        (of_int_r (position l + Filled o)).

End Arithmetic.

(** The loop as Python runs it. *)
Definition step64 : string -> list Order -> Locals -> Order -> Locals :=
  step_r Binary64.nearest.

Definition run64 : string -> list Order -> list Order -> Locals -> Locals :=
  run_r Binary64.nearest.

End Rounded.

(* ================================================================== *)
(** * The lots of an open position *)
(* ================================================================== *)

Module Lots.
Import Py Clock Matcher Binary64 Rounded.
Local Open Scope list_scope.

(** What a Buy fill contributes to the open position: the number of its
    shares still held, and its price. *)
Definition lot : Type := (Q * Q)%type.

Definition held (lots : list lot) : Q :=
  fold_right (fun x acc => (fst x + acc)%Q) 0%Q lots.

Definition cost (lots : list lot) : Q :=
  fold_right (fun x acc => (fst x * snd x + acc)%Q) 0%Q lots.

(** The quantity-weighted mean price of the shares held. *)
Definition mean_price (lots : list lot) : Q := (cost lots / held lots)%Q.

(** Every lot keeps the same share of its quantity. *)
Definition keep (share : Q) (lots : list lot) : list lot :=
  map (fun x => ((fst x * share)%Q, snd x)) lots.

Definition price (o : Order) : Q :=
  match AvgPrice o with
  | Fin p => p
  | NaN => 0%Q
  end.

(** The lots after a row, read off the row alone: a Buy is one more lot;
    a Sell of at least what is held closes the position and leaves no
    lot; a smaller Sell takes its shares from all lots alike; any other
    row changes nothing. *)
Definition lots_step (lots : list lot) (o : Order) : list lot :=
  if (Side o =? "Buy")%string then lots ++ [(inject_Z (Filled o), price o)]
  else if (Side o =? "Sell")%string then
    if Qle_bool (held lots) (inject_Z (Filled o)) then []
    else keep ((held lots - inject_Z (Filled o)) / held lots)%Q lots
  else lots.

(** The lots of the position after the rows [rows], from a flat
    position. *)
Definition lots_of (rows : list Order) : list lot :=
  fold_left lots_step rows [].

(** The Buy rows have a price, and it satisfies [P]. *)
Definition priced (P : Q -> Prop) (rows : list Order) : Prop :=
  Forall (fun o => Side o = "Buy"%string -> exists p, AvgPrice o = Fin p /\ P p) rows.

(** The number of roundings behind a cost basis made of [lots]: three for
    each Buy that was added to the first. *)
Definition roundings (lots : list lot) : nat := 3 * (length lots - 1).

(** The cost basis [a] is the mean price of the lots, up to [k]
    roundings. *)
Definition near_mean (k : nat) (lots : list lot) (a : Q) : Prop :=
  (power (1 - u) k * mean_price lots <= a)%Q
  /\ (a <= power (1 + u) k * mean_price lots)%Q.

(** What holds of the locals and the lots before the rows [rest]. *)
Definition basis_ok (P : Q -> Prop) (zone : bool) (l : Locals)
    (lots : list lot) (rest : list Order) : Prop :=
  Spec.positive_quantities rest
  /\ priced P rest
  /\ Related.timed zone rest
  /\ 0 <= position l
  /\ position l + Spec.bought rest < 2 ^ 53
  /\ Forall (fun x => (0 < fst x)%Q /\ P (snd x)) lots
  /\ (held lots == inject_Z (position l))%Q
  /\ (0 < position l ->
      (exists t, entry_time l = Some (Ts t) /\ Related.aware t = zone)
      /\ exists a, avg_cost l = Fin a
                   /\ (power (1 - u) (roundings lots) * cost lots
                       <= inject_Z (position l) * a)%Q
                   /\ (inject_Z (position l) * a
                       <= power (1 + u) (roundings lots) * cost lots)%Q).

End Lots.

(* ================================================================== *)
(** * Sample sessions with floats *)
(* ================================================================== *)

Module Sample5.
Import Py Clock Matcher.

(** The float written 1.11. *)
Definition price : Q := Binary64.nearest (111 # 100).

(** Two Buys at 1.11. *)
Definition two_buys : list Order :=
  [Sample.buy 200 price 0; Sample.buy 300 price 60].

(** A part of the position is sold before more is bought. *)
Definition buy_sell_buy : list Order :=
  [Sample.buy 100 10 0; Sample.sell 50 11 60; Sample.buy 50 20 120].

End Sample5.

(* ================================================================== *)
(** * Facts about the matcher *)
(* ================================================================== *)

Module Facts.
Import Py Clock Matcher Spec Outcome.
Local Open Scope py_scope.
Local Open Scope list_scope.

(** ** The key of an entry never matches *)

Lemma py_eq_str_time (s : string) (et : option pytime) :
  py_eq (VStr s) (time_val et) = false.
Proof. destruct et as [[|t]|]; reflexivity. Qed.

Lemma same_entry_false (symbol : string) (et : option pytime) (t : Trade.t) :
  same_entry symbol et t = false.
Proof. unfold same_entry. rewrite py_eq_str_time. apply andb_false_r. Qed.

Lemma filter_same_entry (symbol : string) (et : option pytime) (ts : list Trade.t) :
  filter (same_entry symbol et) ts = [].
Proof.
  induction ts as [|t ts IH]; cbn [filter]; [reflexivity|].
  now rewrite same_entry_false.
Qed.

Lemma update_previous_id (symbol : string) (et : option pytime) (k : Z)
    (ts : list Trade.t) :
  update_previous symbol et k ts = ts.
Proof.
  unfold update_previous. rewrite <- (map_id ts) at 2. apply map_ext.
  intros t. now rewrite same_entry_false.
Qed.

(** ** The estimate *)

Lemma future_sells_later (orders : list Order) (t : Timestamp) :
  comparable orders t -> future_sells orders t = Ok (later_sells orders t).
Proof.
  unfold comparable, later_sells.
  induction 1 as [|o rest [b Hb] _ IH]; cbn [future_sells filter]; [reflexivity|].
  rewrite Hb, IH. destruct b; cbn [andb]; [|reflexivity].
  now destruct (Side o =? "Sell")%string.
Qed.

Lemma future_sells_raises (orders : list Order) (t : Timestamp) :
  Exists (fun o => exists e, cell_gt (FilledTime o) t = Raise e) orders ->
  exists e, future_sells orders t = Raise e.
Proof.
  induction 1 as [o rest [e He]|o rest _ [e IH]]; cbn [future_sells].
  - rewrite He. now exists e.
  - rewrite IH. destruct (cell_gt (FilledTime o) t) as [b|e']; eauto.
Qed.

(** ** The blocks of a Sell *)

Lemma scale_information_run symbol orders et remaining l :
  scale_information symbol orders et remaining l
  = (l, Ok (scale_of orders et remaining)).
Proof.
  destruct l as [ts p a et' eo c].
  unfold scale_information, scale_of, bind, gets, ret, set_trades, modify.
  cbn [trades position avg_cost entry_time entry_orders console].
  rewrite filter_same_entry, update_previous_id. cbn [length Z.of_nat Z.add].
  destruct (0 <? remaining); reflexivity.
Qed.

Lemma calculate_duration_run symbol et o l :
  exists r warned,
    duration_outcome et (FilledTime o) r warned
    /\ calculate_duration symbol et o l
       = (with_console l (console l ++ warning warned symbol), r).
Proof.
  unfold calculate_duration.
  destruct et as [[|t]|]; [| destruct (FilledTime o) as [|u] eqn:Eo |].
  - exists (Ok 0), true. split; [constructor; auto | reflexivity].
  - exists (Ok 0), true. split; [constructor; auto | reflexivity].
  - unfold bind, lift. destruct (ts_sub u t) as [s|e] eqn:Es.
    + exists (Ok (Z.quot s 60)), false.
      split; [econstructor; eauto |].
      destruct l; unfold with_console, warning, ret; cbn. now rewrite app_nil_r.
    + exists (Raise e), false.
      split; [econstructor; eauto |].
      destruct l; unfold with_console, warning; cbn. now rewrite app_nil_r.
  - exists (Ok 0), true. split; [constructor; auto | reflexivity].
Qed.

Lemma duration_raise_not_warned et ot e w :
  duration_outcome et ot (Raise e) w -> w = false.
Proof. now inversion 1. Qed.

Ltac locals :=
  unfold closed_or_reduced, with_console, update_position, bind, gets, lift,
    set_trades, set_position, set_avg_cost, set_entry_time, set_entry_orders,
    print, modify, ret;
  cbn [fst snd trades position avg_cost entry_time entry_orders console].

Lemma step_sell symbol orders l o :
  Side o = "Sell"%string -> 0 < position l ->
  sell_outcome symbol orders l o (step symbol orders l o).
Proof.
  intros HS Hp. unfold step, iteration, try_except, body.
  rewrite HS. cbn [String.eqb Ascii.eqb Bool.eqb andb].
  unfold bind at 1, gets at 1.
  destruct (0 <? position l) eqn:E; [|apply Z.ltb_ge in E; lia].
  unfold on_sell. unfold bind at 1, gets at 1. unfold bind at 1, gets at 1.
  unfold bind at 1.
  destruct (calculate_duration_run symbol (entry_time l) o l) as (r & w & Hd & ->).
  destruct r as [d|e].
  2:{ pose proof (duration_raise_not_warned _ _ _ _ Hd) as ->.
      replace (fst _) with
        (with_console l (console l ++ [PrintOrderError symbol e])).
      - now apply sell_skipped_duration.
      - destruct l. locals. unfold warning. now rewrite app_nil_r. }
  unfold bind at 1. rewrite scale_information_run.
  unfold bind at 1, gets at 1. unfold bind at 1, lift at 1.
  cbn [with_console avg_cost].
  set (q := Z.min (Filled o) (position l)) in *.
  destruct (create_trade _ _ _ _ _ _ _) as [t|e] eqn:Et.
  - replace (fst _) with
      (closed_or_reduced l q t
         (console l ++ warning w symbol
            ++ [PrintExit symbol q (AvgPrice o) (Trade.pnl_dollar t)])).
    + now apply (sell_recorded symbol orders l o d w).
    + destruct l as [ts p a et eo c]. locals.
      destruct (p - q <=? 0); now rewrite <- app_assoc.
  - replace (fst _) with
      (with_console l (console l ++ warning w symbol ++ [PrintOrderError symbol e])).
    + now apply (sell_skipped_trade symbol orders l o d w).
    + destruct l. locals. now rewrite <- app_assoc.
Qed.

Lemma step_ignored symbol orders l o :
  Side o <> "Buy"%string -> (Side o <> "Sell"%string \/ position l <= 0) ->
  step symbol orders l o = l.
Proof.
  intros HB H. unfold step, iteration, try_except, body.
  destruct (String.eqb_spec (Side o) "Buy"); [contradiction|].
  unfold bind, gets.
  destruct (String.eqb_spec (Side o) "Sell"); cbn [andb]; [|reflexivity].
  destruct H as [H|H]; [contradiction|].
  destruct (0 <? position l) eqn:E; [apply Z.ltb_lt in E; lia | reflexivity].
Qed.

Lemma is_zero_of_int (z : Z) : is_zero (of_int z) = (z =? 0).
Proof.
  unfold is_zero, of_int.
  destruct (Z.eqb_spec z 0) as [->|Hz]; [reflexivity|].
  apply not_true_iff_false. intros H. apply Qeq_bool_iff in H.
  apply Hz. now apply inject_Z_injective.
Qed.

Lemma step_buy symbol orders l o :
  Side o = "Buy"%string -> buy_outcome symbol l o (step symbol orders l o).
Proof.
  intros HB. unfold step, iteration, try_except, body. rewrite HB.
  cbn [String.eqb Ascii.eqb Bool.eqb]. unfold on_buy.
  unfold bind at 1, gets at 1.
  destruct (Z.eqb_spec (position l) 0) as [Hz|Hz].
  - replace (fst _) with
      (mkLocals (trades l) (Filled o) (AvgPrice o) (Some (FilledTime o)) [o]
         (console l ++ [PrintEntry symbol (Filled o) (AvgPrice o)])).
    + now apply buy_opens.
    + destruct l. locals. reflexivity.
  - unfold bind at 1, gets at 1. unfold bind at 1, set_position at 1, modify at 1.
    unfold bind at 1, gets at 1. cbn [position]. unfold bind at 1, lift at 1.
    fold (averaged l o).
    destruct (averaged l o) as [a|e] eqn:Ea.
    + assert (position l + Filled o <> 0) as Hnz.
      { intros Hs. unfold averaged, fdiv in Ea.
        rewrite is_zero_of_int, Hs in Ea. discriminate. }
      replace (fst _) with
        (mkLocals (trades l) (position l + Filled o) a (entry_time l)
           (entry_orders l ++ [o])
           (console l ++ [PrintAdd symbol (Filled o) (AvgPrice o) a])).
      * now apply buy_adds.
      * destruct l. locals. reflexivity.
    + assert (position l + Filled o = 0 /\ e = ZeroDivisionError) as [Hs ->].
      { unfold averaged, fdiv in Ea. rewrite is_zero_of_int in Ea.
        destruct (Z.eqb_spec (position l + Filled o) 0).
        - split; [assumption | congruence].
        - destruct (fadd _ _); discriminate. }
      replace (fst _) with
        (mkLocals (trades l) 0 (avg_cost l) (entry_time l) (entry_orders l)
           (console l ++ [PrintOrderError symbol ZeroDivisionError])).
      * now apply buy_fails.
      * destruct l. locals. cbn [position] in Hs. now rewrite Hs.
Qed.

(** ** What a recorded trade holds *)

Lemma create_trade_ok symbol o et a q d sc t :
  create_trade symbol o et a q d sc = Ok t ->
  Trade.symbol t = symbol
  /\ Trade.quantity t = q
  /\ Trade.entry_price t = round2 a
  /\ Trade.exit_price t = AvgPrice o
  /\ Trade.pnl_dollar t = round2 (fmul (fsub (AvgPrice o) a) (of_int q))
  /\ (exists ratio, fdiv (fsub (AvgPrice o) a) a = Ok ratio
                    /\ Trade.pnl_percent t = round2 (fmul ratio (of_int 100)))
  /\ Trade.duration_minutes t = d
  /\ Trade.scale_number t = fst sc
  /\ Trade.position_type t = snd sc.
Proof.
  unfold create_trade. destruct (fdiv (fsub (AvgPrice o) a) a) as [ratio|e] eqn:E;
    [|discriminate].
  intros [= <-]. cbn. repeat split; try reflexivity. now exists ratio.
Qed.

Lemma create_trade_raises symbol o et a q d sc :
  is_zero a = true -> create_trade symbol o et a q d sc = Raise ZeroDivisionError.
Proof. intros H. unfold create_trade, fdiv. now rewrite H. Qed.

Lemma create_trade_defined symbol o et a q d sc :
  is_zero a = false -> exists t, create_trade symbol o et a q d sc = Ok t.
Proof.
  intros H. unfold create_trade, fdiv. rewrite H.
  destruct (fsub (AvgPrice o) a), a; eexists; reflexivity.
Qed.

(** ** Runs *)

Lemma run_app symbol orders rows rows' l :
  run symbol orders (rows ++ rows') l
  = run symbol orders rows' (run symbol orders rows l).
Proof. apply fold_left_app. Qed.

Lemma sold_app ts ts' : sold (ts ++ ts') = sold ts + sold ts'.
Proof.
  unfold sold. induction ts as [|t ts IH]; cbn [app fold_right]; [reflexivity|].
  rewrite IH. apply Z.add_assoc.
Qed.

Lemma bought_cons o rows : bought (o :: rows) = bought [o] + bought rows.
Proof. unfold bought. cbn [fold_right]. destruct (Side o =? "Buy")%string; lia. Qed.

Lemma closed_or_reduced_position l q t out :
  q <= position l -> position (closed_or_reduced l q t out) = position l - q.
Proof.
  intros H. unfold closed_or_reduced.
  destruct (Z.leb_spec (position l - q) 0); cbn [position]; lia.
Qed.

Lemma closed_or_reduced_trades l q t out :
  trades (closed_or_reduced l q t out) = trades l ++ [t].
Proof. unfold closed_or_reduced. now destruct (position l - q <=? 0). Qed.

(** One row appends at most one trade, and what it adds to the position
    and to the trades is what it bought. *)
Lemma step_balance symbol orders l o :
  exists new,
    trades (step symbol orders l o) = trades l ++ new
    /\ position (step symbol orders l o) + sold new = position l + bought [o].
Proof.
  unfold bought. cbn [fold_right].
  destruct (String.eqb_spec (Side o) "Buy") as [HB|HB]; cbv beta iota.
  - exists []. rewrite app_nil_r. cbn [sold fold_right].
    destruct (step_buy symbol orders l o HB); cbn [trades position];
      split; try reflexivity; lia.
  - destruct (String.eqb_spec (Side o) "Sell") as [HS|HS];
      [destruct (Z.lt_ge_cases 0 (position l)) as [Hp|Hp]|].
    + destruct (step_sell symbol orders l o HS Hp) as [e _|d w e _ _|d w t _ Ht].
      * exists []. rewrite app_nil_r. cbn. split; [reflexivity|lia].
      * exists []. rewrite app_nil_r. cbn. split; [reflexivity|lia].
      * exists [t]. rewrite closed_or_reduced_trades.
        rewrite closed_or_reduced_position by lia.
        apply create_trade_ok in Ht. destruct Ht as (_ & Hq & _).
        cbn [sold fold_right]. split; [reflexivity|lia].
    + exists []. rewrite step_ignored by auto. rewrite app_nil_r. cbn.
      split; [reflexivity|lia].
    + exists []. rewrite step_ignored by auto. rewrite app_nil_r. cbn.
      split; [reflexivity|lia].
Qed.

Lemma run_balance symbol orders rows l :
  exists new,
    trades (run symbol orders rows l) = trades l ++ new
    /\ position (run symbol orders rows l) + sold new = position l + bought rows.
Proof.
  revert l. induction rows as [|o rows IH]; intros l.
  - exists []. cbn. rewrite app_nil_r. split; [reflexivity|lia].
  - cbn [run fold_left]. fold (run symbol orders rows (step symbol orders l o)).
    destruct (IH (step symbol orders l o)) as (new2 & Ht2 & Hp2).
    destruct (step_balance symbol orders l o) as (new1 & Ht1 & Hp1).
    exists (new1 ++ new2). rewrite Ht2, Ht1, app_assoc, sold_app, bought_cons.
    split; [reflexivity|lia].
Qed.

Lemma step_nonneg symbol orders l o :
  0 <= position l -> 0 < Filled o -> 0 <= position (step symbol orders l o).
Proof.
  intros Hp HF.
  destruct (String.eqb_spec (Side o) "Buy") as [HB|HB].
  - destruct (step_buy symbol orders l o HB); cbn [position]; lia.
  - destruct (String.eqb_spec (Side o) "Sell") as [HS|HS];
      [destruct (Z.lt_ge_cases 0 (position l)) as [Hq|Hq]|].
    + destruct (step_sell symbol orders l o HS Hq); cbn [position with_console];
        try lia.
      rewrite closed_or_reduced_position; lia.
    + rewrite step_ignored by auto. lia.
    + rewrite step_ignored by auto. lia.
Qed.

Lemma run_nonneg symbol orders rows l :
  positive_quantities rows -> 0 <= position l ->
  0 <= position (run symbol orders rows l).
Proof.
  intros H. revert l. induction H as [|o rows Ho _ IH]; intros l Hl; [exact Hl|].
  cbn [run fold_left]. apply IH. now apply step_nonneg.
Qed.

End Facts.

(* ================================================================== *)
(** * Facts about exceptions and the loop *)
(* ================================================================== *)

Module LoopFacts.
Import Py Clock Matcher Spec Outcome Facts.
Local Open Scope py_scope.
Local Open Scope list_scope.

(** A turn of the loop never raises, and leaves the locals of [step]. *)
Lemma iteration_ok symbol orders o l :
  iteration symbol orders o l = (step symbol orders l o, Ok tt).
Proof.
  unfold step, iteration, try_except.
  destruct (body symbol orders o l) as [l' [[]|e]]; reflexivity.
Qed.

Lemma match_loop_run symbol orders rows l :
  match_loop symbol orders rows l = (run symbol orders rows l, Ok tt).
Proof.
  revert l. induction rows as [|o rows IH]; intros l; [reflexivity|].
  unfold match_loop in *. cbn [for_each run fold_left]. unfold bind.
  now rewrite iteration_ok, IH.
Qed.

Lemma match_symbol_trades_run symbol orders l :
  _match_symbol_trades symbol orders l
  = (run symbol orders orders l, Ok (trades (run symbol orders orders l))).
Proof.
  unfold _match_symbol_trades, bind. now rewrite match_loop_run.
Qed.

(** When the body raises, the handler's line is the last on the console. *)
Lemma body_raise_step symbol orders o l l1 e :
  body symbol orders o l = (l1, Raise e) ->
  step symbol orders l o
  = with_console l1 (console l1 ++ [PrintOrderError symbol e]).
Proof.
  intros H. unfold step, iteration, try_except. rewrite H.
  destruct l1; reflexivity.
Qed.

Lemma last_differs {A : Type} (xs ys : list A) (x y : A) :
  x <> y -> xs ++ [x] <> ys ++ [y].
Proof. intros Hxy H. apply app_inj_tail in H. now destruct H. Qed.

(** A row whose body raises leaves the trades as they were. *)
Lemma body_raise_trades symbol orders o l l1 e :
  body symbol orders o l = (l1, Raise e) ->
  trades (step symbol orders l o) = trades l.
Proof.
  intros H. pose proof (body_raise_step _ _ _ _ _ _ H) as Hs.
  destruct (String.eqb_spec (Side o) "Buy") as [HB|HB].
  - destruct (step_buy symbol orders l o HB); reflexivity.
  - destruct (String.eqb_spec (Side o) "Sell") as [HS|HS];
      [destruct (Z.lt_ge_cases 0 (position l)) as [Hp|Hp]|].
    + destruct (step_sell symbol orders l o HS Hp) as [| |d w t _ _];
        try reflexivity.
      exfalso. apply (f_equal console) in Hs. revert Hs.
      unfold closed_or_reduced, with_console.
      destruct (_ <=? 0); cbn [console]; rewrite !app_assoc;
        apply last_differs; discriminate.
    + now rewrite step_ignored by auto.
    + now rewrite step_ignored by auto.
Qed.

(** A Sell that appends the trade [t] went through the recorded case. *)
Lemma step_sell_emitted symbol orders l o t :
  Side o = "Sell"%string -> 0 < position l ->
  trades (step symbol orders l o) = trades l ++ [t] ->
  exists d warned,
    duration_outcome (entry_time l) (FilledTime o) (Ok d) warned
    /\ create_trade symbol o (entry_time l) (avg_cost l)
         (Z.min (Filled o) (position l)) d
         (scale_of orders (entry_time l)
            (position l - Z.min (Filled o) (position l))) = Ok t
    /\ step symbol orders l o
       = closed_or_reduced l (Z.min (Filled o) (position l)) t
           (console l ++ warning warned symbol
              ++ [PrintExit symbol (Z.min (Filled o) (position l)) (AvgPrice o)
                    (Trade.pnl_dollar t)]).
Proof.
  intros HS Hp Ht.
  destruct (step_sell symbol orders l o HS Hp) as [e _|d w e _ _|d w t' Hd Hc].
  - exfalso. cbn [with_console trades] in Ht.
    apply (f_equal (@length _)) in Ht. rewrite length_app in Ht. cbn in Ht. lia.
  - exfalso. cbn [with_console trades] in Ht.
    apply (f_equal (@length _)) in Ht. rewrite length_app in Ht. cbn in Ht. lia.
  - rewrite closed_or_reduced_trades in Ht. apply app_inv_head in Ht.
    injection Ht as ->. now exists d, w.
Qed.

(** ** The driver *)

Lemma for_each_ok {S A : Type} (f : A -> M S unit) (xs : list A) :
  (forall x s, exists s', f x s = (s', Ok tt)) ->
  forall s, exists s', for_each xs f s = (s', Ok tt).
Proof.
  intros Hf. induction xs as [|x xs IH]; intros s; cbn [for_each].
  - now exists s.
  - unfold bind. destruct (Hf x s) as (s1 & ->). apply IH.
Qed.

Lemma call_match_symbol_trades_ok symbol orders p :
  exists p' ts, call_match_symbol_trades symbol orders p = (p', Ok ts)
                /\ all_trades p' = all_trades p
                /\ raw_orders p' = raw_orders p.
Proof.
  unfold call_match_symbol_trades. rewrite match_symbol_trades_run.
  eexists _, _. split; [reflexivity|]. split; reflexivity.
Qed.

Lemma per_symbol_ok rows symbol p :
  exists p', per_symbol rows symbol p = (p', Ok tt).
Proof.
  unfold per_symbol, try_except.
  destruct (length _ =? 0)%nat.
  - eexists. reflexivity.
  - unfold bind at 1, say at 1, modify at 1. unfold bind at 1.
    match goal with
    | |- context [call_match_symbol_trades ?s ?o ?q] =>
        destruct (call_match_symbol_trades_ok s o q) as (p1 & ts & -> & _)
    end.
    eexists. reflexivity.
Qed.

(** ** The examples of the specification *)

(** Example A: one Buy, one Sell nineteen minutes later; 1.01 over 11.83
    is 8.5376 percent, recorded as 8.54. *)
Example full_exit_example :
  map (fun t => (Trade.entry_price t, Trade.exit_price t, Trade.quantity t,
                 Trade.pnl_dollar t, Trade.pnl_percent t,
                 Trade.duration_minutes t, Trade.scale_number t,
                 Trade.position_type t))
      (trades (Sample.run_all
                 [Sample.buy 1000 (1183 # 100) 0;
                  Sample.sell 1000 (1284 # 100) (19 * 60)]))
  = [(Fin (1183 # 100), Fin (1284 # 100), 1000, Fin (101000 # 100),
      Fin (854 # 100), 19, "1/1"%string, "Full Exit"%string)].
Proof. vm_compute. reflexivity. Qed.

(** Example B: quantities and P&L are as the specification gives them;
    the labels are not. *)
Example two_legs_example :
  map (fun t => (Trade.quantity t, Trade.pnl_dollar t, Trade.scale_number t,
                 Trade.position_type t))
      (trades (Sample.run_all Sample.two_legs))
  = [(400, Fin (80000 # 100), "1/2"%string, "Scale Out"%string);
     (600, Fin (180000 # 100), "1/1"%string, "Full Exit"%string)].
Proof. vm_compute. reflexivity. Qed.

(** Example C: a Sell with no prior Buy. *)
Example sell_while_flat_example :
  Sample.run_all [Sample.sell 100 11 0] = initial [].
Proof. reflexivity. Qed.

End LoopFacts.

(* ================================================================== *)
(** * Facts about the normalizer *)
(* ================================================================== *)

Module NormalizerFacts.
Import Py Clock Normalizer.
Local Open Scope py_scope.
Local Open Scope list_scope.

Lemma localize_eastern_is_eastern t t' :
  localize_eastern t = Ok t' -> is_eastern t' = true.
Proof.
  unfold localize_eastern. destruct (utcoffset t); [discriminate|].
  destruct (negb _); [discriminate|].
  destruct (_ && _); [intros [= <-]; reflexivity|].
  destruct (_ && _); intros [= <-]; reflexivity.
Qed.

Section Robust.
Variable coerce : string -> result pytime.

(** What the Webull branch returns, by the cases of its two calls. *)
Lemma webull_run zone dt_str out :
  webull zone dt_str out
  = match to_datetime_mdY_HMS (strip (remove (" " ++ zone) dt_str)) with
    | Ok t => match localize_eastern t with
              | Ok t' => (out, Ok (Ts t'))
              | Raise e => (out, Raise e)
              end
    | Raise e => (out, Raise e)
    end.
Proof.
  unfold webull, bind, lift, ret.
  destruct (to_datetime_mdY_HMS _); [|reflexivity].
  destruct (localize_eastern _); reflexivity.
Qed.

Lemma webull_eastern zone dt_str out out' dt :
  webull zone dt_str out = (out', Ok dt) -> eastern_or_missing dt.
Proof.
  rewrite webull_run. destruct (to_datetime_mdY_HMS _); [|discriminate].
  destruct (localize_eastern _) eqn:E; [|discriminate].
  intros [= _ <-]. cbn. now apply localize_eastern_is_eastern in E.
Qed.

Lemma parse_cell_ok cell out :
  exists out' dt, parse_cell coerce cell out = (out', Ok dt).
Proof.
  unfold parse_cell, try_except.
  match goal with
  | |- context [match ?c out with _ => _ end] => destruct (c out) as [o [dt|e]]
  end; eexists _, _; reflexivity.
Qed.

Lemma parse_datetime_robust_ok series out :
  exists out' times,
    _parse_datetime_robust coerce series out = (out', Ok times)
    /\ length times = length series.
Proof.
  revert out. induction series as [|cell rest IH]; intros out.
  - exists out, []. split; reflexivity.
  - cbn [_parse_datetime_robust]. unfold bind at 1.
    destruct (parse_cell_ok cell out) as (o1 & dt & ->).
    unfold bind at 1. destruct (IH o1) as (o2 & times & -> & Hlen).
    exists o2, (dt :: times). split; [reflexivity|]. cbn. now rewrite Hlen.
Qed.

End Robust.

End NormalizerFacts.

(* ================================================================== *)
(** * The claims *)
(* ================================================================== *)

Import Py Clock Matcher Normalizer Spec Outcome.
Import Facts LoopFacts NormalizerFacts.
Local Open Scope list_scope.

(** C1.  Take the rows fed to the matcher of a symbol, split as [before]
    then [entry]; if the position is flat after [before] and flat again
    after [entry], the trades appended while [entry] was processed carry
    exactly the quantity the Buy rows of [entry] bought.  The trades that
    were there before are still there, in front. *)
Theorem C1_closed_entry_quantities
    (symbol : string) (orders before entry : list Order) (out : list Diag) :
  let opened := run symbol orders before (initial out) in
  let closed := run symbol orders entry opened in
  position opened = 0 ->
  position closed = 0 ->
  exists emitted,
    trades closed = trades opened ++ emitted
    /\ sold emitted = bought entry.
Proof.
  intros opened closed Ho Hc.
  destruct (run_balance symbol orders entry opened) as (new & Ht & Hp).
  exists new. fold closed in Ht, Hp. split; [exact Ht | lia].
Qed.

(** The entry of [two_legs]: 1000 bought, 400 and 600 sold. *)
Lemma C1_closed_entry_quantities_witness :
  position (run "ACME" Sample.two_legs [] (initial [])) = 0
  /\ position (Sample.run_all Sample.two_legs) = 0
  /\ exists emitted,
       trades (Sample.run_all Sample.two_legs) = [] ++ emitted
       /\ sold emitted = 1000.
Proof.
  split; [reflexivity|]. split; [reflexivity|].
  apply (C1_closed_entry_quantities "ACME" Sample.two_legs [] Sample.two_legs []);
    reflexivity.
Defined.

(** C2.  The loop that should write the final total into the earlier
    scale-outs never changes a trade, and the count of earlier legs of the
    entry is always zero: the key it looks for is never found.  On a
    session with an entry closed in two legs and a later entry, the first
    leg keeps the provisional label "1/3" after the position is closed,
    and the closing leg is labelled "1/1" and typed "Full Exit": no
    denominator is rewritten to 2. *)
Theorem C2_denominator_not_rewritten :
  (forall symbol entry_time total_exits ts,
      update_previous symbol entry_time total_exits ts = ts)
  /\ (forall symbol entry_time ts,
        filter (same_entry symbol entry_time) ts = [])
  /\ map (fun t => (Trade.quantity t, Trade.scale_number t, Trade.position_type t))
         (trades (Sample.run_all Sample.two_entries))
     = [(30, "1/3", "Scale Out"); (70, "1/1", "Full Exit");
        (50, "1/1", "Full Exit")]%string.
Proof.
  split; [exact update_previous_id|]. split; [exact filter_same_entry|].
  vm_compute. reflexivity.
Qed.

(** C3.  With rows of positive quantity the position is never negative,
    whatever prefix of the rows has been processed; a Sell met while the
    position is zero changes nothing at all; a Sell met while the position
    is open either is skipped, trades and position as they were, or appends
    one trade whose quantity is the smaller of the fill and the position,
    and leaves the position reduced by that much, hence not negative. *)
Theorem C3_position_never_negative
    (symbol : string) (orders rows : list Order) (out : list Diag) :
  positive_quantities rows ->
  (forall n, 0 <= position (run symbol orders (firstn n rows) (initial out)))
  /\ (forall l o, Side o = "Sell"%string -> position l = 0 ->
        step symbol orders l o = l)
  /\ (forall l o, Side o = "Sell"%string -> 0 < position l ->
        let q := Z.min (Filled o) (position l) in
        let l' := step symbol orders l o in
        (trades l' = trades l /\ position l' = position l)
        \/ (exists t, trades l' = trades l ++ [t]
                      /\ Trade.quantity t = q
                      /\ position l' = position l - q
                      /\ 0 <= position l')).
Proof.
  intros Hrows. split; [|split].
  - intros n. apply run_nonneg; [|cbn; lia].
    unfold positive_quantities in *.
    rewrite <- (firstn_skipn n rows) in Hrows.
    now apply Forall_app in Hrows.
  - intros l o HS Hp. apply step_ignored; [|right; lia].
    rewrite HS. discriminate.
  - intros l o HS Hp q l'. subst l'.
    destruct (step_sell symbol orders l o HS Hp) as [e _|d w e _ _|d w t _ Ht].
    + left. split; reflexivity.
    + left. split; reflexivity.
    + right. exists t. rewrite closed_or_reduced_trades.
      rewrite closed_or_reduced_position by lia.
      apply create_trade_ok in Ht. destruct Ht as (_ & Hq & _).
      repeat split; [exact Hq | lia].
Qed.

(** On [two_legs], after three rows, and a Sell met while flat. *)
Lemma C3_position_never_negative_witness :
  positive_quantities Sample.two_legs
  /\ 0 <= position (run "ACME" Sample.two_legs (firstn 3 Sample.two_legs) (initial []))
  /\ step "ACME" Sample.two_legs (initial []) (Sample.sell 100 11 0) = initial [].
Proof.
  assert (H : positive_quantities Sample.two_legs)
    by (repeat constructor).
  split; [exact H|].
  destruct (C3_position_never_negative "ACME" Sample.two_legs Sample.two_legs [] H)
    as (Hn & Hflat & _).
  split; [apply Hn | apply Hflat; reflexivity].
Defined.

(** C5, as stated, fails: in an entry closed in three legs, the second
    scale-out is labelled with the denominator 3, while two Sell rows are
    left from that row on, and one after it. *)
Lemma C5_counterexample :
  map (fun t => (Trade.position_type t, denominator (Trade.scale_number t)))
      (firstn 2 (trades (Sample.run_all Sample.three_legs)))
  = [("Scale Out", "3"); ("Scale Out", "3")]%string
  /\ remaining_exits (skipn 2 Sample.three_legs)
       (mkTimestamp 1757928600 (Some EDT)) = 2
  /\ remaining_exits (skipn 3 Sample.three_legs)
       (mkTimestamp 1757928600 (Some EDT)) = 1.
Proof. repeat split. Qed.

(** C5, amended.  A Sell that leaves part of the position open is recorded
    as a Scale Out whose denominator is the estimate; with an entry time
    that every row of the symbol can be compared with, the estimate is the
    number, at least 1, of all the Sell rows of the symbol later than the
    entry time, consumed or not; it is 1 when a comparison raises and when
    there is no entry time. *)
Theorem C5_provisional_denominator
    (symbol : string) (orders : list Order) (l : Locals) (o : Order) (t : Trade.t) :
  Side o = "Sell"%string ->
  0 < position l ->
  0 < position l - Z.min (Filled o) (position l) ->
  trades (step symbol orders l o) = trades l ++ [t] ->
  Trade.position_type t = "Scale Out"%string
  /\ denominator (Trade.scale_number t)
     = str (_estimate_total_exits orders (entry_time l))
  /\ (forall et, entry_time l = Some (Ts et) -> comparable orders et ->
        _estimate_total_exits orders (entry_time l)
        = Z.max (Z.of_nat (length (later_sells orders et))) 1)
  /\ (forall et, entry_time l = Some (Ts et) ->
        Exists (fun o => exists e, cell_gt (FilledTime o) et = Raise e) orders ->
        _estimate_total_exits orders (entry_time l) = 1)
  /\ (entry_time l = None \/ entry_time l = Some NaT ->
        _estimate_total_exits orders (entry_time l) = 1).
Proof.
  intros HS Hp Hrem Ht.
  destruct (step_sell_emitted symbol orders l o t HS Hp Ht) as (d & w & _ & Hc & _).
  apply create_trade_ok in Hc.
  destruct Hc as (_ & _ & _ & _ & _ & _ & _ & Hsn & Hpt).
  unfold scale_of in Hsn, Hpt.
  destruct (Z.ltb_spec 0 (position l - Z.min (Filled o) (position l))); [|lia].
  cbn [fst snd] in Hsn, Hpt. rewrite Hsn, Hpt.
  split; [reflexivity|]. split; [reflexivity|]. split; [|split].
  - intros et -> Hcmp. unfold _estimate_total_exits.
    rewrite (future_sells_later orders et Hcmp). reflexivity.
  - intros et -> Hex. unfold _estimate_total_exits.
    destruct (future_sells_raises orders et Hex) as [e ->]. reflexivity.
  - intros [-> | ->]; reflexivity.
Qed.

(** The first scale-out of [three_legs]. *)
Lemma C5_provisional_denominator_witness :
  denominator "1/3" = str (_estimate_total_exits Sample.three_legs (Some (Sample.at_ 0))).
Proof.
  pose (l := run "ACME" Sample.three_legs (firstn 1 Sample.three_legs) (initial [])).
  refine (proj1 (proj2
    (C5_provisional_denominator "ACME" Sample.three_legs l (Sample.sell 30 11 60)
       (Trade.mk "2025-09-15" "ACME" "ACME" (Fin (1000 # 100)) "09:30:00 EDT" (Fin 11)
          "09:31:00 EDT" 30 (Fin (3000 # 100)) (Fin (1000 # 100)) 1 "1/3" "Scale Out"
          "" "" "" "" "" "" "") _ _ _ _))); reflexivity.
Defined.

(** C6, as stated, fails: an exit 100 seconds after the entry is recorded
    with a duration of 1 minute, where rounding gives 2. *)
Lemma C6_counterexample :
  ts_sub (mkTimestamp (1757928600 + 100) (Some EDT))
         (mkTimestamp 1757928600 (Some EDT)) = Ok 100
  /\ map Trade.duration_minutes (trades (Sample.run_all Sample.quick_exit)) = [1]
  /\ rounded_minutes 100 = 2.
Proof. repeat split. Qed.

(** C6, amended.  The duration of a recorded trade is the number of whole
    minutes in the seconds from the entry time to the fill time, the
    fraction dropped (so it is not negative when the fill is not earlier
    than the entry); if the entry time or the fill time is missing it is 0
    and the warning is on the console. *)
Theorem C6_duration_whole_minutes
    (symbol : string) (orders : list Order) (l : Locals) (o : Order) (t : Trade.t) :
  Side o = "Sell"%string ->
  0 < position l ->
  trades (step symbol orders l o) = trades l ++ [t] ->
  match entry_time l, FilledTime o with
  | Some (Ts et), Ts ot =>
      exists seconds,
        ts_sub ot et = Ok seconds
        /\ Trade.duration_minutes t = Z.quot seconds 60
        /\ (0 <= seconds -> 0 <= Trade.duration_minutes t)
  | _, _ =>
      Trade.duration_minutes t = 0
      /\ In (PrintNoDuration symbol) (console (step symbol orders l o))
  end.
Proof.
  intros HS Hp Ht.
  destruct (step_sell_emitted symbol orders l o t HS Hp Ht)
    as (d & w & Hd & Hc & Hstep).
  apply create_trade_ok in Hc.
  destruct Hc as (_ & _ & _ & _ & _ & _ & Hdur & _).
  rewrite <- Hdur in Hd. clear Hdur.
  inversion Hd as [et ot s He Ho Hs Hdur Hw | | Hmiss Hdur Hw]; subst w;
    symmetry in Hdur.
  - rewrite He, Ho. exists s. split; [exact Hs|]. split; [congruence|].
    intros Hpos. rewrite ?Hdur. apply Z.quot_pos; lia.
  - assert (In (PrintNoDuration symbol) (console (step symbol orders l o))) as Hin.
    { rewrite Hstep. unfold closed_or_reduced.
      destruct (_ <=? 0); cbn [console warning];
        apply in_or_app; right; now left. }
    destruct Hmiss as [-> | [-> | ->]]; [| |destruct (entry_time l) as [[|?]|]];
      now split.
Qed.

(** The exit of [quick_exit], 100 seconds after the entry. *)
Lemma C6_duration_whole_minutes_witness :
  exists seconds,
    ts_sub (mkTimestamp (1757928600 + 100) (Some EDT))
           (mkTimestamp 1757928600 (Some EDT)) = Ok seconds
    /\ 1 = Z.quot seconds 60
    /\ (0 <= seconds -> 0 <= 1).
Proof.
  pose (l := run "ACME" Sample.quick_exit (firstn 1 Sample.quick_exit) (initial [])).
  refine (C6_duration_whole_minutes "ACME" Sample.quick_exit l (Sample.sell 100 11 100)
       (Trade.mk "2025-09-15" "ACME" "ACME" (Fin (1000 # 100)) "09:30:00 EDT" (Fin 11)
          "09:31:40 EDT" 100 (Fin (10000 # 100)) (Fin (1000 # 100)) 1 "1/1" "Full Exit"
          "" "" "" "" "" "" "") _ _ _); reflexivity.
Defined.

(** C7, as stated, fails: when the cost basis is missing (a Buy without a
    price), the Sell is not skipped; a trade is recorded whose entry price
    and P&L are NaN. *)
Lemma C7_counterexample :
  position (run "ACME" Sample.missing_price (firstn 1 Sample.missing_price)
              (initial [])) = 100
  /\ avg_cost (run "ACME" Sample.missing_price (firstn 1 Sample.missing_price)
                 (initial [])) = NaN
  /\ map (fun t => (Trade.quantity t, Trade.entry_price t, Trade.pnl_dollar t,
                    Trade.pnl_percent t))
         (trades (Sample.run_all Sample.missing_price))
     = [(100, NaN, NaN, NaN)].
Proof. repeat split. Qed.

(** C7, amended.  If the cost basis is zero when a Sell meets an open
    position, the turn of the loop ends normally, the trades, the position,
    the cost basis and the entry time are as before, the console has the
    line of the handler as its last line, and the loop goes on with the
    next row from there. *)
Theorem C7_zero_avg_cost_skips
    (symbol : string) (orders : list Order) (l : Locals) (o : Order) :
  Side o = "Sell"%string ->
  0 < position l ->
  is_zero (avg_cost l) = true ->
  exists lines e,
    iteration symbol orders o l
    = (with_console l (console l ++ lines ++ [PrintOrderError symbol e]), Ok tt)
    /\ forall rest,
         match_loop symbol orders (o :: rest) l
         = match_loop symbol orders rest
             (with_console l (console l ++ lines ++ [PrintOrderError symbol e])).
Proof.
  intros HS Hp Hz.
  assert (exists lines e,
             step symbol orders l o
             = with_console l (console l ++ lines ++ [PrintOrderError symbol e]))
    as (lines & e & Hstep).
  { destruct (step_sell symbol orders l o HS Hp) as [e _|d w e _ _|d w t _ Hc].
    - now exists [], e.
    - now exists (warning w symbol), e.
    - rewrite create_trade_raises in Hc by assumption. discriminate. }
  exists lines, e. split.
  - now rewrite iteration_ok, Hstep.
  - intros rest. rewrite !match_loop_run. cbn [run fold_left]. now rewrite Hstep.
Qed.

(** The Sell of [zero_price] that meets a cost basis of zero. *)
Lemma C7_zero_avg_cost_skips_witness :
  exists lines e,
    iteration "ACME" Sample.zero_price (Sample.sell 100 11 60)
      (run "ACME" Sample.zero_price (firstn 1 Sample.zero_price) (initial []))
    = (with_console
         (run "ACME" Sample.zero_price (firstn 1 Sample.zero_price) (initial []))
         (console (run "ACME" Sample.zero_price (firstn 1 Sample.zero_price)
                     (initial []))
            ++ lines ++ [PrintOrderError "ACME" e]), Ok tt)
    /\ forall rest,
         match_loop "ACME" Sample.zero_price (Sample.sell 100 11 60 :: rest)
           (run "ACME" Sample.zero_price (firstn 1 Sample.zero_price) (initial []))
         = match_loop "ACME" Sample.zero_price rest
             (with_console
                (run "ACME" Sample.zero_price (firstn 1 Sample.zero_price)
                   (initial []))
                (console (run "ACME" Sample.zero_price
                            (firstn 1 Sample.zero_price) (initial []))
                   ++ lines ++ [PrintOrderError "ACME" e])).
Proof.
  apply (C7_zero_avg_cost_skips "ACME" Sample.zero_price
           (run "ACME" Sample.zero_price (firstn 1 Sample.zero_price) (initial []))
           (Sample.sell 100 11 60)); reflexivity.
Defined.

(** C8, as stated, fails: a text without zone letters goes to the generic
    parser, and what comes back for a plain date and time is a timestamp
    without a zone, neither an Eastern instant nor the missing-value
    marker. *)
Lemma C8_counterexample :
  parse_cell to_datetime_iso (Some "2025-09-15 08:27:26") []
  = ([], Ok (Ts (mkTimestamp 1757924846 None)))
  /\ ~ eastern_or_missing (Ts (mkTimestamp 1757924846 None)).
Proof. split; [reflexivity | cbn; discriminate]. Qed.

(** C8, amended.  Whatever the generic parser is, the normalizer never
    raises and returns one result per cell.  A missing cell and the empty
    text give the missing-value marker.  A text that contains EDT or EST
    gives an Eastern instant or the missing-value marker: once the zone
    letters are dropped it is read as month/day/year hour:minute:second and
    localized to US/Eastern, and the marker is returned, with a warning,
    when that reading or the localization fails.  Any other text gives what
    the generic parser gives, which may have no zone, or the marker when
    that parser raises.  The text "09/15/2025 08:27:26 EDT" gives
    08:27:26 on 2025-09-15 at four hours behind UTC. *)
Theorem C8_normalizer_total (coerce : string -> result pytime) :
  (forall series out,
      exists out' times,
        _parse_datetime_robust coerce series out = (out', Ok times)
        /\ length times = length series)
  /\ (forall out, parse_cell coerce None out = (out, Ok NaT))
  /\ (forall out, parse_cell coerce (Some "") out = (out, Ok NaT))
  /\ (forall s out,
        s <> ""%string ->
        contains "EDT" (strip s) || contains "EST" (strip s) = true ->
        exists out' dt,
          parse_cell coerce (Some s) out = (out', Ok dt)
          /\ eastern_or_missing dt)
  /\ (forall s out t,
        s <> ""%string ->
        contains "EDT" (strip s) = true ->
        to_datetime_mdY_HMS (strip (remove " EDT" (strip s))) = Ok t ->
        parse_cell coerce (Some s) out
        = match localize_eastern t with
          | Ok t' => (out, Ok (Ts t'))
          | Raise e => (out ++ [PrintFailed (Some (strip s)) e], Ok NaT)
          end)
  /\ (forall s out t,
        s <> ""%string ->
        contains "EDT" (strip s) = false ->
        contains "EST" (strip s) = true ->
        to_datetime_mdY_HMS (strip (remove " EST" (strip s))) = Ok t ->
        parse_cell coerce (Some s) out
        = match localize_eastern t with
          | Ok t' => (out, Ok (Ts t'))
          | Raise e => (out ++ [PrintFailed (Some (strip s)) e], Ok NaT)
          end)
  /\ (forall s out zone e,
        s <> ""%string ->
        (zone = "EDT"%string /\ contains "EDT" (strip s) = true
         \/ zone = "EST"%string /\ contains "EDT" (strip s) = false
            /\ contains "EST" (strip s) = true) ->
        to_datetime_mdY_HMS (strip (remove (" " ++ zone) (strip s))) = Raise e ->
        parse_cell coerce (Some s) out
        = (out ++ [PrintFailed (Some (strip s)) e], Ok NaT))
  /\ (forall s out,
        s <> ""%string ->
        contains "EDT" (strip s) = false ->
        contains "EST" (strip s) = false ->
        parse_cell coerce (Some s) out
        = match coerce (strip s) with
          | Ok dt => (out, Ok dt)
          | Raise e => (out ++ [PrintFailed (Some (strip s)) e], Ok NaT)
          end)
  /\ (forall out,
        parse_cell coerce (Some "09/15/2025 08:27:26 EDT") out
        = (out, Ok (Ts (mkTimestamp 1757924846 (Some (-14400)))))).
Proof.
  split; [intros; apply parse_datetime_robust_ok|].
  split; [reflexivity|]. split; [reflexivity|].
  assert (Hne : forall s, s <> ""%string -> (s =? "")%string = false)
    by (intros s Hs; now apply String.eqb_neq).
  split; [|split; [|split; [|split; [|split]]]].
  - intros s out Hs Hz. unfold parse_cell, try_except. rewrite (Hne s Hs).
    destruct (contains "EDT" (strip s)) eqn:E1;
      [|destruct (contains "EST" (strip s)) eqn:E2; [|discriminate]].
    + destruct (webull "EDT" (strip s) out) as [o [dt|e]] eqn:Ew.
      * exists o, dt. split; [reflexivity | eapply webull_eastern; eauto].
      * eexists _, NaT. split; [reflexivity | exact I].
    + destruct (webull "EST" (strip s) out) as [o [dt|e]] eqn:Ew.
      * exists o, dt. split; [reflexivity | eapply webull_eastern; eauto].
      * eexists _, NaT. split; [reflexivity | exact I].
  - intros s out t Hs E1 Hp. unfold parse_cell, try_except.
    rewrite (Hne s Hs), E1, webull_run.
    change (" " ++ "EDT")%string with " EDT"%string. rewrite Hp.
    destruct (localize_eastern t); reflexivity.
  - intros s out t Hs E1 E2 Hp. unfold parse_cell, try_except.
    rewrite (Hne s Hs), E1, E2, webull_run.
    change (" " ++ "EST")%string with " EST"%string. rewrite Hp.
    destruct (localize_eastern t); reflexivity.
  - intros s out zone e Hs Hz Hp. unfold parse_cell, try_except.
    rewrite (Hne s Hs).
    destruct Hz as [[-> E1] | [-> [E1 E2]]].
    + rewrite E1, webull_run, Hp. reflexivity.
    + rewrite E1, E2, webull_run, Hp. reflexivity.
  - intros s out Hs E1 E2. unfold parse_cell, try_except.
    rewrite (Hne s Hs), E1, E2. unfold lift.
    destruct (coerce (strip s)); reflexivity.
  - intros out. reflexivity.
Qed.

(** A winter timestamp with the letters EST. *)
Lemma C8_normalizer_total_witness :
  exists out' dt,
    parse_cell to_datetime_iso (Some "01/15/2025 08:27:26 EST") [] = (out', Ok dt)
    /\ eastern_or_missing dt.
Proof.
  apply (proj1 (proj2 (proj2 (proj2 (C8_normalizer_total to_datetime_iso))))).
  - discriminate.
  - reflexivity.
Defined.

(** C9.  Matching never raises: [match_trades_with_scaling] ends normally
    with a list of trades for every parser state, [_match_symbol_trades]
    ends normally with the trades of its loop for every frame, and each
    symbol of the driver ends normally.  A row whose body raises ends its
    turn normally with the handler's line; the trades are as before that
    row, and the loop goes on with the rows that follow. *)
Theorem C9_no_exception_escapes :
  (forall p, exists p' ts,
      match_trades_with_scaling p = (p', Ok ts)
      /\ (raw_orders p = None -> ts = [])
      /\ (raw_orders p <> None -> matched_trades p' = ts))
  /\ (forall symbol orders out,
        _match_symbol_trades symbol orders (initial out)
        = (run symbol orders orders (initial out),
           Ok (trades (run symbol orders orders (initial out)))))
  /\ (forall rows symbol symbols p,
        exists p', per_symbol rows symbol p = (p', Ok tt)
                   /\ for_each (symbol :: symbols) (per_symbol rows) p
                      = for_each symbols (per_symbol rows) p')
  /\ (forall symbol orders o rest l l1 e,
        body symbol orders o l = (l1, Raise e) ->
        iteration symbol orders o l
        = (with_console l1 (console l1 ++ [PrintOrderError symbol e]), Ok tt)
        /\ trades (step symbol orders l o) = trades l
        /\ match_loop symbol orders (o :: rest) l
           = match_loop symbol orders rest (step symbol orders l o)).
Proof.
  split; [|split; [|split]].
  - intros p. unfold match_trades_with_scaling.
    unfold bind at 1, gets at 1.
    destruct (raw_orders p) as [rows|] eqn:Er.
    + unfold bind at 1, modify at 1. unfold bind at 1.
      match goal with
      | |- context [for_each ?xs ?f ?q] =>
          destruct (for_each_ok f xs (per_symbol_ok rows) q) as (p1 & ->)
      end.
      eexists _, _. split; [reflexivity|]. split; [discriminate | reflexivity].
    + eexists _, _. split; [reflexivity|]. split; [reflexivity | congruence].
  - intros symbol orders out. apply match_symbol_trades_run.
  - intros rows symbol symbols p.
    destruct (per_symbol_ok rows symbol p) as (p' & Hp).
    exists p'. split; [exact Hp|]. cbn [for_each]. unfold bind. now rewrite Hp.
  - intros symbol orders o rest l l1 e Hb. split; [|split].
    + rewrite iteration_ok. f_equal. eapply body_raise_step; eauto.
    + eapply body_raise_trades; eauto.
    + now rewrite !match_loop_run.
Qed.

(** The row of [zero_price] whose body raises. *)
Lemma C9_no_exception_escapes_witness :
  body "ACME" Sample.zero_price (Sample.sell 100 11 60)
    (run "ACME" Sample.zero_price (firstn 1 Sample.zero_price) (initial []))
  = (run "ACME" Sample.zero_price (firstn 1 Sample.zero_price) (initial []),
     Raise ZeroDivisionError)
  /\ trades (step "ACME" Sample.zero_price
               (run "ACME" Sample.zero_price (firstn 1 Sample.zero_price) (initial []))
               (Sample.sell 100 11 60))
     = trades (run "ACME" Sample.zero_price (firstn 1 Sample.zero_price) (initial [])).
Proof.
  split; [reflexivity|].
  refine (proj1 (proj2 (proj2 (proj2 (proj2 C9_no_exception_escapes))
                   "ACME"%string Sample.zero_price (Sample.sell 100 11 60) []
                   (run "ACME" Sample.zero_price (firstn 1 Sample.zero_price)
                      (initial []))
                   (run "ACME" Sample.zero_price (firstn 1 Sample.zero_price)
                      (initial []))
                   ZeroDivisionError _))).
  reflexivity.
Defined.

(** C10.  A recorded trade has as entry price the cost basis rounded to
    two decimals, and its P&L in dollars and in percent are computed from
    the cost basis itself; and there is a session with a trade whose P&L
    in dollars is not what its own exit price, entry price and quantity
    give. *)
Theorem C10_entry_price_rounded :
  (forall symbol orders l o t,
      Side o = "Sell"%string ->
      0 < position l ->
      trades (step symbol orders l o) = trades l ++ [t] ->
      Trade.entry_price t = round2 (avg_cost l)
      /\ Trade.exit_price t = AvgPrice o
      /\ Trade.pnl_dollar t
         = round2 (fmul (fsub (AvgPrice o) (avg_cost l)) (of_int (Trade.quantity t)))
      /\ exists ratio,
           fdiv (fsub (AvgPrice o) (avg_cost l)) (avg_cost l) = Ok ratio
           /\ Trade.pnl_percent t = round2 (fmul ratio (of_int 100)))
  /\ (exists symbol rows l t,
        _match_symbol_trades symbol rows (initial []) = (l, Ok [t])
        /\ ~ feq (Trade.pnl_dollar t)
               (round2 (fmul (fsub (Trade.exit_price t) (Trade.entry_price t))
                             (of_int (Trade.quantity t))))).
Proof.
  split.
  - intros symbol orders l o t HS Hp Ht.
    destruct (step_sell_emitted symbol orders l o t HS Hp Ht) as (d & w & _ & Hc & _).
    apply create_trade_ok in Hc.
    destruct Hc as (_ & Hq & He & Hx & Hd & Hr & _).
    rewrite Hq. repeat split; assumption.
  - exists "ACME"%string, Sample.thirds. eexists _, _. split.
    + vm_compute. reflexivity.
    + vm_compute. discriminate.
Qed.

(** The trade of [quick_exit]. *)
Lemma C10_entry_price_rounded_witness :
  Trade.entry_price
    (Trade.mk "2025-09-15" "ACME" "ACME" (Fin (1000 # 100)) "09:30:00 EDT" (Fin 11)
       "09:31:40 EDT" 100 (Fin (10000 # 100)) (Fin (1000 # 100)) 1 "1/1" "Full Exit"
       "" "" "" "" "" "" "")
  = round2 (avg_cost (run "ACME" Sample.quick_exit (firstn 1 Sample.quick_exit)
                        (initial []))).
Proof.
  refine (proj1 (proj1 C10_entry_price_rounded "ACME"%string Sample.quick_exit
                   (run "ACME" Sample.quick_exit (firstn 1 Sample.quick_exit) (initial []))
                   (Sample.sell 100 11 100) _ _ _ _)); reflexivity.
Defined.

(* ================================================================== *)
(** * Further facts about the matcher *)
(* ================================================================== *)

Module MoreFacts.
Import Py Clock Matcher Spec Outcome Related Facts LoopFacts.
Local Open Scope list_scope.

Lemma duration_outcome_functional et ot r w r' w' :
  duration_outcome et ot r w -> duration_outcome et ot r' w' ->
  r = r' /\ w = w'.
Proof.
  intros H H'.
  destruct H as [t u s He Ho Hs | t u e He Ho Hs | Hm];
    destruct H' as [t' u' s' He' Ho' Hs' | t' u' e' He' Ho' Hs' | Hm'];
    subst; try (injection He' as <-; injection Ho' as <-);
    try (rewrite Hs in Hs'; injection Hs' as <-);
    try (rewrite Hs in Hs'; discriminate);
    try (split; reflexivity);
    try (destruct Hm' as [?|[?|?]]; discriminate);
    try (destruct Hm as [?|[?|?]]; discriminate).
Qed.

(** What one row appends depends on the frame only through the position
    and, when it is open, the cost basis and the entry time. *)
Lemma step_agree symbol orders l l' o :
  agree l l' ->
  agree (step symbol orders l o) (step symbol orders l' o)
  /\ exists new,
       trades (step symbol orders l o) = trades l ++ new
       /\ trades (step symbol orders l' o) = trades l' ++ new.
Proof.
  intros [Hp Ho].
  assert (Hnil : forall l0 : Locals, trades l0 = trades l0 ++ [])
    by (intros; now rewrite app_nil_r).
  destruct (String.eqb_spec (Side o) "Buy") as [HB|HB].
  - destruct (step_buy symbol orders l o HB) as [Hz|a Hnz Hs Ha|Hnz Hs];
      destruct (step_buy symbol orders l' o HB) as [Hz'|a' Hnz' Hs' Ha'|Hnz' Hs'];
      try lia; cbn [trades].
    + split; [split; cbn; auto | exists []; auto].
    + destruct (Ho Hnz) as [Hc Ht].
      assert (a = a') as <-.
      { unfold averaged in Ha, Ha'. rewrite <- Hp, <- Hc, Ha in Ha'. congruence. }
      split; [split; cbn; auto; lia | exists []; auto].
    + split; [split; cbn; auto; lia | exists []; auto].
  - destruct (String.eqb_spec (Side o) "Sell") as [HS|HS];
      [destruct (Z.lt_ge_cases 0 (position l)) as [Hq|Hq]|].
    + assert (Hq' : 0 < position l') by lia.
      destruct (Ho ltac:(lia)) as [Hc Ht].
      destruct (step_sell symbol orders l o HS Hq) as [e Hd|d w e Hd Hcr|d w t Hd Hcr];
        destruct (step_sell symbol orders l' o HS Hq')
          as [e' Hd'|d' w' e' Hd' Hcr'|d' w' t' Hd' Hcr'];
        rewrite <- ?Ht, <- ?Hc, <- ?Hp in *;
        try (destruct (duration_outcome_functional _ _ _ _ _ _ Hd Hd') as [E _];
             try discriminate; injection E as <-);
        try (rewrite Hcr in Hcr'; try discriminate);
        cbn [with_console trades position avg_cost entry_time].
      * split; [split; auto | exists []; auto].
      * split; [split; auto | exists []; auto].
      * injection Hcr' as <-. rewrite !closed_or_reduced_trades.
        split; [|exists [t]; auto].
        unfold closed_or_reduced. rewrite <- Hp.
        destruct (_ <=? 0); split; cbn; auto; lia.
    + rewrite !step_ignored; auto; [|right; lia].
      split; [split; auto | exists []; auto].
    + rewrite !step_ignored; auto.
      split; [split; auto | exists []; auto].
Qed.

Lemma run_agree symbol orders rows l l' :
  agree l l' ->
  exists new,
    trades (run symbol orders rows l) = trades l ++ new
    /\ trades (run symbol orders rows l') = trades l' ++ new.
Proof.
  revert l l'. induction rows as [|o rows IH]; intros l l' H.
  - exists []. now rewrite !app_nil_r.
  - cbn [run fold_left].
    destruct (step_agree symbol orders l l' o H) as (H1 & new1 & E1 & E1').
    destruct (IH _ _ H1) as (new2 & E2 & E2').
    fold (run symbol orders rows (step symbol orders l o)) in *.
    fold (run symbol orders rows (step symbol orders l' o)) in *.
    exists (new1 ++ new2). rewrite E2, E2', E1, E1', !app_assoc. auto.
Qed.

Lemma flat_agrees_with_initial l out :
  position l = 0 -> agree l (initial out).
Proof. intros H. split; [exact H | intros Hn; contradiction]. Qed.

(** ** The trades a run appends *)

Lemma step_new symbol orders l o :
  trades (step symbol orders l o) = trades l
  \/ exists t,
       Side o = "Sell"%string /\ 0 < position l
       /\ trades (step symbol orders l o) = trades l ++ [t].
Proof.
  destruct (String.eqb_spec (Side o) "Buy") as [HB|HB].
  - left. destruct (step_buy symbol orders l o HB); reflexivity.
  - destruct (String.eqb_spec (Side o) "Sell") as [HS|HS];
      [destruct (Z.lt_ge_cases 0 (position l)) as [Hq|Hq]|].
    + destruct (step_sell symbol orders l o HS Hq) as [e _|d w e _ _|d w t _ _].
      * now left.
      * now left.
      * right. exists t. now rewrite closed_or_reduced_trades.
    + left. now rewrite step_ignored by auto.
    + left. now rewrite step_ignored by auto.
Qed.

(** Every trade a run appends was appended by a Sell row of the run, met
    with an open position, in a frame the run went through; [I] is any
    property of the frame and of the rows still to come that each row
    preserves. *)
Lemma run_emitted (I : Locals -> list Order -> Prop) symbol orders :
  (forall l o rest, I l (o :: rest) -> I (step symbol orders l o) rest) ->
  forall rows l, I l rows ->
  exists new,
    trades (run symbol orders rows l) = trades l ++ new
    /\ Forall (fun t => exists l0 o rest,
                 I l0 (o :: rest) /\ In o rows
                 /\ Side o = "Sell"%string /\ 0 < position l0
                 /\ trades (step symbol orders l0 o) = trades l0 ++ [t]) new.
Proof.
  intros Hstep. induction rows as [|o rows IH]; intros l HI.
  - exists []. split; [now rewrite app_nil_r | constructor].
  - cbn [run fold_left].
    fold (run symbol orders rows (step symbol orders l o)).
    destruct (IH _ (Hstep _ _ _ HI)) as (new & Ht & Hall).
    assert (Hall' : Forall (fun t => exists l0 o0 rest,
                 I l0 (o0 :: rest) /\ In o0 (o :: rows)
                 /\ Side o0 = "Sell"%string /\ 0 < position l0
                 /\ trades (step symbol orders l0 o0) = trades l0 ++ [t]) new).
    { eapply Forall_impl; [|exact Hall].
      intros t (l0 & o0 & rest & H1 & H2 & H3). exists l0, o0, rest.
      split; [exact H1|]. split; [now right | exact H3]. }
    destruct (step_new symbol orders l o) as [E | (t & HS & Hp & E)].
    + exists new. rewrite Ht, E. auto.
    + exists (t :: new). rewrite Ht, E, <- app_assoc. split; [reflexivity|].
      constructor; [|exact Hall'].
      exists l, o, rows. repeat split; auto. now left.
Qed.

(** The trades of a run are, in order, those of a subsequence of its Sell
    rows, each with the price of its row and no more than its quantity. *)
Lemma run_subsequence symbol orders rows l :
  exists new used,
    trades (run symbol orders rows l) = trades l ++ new
    /\ subsequence used (filter (fun o => (Side o =? "Sell")%string) rows)
    /\ Forall2 (fun t o => Trade.exit_price t = AvgPrice o
                           /\ Trade.quantity t <= Filled o
                           /\ Trade.symbol t = symbol) new used.
Proof.
  revert l. induction rows as [|o rows IH]; intros l.
  - exists [], []. rewrite app_nil_r. repeat split; constructor.
  - cbn [run fold_left filter].
    fold (run symbol orders rows (step symbol orders l o)).
    destruct (IH (step symbol orders l o)) as (new & used & Ht & Hs & Hall).
    destruct (step_new symbol orders l o) as [E | (t & HS & Hp & E)].
    + exists new, used. rewrite Ht, E. split; [reflexivity|]. split; [|exact Hall].
      destruct (Side o =? "Sell")%string; [now constructor | exact Hs].
    + exists (t :: new), (o :: used). rewrite Ht, E, <- app_assoc.
      split; [reflexivity|]. rewrite HS. cbn [String.eqb Ascii.eqb Bool.eqb].
      split; [now constructor|]. constructor; [|exact Hall].
      destruct (step_sell_emitted symbol orders l o t HS Hp E) as (d & w & _ & Hc & _).
      apply create_trade_ok in Hc. destruct Hc as (Hy & Hq & _ & Hx & _).
      repeat split; auto. lia.
Qed.

Lemma subsequence_length {A : Type} (xs ys : list A) :
  subsequence xs ys -> (length xs <= length ys)%nat.
Proof. induction 1; cbn; lia. Qed.

(** Where the trades of the rows of a symbol come from. *)
Lemma matched_provenance rows s t :
  In t (matched rows s) ->
  exists o,
    In o rows
    /\ Side o = "Sell"%string
    /\ isna (FilledTime o) = false
    /\ Trade.symbol t = Symbol o
    /\ Trade.exit_price t = AvgPrice o
    /\ Trade.quantity t <= Filled o
    /\ (0 < Filled o -> 0 < Trade.quantity t).
Proof.
  unfold matched. intros Ht.
  destruct (run_emitted (fun _ _ => True) s (group rows s) (fun _ _ _ _ => I)
              (group rows s) (initial []) I) as (new & En & Hall).
  rewrite En in Ht. cbn [initial trades app] in Ht.
  rewrite Forall_forall in Hall.
  destruct (Hall t Ht) as (l0 & o & rest & _ & Hin & HS & Hp & E').
  destruct (step_sell_emitted s (group rows s) l0 o t HS Hp E')
    as (d & w & _ & Hc & _).
  apply create_trade_ok in Hc. destruct Hc as (Hy & Hq & _ & Hx & _).
  unfold group, dropna in Hin. apply filter_In in Hin. destruct Hin as [Hin Hna].
  apply filter_In in Hin. destruct Hin as [Hin Hsym].
  apply String.eqb_eq in Hsym. apply negb_true_iff in Hna.
  exists o. repeat split; auto; try congruence; lia.
Qed.

(** ** The driver *)

Lemma trades_from_initial symbol orders rows out :
  trades (run symbol orders rows (initial out))
  = trades (run symbol orders rows (initial [])).
Proof.
  destruct (run_agree symbol orders rows (initial out) (initial []))
    as (new & E & E'); [split; [reflexivity | intros H; now destruct H]|].
  now rewrite E, E'.
Qed.

Lemma per_symbol_run rows symbol p :
  exists out',
    per_symbol rows symbol p
    = (mkParser (raw_orders p) (matched_trades p)
         (all_trades p ++ matched rows symbol) out', Ok tt).
Proof.
  unfold per_symbol, try_except, matched. fold (group rows symbol).
  destruct (group rows symbol) as [|o so] eqn:Eg; cbn [length Nat.eqb].
  - eexists. unfold say, modify. cbn [run fold_left initial trades].
    now rewrite app_nil_r.
  - unfold bind at 1, say at 1, modify at 1. unfold bind at 1.
    unfold call_match_symbol_trades. rewrite match_symbol_trades_run.
    cbn [raw_orders matched_trades all_trades output].
    unfold extend, modify. cbn [raw_orders matched_trades all_trades output].
    rewrite trades_from_initial. eexists. reflexivity.
Qed.

Lemma for_each_symbol_run rows symbols p :
  exists out',
    for_each symbols (per_symbol rows) p
    = (mkParser (raw_orders p) (matched_trades p)
         (all_trades p ++ flat_map (matched rows) symbols) out', Ok tt).
Proof.
  revert p. induction symbols as [|s symbols IH]; intros p.
  - exists (output p). cbn. rewrite app_nil_r. now destruct p.
  - cbn [for_each flat_map]. unfold bind.
    destruct (per_symbol_run rows s p) as (o1 & ->).
    destruct (IH (mkParser (raw_orders p) (matched_trades p)
                    (all_trades p ++ matched rows s) o1)) as (o2 & ->).
    cbn [raw_orders matched_trades all_trades]. rewrite <- app_assoc.
    eexists. reflexivity.
Qed.

Lemma in_unique (x : string) (xs : list string) : In x (unique xs) -> In x xs.
Proof.
  induction xs as [|y xs IH]; cbn [unique]; [auto|].
  intros [->|H]; [now left|]. right. apply IH.
  now apply filter_In in H.
Qed.

(** ** The trades of a symbol among the trades of all *)

Lemma matched_symbol rows s t : In t (matched rows s) -> Trade.symbol t = s.
Proof.
  unfold matched. intros Ht.
  destruct (run_emitted (fun _ _ => True) s (group rows s) (fun _ _ _ _ => I)
              (group rows s) (initial []) I) as (new & En & Hall).
  rewrite En in Ht. cbn [initial trades app] in Ht.
  rewrite Forall_forall in Hall.
  destruct (Hall t Ht) as (l0 & o & rest & _ & _ & HS & Hp & E').
  destruct (step_sell_emitted s (group rows s) l0 o t HS Hp E')
    as (d & w & _ & Hc & _).
  now apply create_trade_ok in Hc.
Qed.

Lemma unique_NoDup xs : NoDup (unique xs).
Proof.
  induction xs as [|x xs IH]; cbn [unique]; constructor.
  - intros H. apply filter_In in H. destruct H as [_ H].
    rewrite String.eqb_refl in H. discriminate.
  - now apply NoDup_filter.
Qed.

Lemma filter_matched_same rows s :
  filter (fun t => (Trade.symbol t =? s)%string) (matched rows s) = matched rows s.
Proof.
  apply forallb_filter_id. apply forallb_forall. intros t Ht.
  apply String.eqb_eq. now apply (matched_symbol rows).
Qed.

Lemma filter_matched_other rows s s' :
  s' <> s ->
  filter (fun t => (Trade.symbol t =? s)%string) (matched rows s') = [].
Proof.
  intros Hne.
  destruct (filter _ (matched rows s')) as [|t ts] eqn:E; [reflexivity|].
  assert (Ht : In t (filter (fun t => (Trade.symbol t =? s)%string) (matched rows s')))
    by (rewrite E; now left).
  apply filter_In in Ht. destruct Ht as [Ht Hs]. apply String.eqb_eq in Hs.
  apply matched_symbol in Ht. congruence.
Qed.

Lemma filter_matched_others rows s syms :
  ~ In s syms ->
  filter (fun t => (Trade.symbol t =? s)%string) (flat_map (matched rows) syms) = [].
Proof.
  intros Hn. induction syms as [|s' syms IH]; [reflexivity|].
  cbn [flat_map]. rewrite filter_app, IH by (intros H; apply Hn; now right).
  rewrite app_nil_r. apply filter_matched_other. intros ->. apply Hn. now left.
Qed.

Lemma filter_matched rows s syms :
  NoDup syms ->
  filter (fun t => (Trade.symbol t =? s)%string) (flat_map (matched rows) syms)
  = if in_dec string_dec s syms then matched rows s else [].
Proof.
  induction 1 as [|s' syms Hn Hd IH]; [reflexivity|].
  cbn [flat_map]. rewrite filter_app.
  destruct (in_dec string_dec s (s' :: syms)) as [Hin|Hin].
  - destruct (string_dec s' s) as [->|Hne].
    + now rewrite filter_matched_same, filter_matched_others, app_nil_r.
    + rewrite IH, (filter_matched_other rows s s' Hne).
      destruct (in_dec string_dec s syms) as [Hin'|Hin']; [reflexivity|].
      destruct Hin as [H|H]; [now destruct Hne | now destruct Hin'].
  - rewrite (filter_matched_others rows s syms) by (intros H; apply Hin; now right).
    rewrite app_nil_r. apply filter_matched_other. intros ->. apply Hin. now left.
Qed.

Lemma bought_nonneg rows : positive_quantities rows -> 0 <= bought rows.
Proof.
  induction 1 as [|o rows Ho _ IH]; [cbn; lia|].
  rewrite bought_cons. unfold bought at 1. cbn [fold_right].
  destruct (Side o =? "Buy")%string; lia.
Qed.

Lemma bought_filter f rows :
  positive_quantities rows ->
  positive_quantities (filter f rows) /\ bought (filter f rows) <= bought rows.
Proof.
  induction 1 as [|o rows Ho Hrows IH]; [split; [constructor | cbn; lia]|].
  destruct IH as [IH1 IH2]. cbn [filter]. rewrite (bought_cons o rows).
  assert (0 <= bought [o]).
  { unfold bought. cbn [fold_right]. destruct (Side o =? "Buy")%string; lia. }
  destruct (f o).
  - split; [now constructor|]. rewrite bought_cons. lia.
  - split; [exact IH1 | lia].
Qed.

Lemma matched_within_bought rows s :
  positive_quantities rows ->
  sold (matched rows s)
  <= bought (filter (fun o => (Symbol o =? s)%string) rows).
Proof.
  intros Hq.
  destruct (bought_filter (fun o => (Symbol o =? s)%string) rows Hq) as [Hq1 Hb1].
  destruct (bought_filter (fun o => negb (isna (FilledTime o))) _ Hq1) as [Hq2 Hb2].
  fold (dropna (filter (fun o => (Symbol o =? s)%string) rows)) in Hq2, Hb2.
  fold (group rows s) in Hq2, Hb2.
  destruct (run_balance s (group rows s) (group rows s) (initial [])) as (new & Ht & Hp).
  pose proof (run_nonneg s (group rows s) (group rows s) (initial []) Hq2) as Hn.
  unfold matched. rewrite Ht in *. cbn [initial trades position app] in *. lia.
Qed.

End MoreFacts.

(* ================================================================== *)
(** * Facts about rounding, texts and times *)
(* ================================================================== *)

Module SignFacts.
Import Py Clock Matcher Spec Outcome Related Facts LoopFacts MoreFacts.
Local Open Scope list_scope.

Lemma round_half_even_nonneg (q : Q) : (0 <= q)%Q -> 0 <= round_half_even q.
Proof.
  intros H. unfold round_half_even.
  assert (0 <= Qfloor q).
  { change 0 with (Qfloor 0). now apply Qfloor_resp_le. }
  destruct (Qcompare _ _); [destruct (Z.even _)| |]; lia.
Qed.

Lemma round_half_even_nonpos (q : Q) : (q <= 0)%Q -> round_half_even q <= 0.
Proof.
  intros H. unfold round_half_even.
  assert (Hf : Qfloor q <= 0).
  { change 0 with (Qfloor 0). now apply Qfloor_resp_le. }
  destruct (Z.eq_dec (Qfloor q) 0) as [E|E].
  - rewrite E.
    assert (Hq : (q - inject_Z 0 == q)%Q) by (unfold Qminus; cbn; ring).
    destruct (Qcompare_spec (q - inject_Z 0) (1 # 2)) as [He|Hl|Hg];
      [exfalso | lia | exfalso].
    + rewrite Hq in He. rewrite He in H. now apply H.
    + rewrite Hq in Hg. apply (Qlt_irrefl (1 # 2)).
      eapply Qlt_le_trans; [exact Hg|]. eapply Qle_trans; [exact H | discriminate].
  - destruct (Qcompare _ _); [destruct (Z.even _)| |]; lia.
Qed.

Lemma inject_Z_nonneg z : 0 <= z -> (0 <= inject_Z z)%Q.
Proof. intros H. change 0%Q with (inject_Z 0). now rewrite <- Zle_Qle. Qed.

Lemma inject_Z_nonpos z : z <= 0 -> (inject_Z z <= 0)%Q.
Proof. intros H. change 0%Q with (inject_Z 0). now rewrite <- Zle_Qle. Qed.

Lemma hundredths_nonneg z : 0 <= z -> (0 <= inject_Z z / 100)%Q.
Proof.
  intros H. apply Qle_shift_div_l; [reflexivity|].
  rewrite Qmult_0_l. now apply inject_Z_nonneg.
Qed.

Lemma hundredths_nonpos z : z <= 0 -> (inject_Z z / 100 <= 0)%Q.
Proof.
  intros H. apply Qle_shift_div_r; [reflexivity|].
  rewrite Qmult_0_l. now apply inject_Z_nonpos.
Qed.

(** Rounding to cents keeps the side of zero a number is on. *)
Lemma round2_sign (x : Q) :
  exists y, round2 (Fin x) = Fin y
            /\ ((0 <= x)%Q -> (0 <= y)%Q) /\ ((x <= 0)%Q -> (y <= 0)%Q).
Proof.
  eexists. split; [reflexivity|]. split; intros H.
  - apply hundredths_nonneg, round_half_even_nonneg.
    rewrite <- (Qmult_0_l 100). apply Qmult_le_compat_r; [exact H | discriminate].
  - apply hundredths_nonpos, round_half_even_nonpos.
    rewrite <- (Qmult_0_l 100). apply Qmult_le_compat_r; [exact H | discriminate].
Qed.

(** ** The texts of a trade *)

Lemma create_trade_texts symbol o et a q d sc t :
  create_trade symbol o et a q d sc = Ok t ->
  Trade.date t = match et with Some (Ts e) => strftime_Ymd e | _ => "Unknown"%string end
  /\ Trade.entry_time t
     = match et with Some (Ts e) => strftime_HMS_EDT e | _ => "Unknown"%string end
  /\ Trade.exit_time t
     = match FilledTime o with Ts e => strftime_HMS_EDT e | NaT => "Unknown"%string end
  /\ Trade.company_name t = match Name o with Some n => n | None => symbol end.
Proof.
  unfold create_trade. destruct (fdiv _ _); [|discriminate].
  intros [= <-]. cbn. repeat split.
Qed.

Lemma colon_text_known (a b : string) : (a ++ ":" ++ b)%string <> "Unknown"%string.
Proof.
  intros H.
  do 7 (destruct a as [|? a]; cbn in H; [discriminate | injection H as _ H]).
  destruct a; discriminate.
Qed.

Lemma time_text_known (t : Timestamp) : strftime_HMS_EDT t <> "Unknown"%string.
Proof. unfold strftime_HMS_EDT. apply colon_text_known. Qed.

Lemma dashed_text_known (a b : string) : (a ++ "-" ++ b)%string <> "Unknown"%string.
Proof.
  intros H.
  do 7 (destruct a as [|? a]; cbn in H; [discriminate | injection H as _ H]).
  destruct a; discriminate.
Qed.

Lemma date_text_known (t : Timestamp) : strftime_Ymd t <> "Unknown"%string.
Proof.
  unfold strftime_Ymd. destruct (civil_from_days _) as [[y m] d].
  apply dashed_text_known.
Qed.

(** ** How far rounding moves a number *)

Lemma round_half_even_near (q : Q) :
  (inject_Z (round_half_even q) - q <= 1 # 2)%Q
  /\ (q - inject_Z (round_half_even q) <= 1 # 2)%Q.
Proof.
  unfold round_half_even.
  pose proof (Qfloor_le q) as H1. pose proof (Qlt_floor q) as H2.
  rewrite inject_Z_plus in H2. change (inject_Z 1) with 1%Q in H2.
  destruct (Qcompare_spec (q - inject_Z (Qfloor q)) (1 # 2)) as [E|E|E].
  - destruct (Z.even _);
      [|rewrite inject_Z_plus; change (inject_Z 1) with 1%Q]; split; lra.
  - split; lra.
  - rewrite inject_Z_plus; change (inject_Z 1) with 1%Q. split; lra.
Qed.

Lemma round2_near (x : Q) :
  exists y, round2 (Fin x) = Fin y
            /\ (x - (1 # 200) <= y)%Q /\ (y <= x + (1 # 200))%Q.
Proof.
  eexists. split; [reflexivity|].
  destruct (round_half_even_near (x * 100)) as [H1 H2].
  split.
  - apply Qle_shift_div_l; [reflexivity|]. lra.
  - apply Qle_shift_div_r; [reflexivity|]. lra.
Qed.

End SignFacts.

(* ================================================================== *)
(** * Facts about times in the matcher *)
(* ================================================================== *)

Module TimeFacts.
Import Py Clock Matcher Spec Outcome Related Facts LoopFacts MoreFacts SignFacts.
Local Open Scope list_scope.

Lemma isna_false t : isna t = false -> exists u, t = Ts u.
Proof. destruct t as [|u]; [discriminate | now exists u]. Qed.

Lemma step_has_times symbol orders l o rest :
  has_times l (o :: rest) -> has_times (step symbol orders l o) rest.
Proof.
  intros [Hrows Het]. inversion Hrows as [|? ? Ho Hrest]; subst.
  split; [exact Hrest|].
  destruct (String.eqb_spec (Side o) "Buy") as [HB|HB].
  - destruct (step_buy symbol orders l o HB) as [Hz|a Hnz Hs Ha|Hnz Hs];
      cbn [position entry_time]; intros Hp; auto; try lia.
    destruct (isna_false _ Ho) as [u ->]. now exists u.
  - destruct (String.eqb_spec (Side o) "Sell") as [HS|HS];
      [destruct (Z.lt_ge_cases 0 (position l)) as [Hq|Hq]|].
    + destruct (step_sell symbol orders l o HS Hq) as [e _|d w e _ _|d w t _ _];
        cbn [with_console position entry_time]; auto.
      unfold closed_or_reduced. destruct (_ <=? 0); cbn [position entry_time];
        [lia | intros _; apply Het; lia].
    + rewrite step_ignored; auto.
    + rewrite step_ignored; auto.
Qed.

(** With an entry time and a fill time the warning is not printed. *)
Lemma duration_not_warned t u r w :
  duration_outcome (Some (Ts t)) (Ts u) r w -> w = false.
Proof.
  inversion 1 as [| | Hm]; auto.
  destruct Hm as [?|[?|?]]; discriminate.
Qed.

Lemma step_no_warning symbol orders l o rest :
  has_times l (o :: rest) ->
  filter is_warning (console (step symbol orders l o))
  = filter is_warning (console l).
Proof.
  intros [Hrows Het]. inversion Hrows as [|? ? Ho Hrest]; subst.
  destruct (String.eqb_spec (Side o) "Buy") as [HB|HB].
  - destruct (step_buy symbol orders l o HB); cbn [console];
      rewrite filter_app; cbn; now rewrite app_nil_r.
  - destruct (String.eqb_spec (Side o) "Sell") as [HS|HS];
      [destruct (Z.lt_ge_cases 0 (position l)) as [Hq|Hq]|].
    + destruct (Het ltac:(lia)) as [et Eet].
      destruct (isna_false _ Ho) as [u Eu].
      destruct (step_sell symbol orders l o HS Hq) as [e Hd|d w e Hd _|d w t Hd _];
        rewrite Eet, Eu in Hd; try apply duration_not_warned in Hd; subst;
        unfold closed_or_reduced; try destruct (_ <=? 0);
        cbn [with_console console warning app];
        rewrite filter_app; cbn; now rewrite app_nil_r.
    + rewrite step_ignored; auto.
    + rewrite step_ignored; auto.
Qed.

Lemma run_no_warning symbol orders rows l :
  has_times l rows ->
  filter is_warning (console (run symbol orders rows l))
  = filter is_warning (console l).
Proof.
  revert l. induction rows as [|o rows IH]; intros l H; [reflexivity|].
  cbn [run fold_left]. fold (run symbol orders rows (step symbol orders l o)).
  rewrite IH by (eapply step_has_times; eauto).
  eapply step_no_warning; eauto.
Qed.

Lemma group_has_times rows symbol out :
  has_times (initial out) (group rows symbol).
Proof.
  split; [|intros H; now destruct H].
  unfold group, dropna. apply Forall_forall. intros o Ho.
  apply filter_In in Ho. destruct Ho as [_ Ho]. now apply negb_true_iff in Ho.
Qed.

(** The trades of rows that all have a time carry a date and two times of
    day. *)
Lemma run_texts_known symbol orders rows out :
  Forall (fun o => isna (FilledTime o) = false) rows ->
  Forall (fun t => Trade.date t <> "Unknown"%string
                   /\ Trade.entry_time t <> "Unknown"%string
                   /\ Trade.exit_time t <> "Unknown"%string)
         (trades (run symbol orders rows (initial out))).
Proof.
  intros Hrows.
  destruct (run_emitted has_times symbol orders (step_has_times symbol orders)
              rows (initial out)) as (new & Ht & Hall).
  { split; [exact Hrows | intros H; now destruct H]. }
  rewrite Ht. cbn [initial trades app].
  eapply Forall_impl; [|exact Hall].
  intros t (l0 & o & rest & [Hr Het] & _ & HS & Hp & E).
  destruct (step_sell_emitted symbol orders l0 o t HS Hp E) as (d & w & _ & Hc & _).
  apply create_trade_texts in Hc. destruct Hc as (Hd & He & Hx & _).
  destruct (Het ltac:(lia)) as [et Eet].
  inversion Hr as [|? ? Ho _]; subst.
  destruct (isna_false _ Ho) as [u Eu].
  rewrite Eet in Hd, He. rewrite Eu in Hx. rewrite Hd, He, Hx.
  split; [apply date_text_known|]. split; apply time_text_known.
Qed.

Lemma per_symbol_quiet rows symbol p :
  exists p',
    per_symbol rows symbol p = (p', Ok tt)
    /\ filter is_warning (output p') = filter is_warning (output p).
Proof.
  unfold per_symbol, try_except. fold (group rows symbol).
  pose proof (group_has_times rows symbol) as Hg.
  destruct (group rows symbol) as [|o so]; cbn [length Nat.eqb].
  - eexists. split; [reflexivity|]. cbn [say modify output fst].
    rewrite filter_app. cbn. now rewrite app_nil_r.
  - unfold bind at 1, say at 1, modify at 1. unfold bind at 1.
    unfold call_match_symbol_trades. rewrite match_symbol_trades_run.
    eexists. split; [reflexivity|].
    cbn [extend modify raw_orders matched_trades all_trades output fst].
    rewrite run_no_warning by apply Hg. cbn [initial console].
    rewrite filter_app. cbn. now rewrite app_nil_r.
Qed.

Lemma for_each_symbol_quiet rows symbols p :
  exists p',
    for_each symbols (per_symbol rows) p = (p', Ok tt)
    /\ filter is_warning (output p') = filter is_warning (output p).
Proof.
  revert p. induction symbols as [|s symbols IH]; intros p.
  - exists p. split; reflexivity.
  - cbn [for_each]. unfold bind.
    destruct (per_symbol_quiet rows s p) as (p1 & -> & E1).
    destruct (IH p1) as (p2 & -> & E2).
    exists p2. split; [reflexivity | congruence].
Qed.

(** The driver with orders loaded: what it returns and stores, and that
    it prints no warning about a duration. *)
Lemma driver_run (p : Parser) (rows : list Order) :
  raw_orders p = Some rows ->
  exists p',
    match_trades_with_scaling p
    = (p', Ok (flat_map (matched rows) (unique (map Symbol rows))))
    /\ matched_trades p' = flat_map (matched rows) (unique (map Symbol rows))
    /\ raw_orders p' = Some rows
    /\ filter is_warning (output p') = filter is_warning (output p).
Proof.
  intros Hr. unfold match_trades_with_scaling.
  unfold bind at 1, gets at 1. rewrite Hr.
  unfold bind at 1, modify at 1. unfold bind at 1.
  match goal with
  | |- context [for_each ?xs ?f ?q] =>
      destruct (for_each_symbol_run rows xs q) as (o1 & E1);
      destruct (for_each_symbol_quiet rows xs q) as (p1 & E2 & Hq);
      rewrite E1 in E2; injection E2 as <-; rewrite E1
  end.
  cbn [raw_orders matched_trades all_trades output app] in *.
  eexists. split; [reflexivity|]. split; [reflexivity|]. split; [exact Hr|].
  cbn [say modify output fst]. rewrite filter_app. cbn. now rewrite app_nil_r.
Qed.

(** ** Rows in time order *)

Lemma ts_sub_instant (u t : Timestamp) :
  aware u = aware t -> ts_sub u t = Ok (instant u - instant t).
Proof.
  unfold aware, ts_sub, instant.
  destruct (utcoffset u), (utcoffset t); intros H; try discriminate; reflexivity.
Qed.

Lemma step_ordered_from zone symbol orders l o rest :
  ordered_from zone l (o :: rest) ->
  ordered_from zone (step symbol orders l o) rest.
Proof.
  intros (Ht & Hs & He).
  apply Forall_cons_iff in Ht. destruct Ht as [(u & Eu & Au) Ht'].
  apply StronglySorted_inv in Hs. destruct Hs as [Hs' Hle].
  split; [exact Ht'|]. split; [exact Hs'|].
  assert (Hkeep : position l <> 0 ->
            exists et, entry_time l = Some (Ts et) /\ aware et = zone
                       /\ Forall (fun o => instant et <= instant_of o) rest).
  { intros Hp. destruct (He Hp) as (et & E1 & E2 & E3).
    exists et. split; [exact E1|]. split; [exact E2|].
    now apply Forall_cons_iff in E3. }
  destruct (String.eqb_spec (Side o) "Buy") as [HB|HB].
  - destruct (step_buy symbol orders l o HB) as [Hz|a Hnz Hsum Ha|Hnz Hsum];
      cbn [position entry_time]; intros Hp; auto; try lia.
    exists u. split; [now rewrite Eu|]. split; [exact Au|].
    eapply Forall_impl; [|exact Hle]. intros o'. unfold instant_of at 1.
    now rewrite Eu.
  - destruct (String.eqb_spec (Side o) "Sell") as [HS|HS];
      [destruct (Z.lt_ge_cases 0 (position l)) as [Hq|Hq]|].
    + destruct (step_sell symbol orders l o HS Hq) as [e _|d w e _ _|d w t _ _];
        cbn [with_console position entry_time]; auto.
      unfold closed_or_reduced. destruct (_ <=? 0); cbn [position entry_time];
        [lia | intros _; apply Hkeep; lia].
    + rewrite step_ignored; auto.
    + rewrite step_ignored; auto.
Qed.

(** The trades of rows in time order have a duration that is not
    negative. *)
Lemma run_durations zone symbol orders rows out :
  timed zone rows -> in_time_order rows ->
  Forall (fun t => 0 <= Trade.duration_minutes t)
         (trades (run symbol orders rows (initial out))).
Proof.
  intros Ht Hs.
  destruct (run_emitted (ordered_from zone) symbol orders
              (step_ordered_from zone symbol orders) rows (initial out))
    as (new & En & Hall).
  { split; [exact Ht|]. split; [exact Hs | intros H; now destruct H]. }
  rewrite En. cbn [initial trades app].
  eapply Forall_impl; [|exact Hall].
  intros t (l0 & o & rest & (Hto & _ & He) & _ & HS & Hp & E).
  destruct (step_sell_emitted symbol orders l0 o t HS Hp E) as (d & w & Hd & Hc & _).
  apply create_trade_ok in Hc. destruct Hc as (_ & _ & _ & _ & _ & _ & Hdur & _).
  rewrite Hdur.
  destruct (He ltac:(lia)) as (et & E1 & E2 & E3).
  apply Forall_cons_iff in Hto. destruct Hto as [(u & Eu & Au) _].
  apply Forall_cons_iff in E3. destruct E3 as [Hle _].
  unfold instant_of in Hle. rewrite Eu in Hle.
  rewrite E1, Eu in Hd.
  inversion Hd as [t0 u0 s Ha Hb Hsub Hr Hw | | Hm Hr Hw].
  - injection Ha as <-. injection Hb as <-.
    rewrite ts_sub_instant in Hsub by congruence. injection Hsub as <-.
    apply Z.quot_pos; lia.
  - lia.
Qed.

Lemma future_sells_bound orders t sells_kept :
  future_sells orders t = Ok sells_kept ->
  (length sells_kept <= sells orders)%nat.
Proof.
  unfold sells. revert sells_kept.
  induction orders as [|o orders IH]; intros kept; cbn [future_sells filter].
  - intros [= <-]. cbn. lia.
  - destruct (cell_gt (FilledTime o) t) as [b|e]; [|discriminate].
    destruct (future_sells orders t) as [l|e]; [|discriminate].
    intros [= <-]. specialize (IH l eq_refl).
    destruct b; cbn [andb]; destruct (Side o =? "Sell")%string; cbn [length]; lia.
Qed.

End TimeFacts.

(* ================================================================== *)
(** * Facts about the summaries and the grade *)
(* ================================================================== *)

Module SummaryFacts.
Import Py Clock Matcher Summary Analyst.
Local Open Scope list_scope.

Lemma first_marked_in chars analysis c :
  first_marked chars analysis = Some c -> In c chars.
Proof.
  induction chars as [|x chars IH]; cbn [first_marked]; [discriminate|].
  destruct (contains _ analysis); [intros [= <-]; now left | right; auto].
Qed.

Lemma first_marked_found pre c post analysis :
  Forall (fun b => contains ("GRADE: " ++ b) analysis = false) pre ->
  contains ("GRADE: " ++ c) analysis = true ->
  first_marked (pre ++ c :: post) analysis = Some c.
Proof.
  induction 1 as [|b pre Hb _ IH]; intros Hc; cbn [app first_marked].
  - now rewrite Hc.
  - rewrite Hb. now apply IH.
Qed.

Lemma first_marked_none chars analysis :
  Forall (fun b => contains ("GRADE: " ++ b) analysis = false) chars ->
  first_marked chars analysis = None.
Proof.
  induction 1 as [|b chars Hb _ IH]; cbn [first_marked]; [reflexivity|].
  now rewrite Hb.
Qed.

Lemma grade_range analysis :
  In (_extract_grade analysis) ["A"; "B"; "C"; "D"; "F"]%string.
Proof.
  unfold _extract_grade. destruct (first_marked _ analysis) as [c|] eqn:E.
  - now apply first_marked_in in E.
  - cbn. auto.
Qed.

(** ** Sums *)






Lemma length_nonzero {A : Type} (x : A) (xs : list A) :
  is_zero (of_int (Z.of_nat (length (x :: xs)))) = false.
Proof. rewrite Facts.is_zero_of_int. cbn [length]. apply Z.eqb_neq. lia. Qed.


End SummaryFacts.

(* ================================================================== *)
(** * Facts about one cell of the column of times *)
(* ================================================================== *)

Module CellFacts.
Import Py Clock Normalizer Cells NormalizerFacts.
Local Open Scope list_scope.

Section Robust.
Variable coerce : string -> result pytime.

(** A turn of the loop adds to the console what the cell adds to an empty
    one, and appends the same time. *)
Lemma parse_cell_run cell out :
  parse_cell coerce cell out
  = (out ++ cell_warnings coerce cell, Ok (cell_time coerce cell)).
Proof.
  unfold cell_warnings, cell_time, parse_cell, try_except.
  destruct cell as [s|]; [|cbn; now rewrite app_nil_r].
  destruct (s =? "")%string; [cbn; now rewrite app_nil_r|].
  destruct (contains "EDT" (strip s)).
  { rewrite !webull_run. destruct (to_datetime_mdY_HMS _); [|reflexivity].
    destruct (localize_eastern _); [cbn; now rewrite app_nil_r | reflexivity]. }
  destruct (contains "EST" (strip s)).
  { rewrite !webull_run. destruct (to_datetime_mdY_HMS _); [|reflexivity].
    destruct (localize_eastern _); [cbn; now rewrite app_nil_r | reflexivity]. }
  unfold lift. destruct (coerce (strip s)); [cbn; now rewrite app_nil_r | reflexivity].
Qed.

Lemma parse_datetime_robust_run series out :
  _parse_datetime_robust coerce series out
  = (out ++ flat_map (cell_warnings coerce) series,
     Ok (map (cell_time coerce) series)).
Proof.
  revert out. induction series as [|cell series IH]; intros out.
  - cbn. now rewrite app_nil_r.
  - cbn [_parse_datetime_robust flat_map map]. unfold bind at 1.
    rewrite parse_cell_run. unfold bind at 1. rewrite IH.
    unfold ret. now rewrite app_assoc.
Qed.

(** A cell prints at most one warning, and one that does gives the
    missing-value marker. *)
Lemma cell_warnings_cases cell :
  (cell_warnings coerce cell = [])
  \/ (exists e, cell_warnings coerce cell = [PrintFailed (option_map strip cell) e]
                /\ cell_time coerce cell = NaT).
Proof.
  unfold cell_warnings, cell_time, parse_cell, try_except.
  match goal with
  | |- context [match ?c [] with _ => _ end] => destruct (c []) as [o r] eqn:E
  end.
  assert (Ho : o = []).
  { revert E. destruct cell as [s|]; [|now intros [= <- _]].
    destruct (s =? "")%string; [now intros [= <- _]|].
    destruct (contains "EDT" (strip s)).
    { rewrite webull_run. destruct (to_datetime_mdY_HMS _);
        [destruct (localize_eastern _)|]; now intros [= <- _]. }
    destruct (contains "EST" (strip s)).
    { rewrite webull_run. destruct (to_datetime_mdY_HMS _);
        [destruct (localize_eastern _)|]; now intros [= <- _]. }
    unfold lift. now intros [= <- _]. }
  subst o. destruct r as [dt|e]; [now left|].
  right. exists e. split; reflexivity.
Qed.

(** A cell that is missing or empty has no time. *)
Lemma cell_time_blank cell :
  isna (cell_time coerce cell) = false ->
  cell <> None /\ cell <> Some ""%string.
Proof.
  intros H. split; intros ->; discriminate H.
Qed.

End Robust.

End CellFacts.

(* ================================================================== *)
(** * Facts about the order of the cleaned rows *)
(* ================================================================== *)

Module CleanerFacts.
Import Py Clock Matcher Normalizer Related Cells Cleaner CellFacts.
Local Open Scope list_scope.

(** ** The order of strings *)

Lemma ascii_compare_refl (a : ascii) : Ascii.compare a a = Eq.
Proof. unfold Ascii.compare. apply N.compare_refl. Qed.

Lemma ascii_compare_lt_trans (a b c : ascii) :
  Ascii.compare a b = Lt -> Ascii.compare b c = Lt -> Ascii.compare a c = Lt.
Proof.
  unfold Ascii.compare. rewrite !N.compare_lt_iff. apply N.lt_trans.
Qed.

Lemma compare_refl (s : string) : String.compare s s = Eq.
Proof.
  induction s as [|a s IH]; cbn [String.compare]; [reflexivity|].
  now rewrite ascii_compare_refl.
Qed.

Lemma compare_lt_trans (s1 s2 s3 : string) :
  String.compare s1 s2 = Lt -> String.compare s2 s3 = Lt ->
  String.compare s1 s3 = Lt.
Proof.
  revert s2 s3. induction s1 as [|a s1 IH]; intros [|b s2] [|c s3];
    cbn [String.compare]; try congruence.
  destruct (Ascii.compare a b) eqn:Eab; try discriminate;
    destruct (Ascii.compare b c) eqn:Ebc; try discriminate; intros H1 H2.
  - apply Ascii.compare_eq_iff in Eab, Ebc. subst.
    rewrite ascii_compare_refl. eauto.
  - apply Ascii.compare_eq_iff in Eab. subst. now rewrite Ebc.
  - apply Ascii.compare_eq_iff in Ebc. subst. now rewrite Eab.
  - now rewrite (ascii_compare_lt_trans a b c).
Qed.

Lemma compare_gt_lt (s1 s2 : string) :
  String.compare s1 s2 = Gt -> String.compare s2 s1 = Lt.
Proof. intros H. rewrite String.compare_antisym, H. reflexivity. Qed.

(** ** The order of rows *)

Lemma time_le_total a b : time_le a b = false -> time_le b a = true.
Proof.
  destruct a as [|x], b as [|y]; cbn; try congruence.
  intros H. apply Z.leb_gt in H. apply Z.leb_le. lia.
Qed.

Lemma time_le_trans a b c :
  time_le a b = true -> time_le b c = true -> time_le a c = true.
Proof.
  destruct a as [|x], b as [|y], c as [|z]; cbn; try congruence.
  rewrite !Z.leb_le. lia.
Qed.

Lemma row_le_total a b : row_le a b = false -> row_le b a = true.
Proof.
  unfold row_le. rewrite (String.compare_antisym (Symbol (order b))).
  destruct (String.compare (Symbol (order a)) (Symbol (order b))); cbn [CompOpp];
    try congruence.
  apply time_le_total.
Qed.

Lemma row_le_trans a b c :
  row_le a b = true -> row_le b c = true -> row_le a c = true.
Proof.
  unfold row_le.
  destruct (String.compare (Symbol (order a)) (Symbol (order b))) eqn:Eab;
    try discriminate;
    destruct (String.compare (Symbol (order b)) (Symbol (order c))) eqn:Ebc;
    try discriminate; intros H1 H2.
  - apply String.compare_eq_iff in Eab, Ebc. rewrite Eab, Ebc, compare_refl.
    eapply time_le_trans; eauto.
  - apply String.compare_eq_iff in Eab. now rewrite Eab, Ebc.
  - apply String.compare_eq_iff in Ebc. now rewrite <- Ebc, Eab.
  - now rewrite (compare_lt_trans _ _ _ Eab Ebc).
Qed.

(** ** Sorting *)

Lemma insert_permutation x ys : Permutation (insert x ys) (x :: ys).
Proof.
  induction ys as [|y ys IH]; cbn [insert]; [reflexivity|].
  destruct (row_le x y); [reflexivity|].
  rewrite IH. apply perm_swap.
Qed.

Lemma sorted_rows_permutation rows : Permutation (sorted_rows rows) rows.
Proof.
  unfold sorted_rows. induction rows as [|r rows IH]; cbn [fold_right]; [reflexivity|].
  rewrite insert_permutation. now constructor.
Qed.

Lemma insert_sorted x ys :
  StronglySorted (fun a b => row_le a b = true) ys ->
  StronglySorted (fun a b => row_le a b = true) (insert x ys).
Proof.
  induction 1 as [|y ys Hs IH Hall]; cbn [insert].
  - repeat constructor.
  - destruct (row_le x y) eqn:E.
    + constructor; [now constructor|]. constructor; [exact E|].
      eapply Forall_impl; [|exact Hall]. intros z Hz. eapply row_le_trans; eauto.
    + constructor; [exact IH|].
      eapply Permutation_Forall; [symmetry; apply insert_permutation|].
      constructor; [now apply row_le_total | exact Hall].
Qed.

Lemma sorted_rows_sorted rows :
  StronglySorted (fun a b => row_le a b = true) (sorted_rows rows).
Proof.
  unfold sorted_rows. induction rows as [|r rows IH]; cbn [fold_right].
  - constructor.
  - now apply insert_sorted.
Qed.

(** Rows with equal keys stay as they were: a row is put before the rows
    it is not after. *)
Lemma insert_first x ys :
  Forall (fun y => row_le x y = true) ys -> insert x ys = x :: ys.
Proof.
  destruct 1 as [|y ys Hy _]; cbn [insert]; [reflexivity|]. now rewrite Hy.
Qed.

Lemma sorted_rows_fixed rows :
  StronglySorted (fun a b => row_le a b = true) rows -> sorted_rows rows = rows.
Proof.
  unfold sorted_rows. induction 1 as [|r rows _ IH Hall]; cbn [fold_right];
    [reflexivity|].
  rewrite IH. now apply insert_first.
Qed.

Lemma same_key_after x y : row_le x y = false -> forall k,
  same_key k x = true -> same_key k y = false.
Proof.
  intros Hxy k Hk. unfold same_key in *. apply andb_true_iff in Hk.
  destruct Hk as [Hkx Hxk].
  destruct (row_le k y) eqn:Hky; [|reflexivity].
  destruct (row_le y k) eqn:Hyk; [|reflexivity].
  exfalso. rewrite (row_le_trans x k y Hxk Hky) in Hxy. discriminate.
Qed.

Lemma filter_insert k x ys :
  filter (same_key k) (insert x ys) = filter (same_key k) (x :: ys).
Proof.
  induction ys as [|y ys IH]; cbn [insert]; [reflexivity|].
  destruct (row_le x y) eqn:E; [reflexivity|].
  cbn [filter] in *. rewrite IH.
  destruct (same_key k x) eqn:Ex; [|reflexivity].
  now rewrite (same_key_after x y E k Ex).
Qed.

(** Sorting keeps the rows of equal key in the order they had. *)
Lemma sorted_rows_stable k rows :
  filter (same_key k) (sorted_rows rows) = filter (same_key k) rows.
Proof.
  unfold sorted_rows. induction rows as [|r rows IH]; cbn [fold_right];
    [reflexivity|].
  rewrite filter_insert. cbn [filter]. now rewrite IH.
Qed.

(** ** One kind of time *)

Lemma forallb_kind zone rest :
  forallb (Bool.eqb zone) rest = true -> Forall (fun z => z = zone) rest.
Proof.
  rewrite forallb_forall, Forall_forall. intros H z Hz.
  symmetry. apply Bool.eqb_prop. now apply H.
Qed.

Lemma kinds_of_kind zone rows :
  Forall (fun z => z = zone) (kinds rows) -> of_kind zone rows.
Proof.
  unfold kinds, of_kind. induction rows as [|r rows IH]; cbn [flat_map];
    intros H; constructor.
  - destruct (FilledTime (order r)); [exact I|]. now inversion H.
  - apply IH. destruct (FilledTime (order r)); [exact H | now inversion H].
Qed.

Lemma one_kind_of_kind rows :
  one_kind rows = true -> exists zone, of_kind zone rows.
Proof.
  unfold one_kind. destruct (kinds rows) as [|zone rest] eqn:E; intros H.
  - exists true. apply kinds_of_kind. rewrite E. constructor.
  - exists zone. apply kinds_of_kind. rewrite E.
    constructor; [reflexivity | now apply forallb_kind].
Qed.

(** ** The groups of a sorted frame *)

(** The rows the driver selects for a symbol from the orders that
    [parse_webull_csv] stores. *)
Lemma group_cons r rows s :
  group (map order (r :: rows)) s
  = if (Symbol (order r) =? s)%string && negb (isna (FilledTime (order r)))
    then order r :: group (map order rows) s
    else group (map order rows) s.
Proof.
  unfold group, dropna. cbn [map filter].
  destruct (Symbol (order r) =? s)%string; cbn [andb filter]; [|reflexivity].
  now destruct (isna (FilledTime (order r))).
Qed.

Lemma in_group o rows s :
  In o (group (map order rows) s) ->
  exists r, In r rows /\ o = order r /\ Symbol o = s /\ isna (FilledTime o) = false.
Proof.
  unfold group, dropna. intros H. apply filter_In in H. destruct H as [H Hna].
  apply filter_In in H. destruct H as [H Hs]. apply in_map_iff in H.
  destruct H as (r & <- & Hr). exists r. repeat split; auto.
  - now apply String.eqb_eq.
  - now apply negb_true_iff.
Qed.

Lemma group_in_time_order rows s :
  StronglySorted (fun a b => row_le a b = true) rows ->
  in_time_order (group (map order rows) s).
Proof.
  unfold in_time_order. induction 1 as [|r rows _ IH Hall].
  - constructor.
  - rewrite group_cons.
    destruct (String.eqb_spec (Symbol (order r)) s) as [Hs|Hs]; cbn [andb];
      [|exact IH].
    destruct (FilledTime (order r)) as [|t] eqn:Et; cbn [isna negb]; [exact IH|].
    constructor; [exact IH|].
    apply Forall_forall. intros o Ho.
    destruct (in_group o rows s Ho) as (r' & Hr' & -> & Hs' & Hna).
    rewrite Forall_forall in Hall. specialize (Hall r' Hr').
    unfold row_le in Hall. rewrite Hs, Hs', compare_refl, Et in Hall.
    unfold instant_of. rewrite Et.
    destruct (FilledTime (order r')) as [|t']; [discriminate|].
    cbn [time_le] in Hall. now apply Z.leb_le.
Qed.

Lemma group_timed zone rows s :
  of_kind zone rows -> timed zone (group (map order rows) s).
Proof.
  unfold of_kind, timed. intros H. apply Forall_forall. intros o Ho.
  destruct (in_group o rows s Ho) as (r & Hr & -> & _ & Hna).
  rewrite Forall_forall in H. specialize (H r Hr).
  destruct (FilledTime (order r)) as [|t]; [discriminate|]. now exists t.
Qed.

Lemma of_kind_permutation zone rows rows' :
  Permutation rows rows' -> of_kind zone rows -> of_kind zone rows'.
Proof. intros Hp. now apply Permutation_Forall. Qed.

Lemma of_kind_filter zone p rows :
  of_kind zone rows -> of_kind zone (filter p rows).
Proof.
  unfold of_kind. rewrite !Forall_forall. intros H r Hr.
  apply filter_In in Hr. now apply H.
Qed.

Lemma sorted_filter p rows :
  StronglySorted (fun a b => row_le a b = true) rows ->
  StronglySorted (fun a b => row_le a b = true) (filter p rows).
Proof.
  induction 1 as [|r rows _ IH Hall]; cbn [filter]; [constructor|].
  destruct (p r); [|exact IH]. constructor; [exact IH|].
  rewrite Forall_forall in *. intros r' Hr'. apply filter_In in Hr'. now apply Hall.
Qed.

(** ** The cleaning *)

Lemma clean_run numeric show coerce df :
  exists warnings times,
    _parse_datetime_robust coerce (map Raw.FilledTime df) [] = (warnings, Ok times)
    /\ length times = length df
    /\ snd (_clean_webull_data numeric show coerce df)
       = sort_values (with_times numeric show df times).
Proof.
  destruct (NormalizerFacts.parse_datetime_robust_ok coerce (map Raw.FilledTime df) [])
    as (warnings & times & E & Hlen).
  exists warnings, times. split; [exact E|]. rewrite length_map in Hlen.
  split; [exact Hlen|]. unfold _clean_webull_data. now rewrite E.
Qed.

Lemma clean_ok numeric show coerce df rows :
  snd (_clean_webull_data numeric show coerce df) = Ok rows ->
  StronglySorted (fun a b => row_le a b = true) rows
  /\ exists zone, of_kind zone rows.
Proof.
  destruct (clean_run numeric show coerce df) as (w & times & _ & _ & ->).
  unfold sort_values. destruct (one_kind _) eqn:E; [|discriminate].
  intros [= <-]. split; [apply sorted_rows_sorted|].
  destruct (one_kind_of_kind _ E) as [zone Hz]. exists zone.
  eapply of_kind_permutation; [symmetry; apply sorted_rows_permutation | exact Hz].
Qed.

(** A successful parse stores the orders of a frame in order, of one kind
    of time. *)
Lemma parse_ok numeric show coerce read_csv self path self' notes rows :
  parse_webull_csv numeric show coerce read_csv self path = (self', notes, Some rows) ->
  raw_orders self' = Some (map order rows)
  /\ StronglySorted (fun a b => row_le a b = true) rows
  /\ exists zone, of_kind zone rows.
Proof.
  unfold parse_webull_csv. destruct (read_csv path) as [df|message]; [|discriminate].
  destruct (_clean_webull_data numeric show coerce df) as [more [cleaned_df|e]] eqn:E;
    [|discriminate].
  intros [= <- _ <-]. split; [reflexivity|].
  destruct (clean_ok numeric show coerce df cleaned_df) as (Hs & zone & Hz);
    [now rewrite E|].
  split; [now apply sorted_filter|]. exists zone. now apply of_kind_filter.
Qed.

(** The rows a successful parse returns are rows of the file, cleaned,
    each with the time of its own cell. *)
Lemma with_times_map numeric show coerce df :
  with_times numeric show df (map (cell_time coerce) (map Raw.FilledTime df))
  = map (fun r => cleaned numeric show r (cell_time coerce (Raw.FilledTime r))) df.
Proof.
  unfold with_times. induction df as [|r df IH]; [reflexivity|].
  cbn [map combine fst snd]. now rewrite IH.
Qed.

Lemma parse_rows_from_file numeric show coerce read_csv self path self' notes rows :
  parse_webull_csv numeric show coerce read_csv self path = (self', notes, Some rows) ->
  exists df,
    read_csv path = Frame df
    /\ raw_orders self' = Some (map order rows)
    /\ forall r', In r' rows ->
         Status r' = "Filled"%string
         /\ exists r, In r df
                      /\ r' = cleaned numeric show r
                                 (cell_time coerce (Raw.FilledTime r)).
Proof.
  unfold parse_webull_csv. destruct (read_csv path) as [df|message]; [|discriminate].
  destruct (_clean_webull_data numeric show coerce df) as [more [cleaned_df|e]] eqn:E;
    [|discriminate].
  intros [= <- _ <-]. exists df. split; [reflexivity|]. split; [reflexivity|].
  intros r' Hr'. apply filter_In in Hr'. destruct Hr' as [Hin HS].
  apply String.eqb_eq in HS. split; [exact HS|].
  unfold _clean_webull_data in E.
  rewrite parse_datetime_robust_run in E. injection E as _ E.
  rewrite with_times_map in E. unfold sort_values in E.
  destruct (one_kind _); [|discriminate]. injection E as <-.
  apply (Permutation_in _ (sorted_rows_permutation _)) in Hin.
  apply in_map_iff in Hin. destruct Hin as (r & <- & Hin). now exists r.
Qed.

(** What the driver returns on orders whose groups are in time order. *)
Lemma driver_durations zone p orders :
  raw_orders p = Some orders ->
  (forall s, timed zone (group orders s) /\ in_time_order (group orders s)) ->
  exists p' ts,
    match_trades_with_scaling p = (p', Ok ts)
    /\ Forall (fun t => 0 <= Trade.duration_minutes t) ts.
Proof.
  intros Hr Hg. destruct (TimeFacts.driver_run p orders Hr) as (p' & E & _).
  eexists _, _. split; [exact E|].
  apply Forall_forall. intros t Ht. apply in_flat_map in Ht.
  destruct Ht as (s & _ & Ht). unfold matched in Ht.
  destruct (Hg s) as [H1 H2].
  pose proof (TimeFacts.run_durations zone s (group orders s) (group orders s) [] H1 H2)
    as Hall.
  rewrite Forall_forall in Hall. now apply Hall.
Qed.

End CleanerFacts.

(* ================================================================== *)
(** * Facts about binary64 rounding *)
(* ================================================================== *)

Module Binary64Facts.
Import Py Binary64 SignFacts.

Lemma round_half_even_comp (x y : Q) :
  (x == y)%Q -> round_half_even x = round_half_even y.
Proof.
  intros E. unfold round_half_even. rewrite (Qfloor_comp _ _ E).
  assert (H : (x - inject_Z (Qfloor y) == y - inject_Z (Qfloor y))%Q) by now rewrite E.
  now rewrite (Qcompare_comp _ _ H _ _ (Qeq_refl (1 # 2))).
Qed.

Lemma round_half_even_int (k : Z) : round_half_even (inject_Z k) = k.
Proof.
  unfold round_half_even. rewrite Qfloor_Z.
  destruct (Qcompare_spec (inject_Z k - inject_Z k) (1 # 2)) as [E|E|E];
    [exfalso; lra | reflexivity | exfalso; lra].
Qed.

Lemma two_power_pos (e : Z) : (0 < 2 ^ e)%Q.
Proof. now apply Qpower_0_lt. Qed.

Lemma two_not_zero : ~ (2 == 0)%Q.
Proof. discriminate. Qed.

(** The scaled number has at least 53 bits. *)
Lemma exponent_low (x : Q) :
  ~ (x == 0)%Q -> (2 ^ (exponent x - 1) <= Qabs x)%Q.
Proof.
  intros Hx. unfold exponent.
  set (n := Z.abs (Qnum x)). set (d := Z.pos (Qden x)).
  destruct (Qle_bool _ _) eqn:E.
  - apply Qle_bool_iff in E. now replace (_ + 1 - 1) with (Z.log2 n - Z.log2 d) by lia.
  - clear E.
    assert (Hn : 0 < n).
    { subst n. destruct x as [[|p|p] q]; cbn; try lia. exfalso. now apply Hx. }
    assert (Hd : 0 < d) by (subst d; lia).
    replace (Z.log2 n - Z.log2 d - 1) with (Z.log2 n - (Z.log2 d + 1)) by lia.
    rewrite Qpower_minus by apply two_not_zero.
    pose proof (Z.log2_nonneg n). pose proof (Z.log2_nonneg d).
    rewrite <- !(Zpower_Qpower 2) by lia.
    assert (H1 : 2 ^ Z.log2 n <= n) by (apply Z.log2_spec; lia).
    assert (H2 : d < 2 ^ (Z.log2 d + 1)).
    { replace (Z.log2 d + 1) with (Z.succ (Z.log2 d)) by lia. apply Z.log2_spec; lia. }
    assert (Hp : 0 < 2 ^ (Z.log2 d + 1)) by lia.
    assert (E : (Qabs x == inject_Z n / inject_Z d)%Q).
    { destruct x as [a q]. unfold Qabs, n, d. cbn [Qnum Qden].
      now rewrite <- Qmake_Qdiv. }
    rewrite E.
    assert (Hd' : (0 < inject_Z d)%Q) by (rewrite <- (Zlt_Qlt 0); lia).
    apply Qle_shift_div_r; [rewrite <- (Zlt_Qlt 0); lia|].
    setoid_replace (inject_Z n / inject_Z d * inject_Z (2 ^ (Z.log2 d + 1)))%Q
      with (inject_Z n * inject_Z (2 ^ (Z.log2 d + 1)) / inject_Z d)%Q
      by (field; lra).
    apply Qle_shift_div_l; [exact Hd'|].
    rewrite <- !inject_Z_mult, <- Zle_Qle. nia.
Qed.


Lemma nearest_near (x : Q) :
  (0 <= x)%Q -> ((1 - u) * x <= nearest x)%Q /\ (nearest x <= (1 + u) * x)%Q.
Proof.
  intros Hx. unfold nearest. destruct (Qeq_bool x 0) eqn:E.
  - apply Qeq_bool_iff in E. rewrite E. unfold u. split; lra.
  - apply Qeq_bool_neq in E. cbv zeta. rewrite Qred_correct.
    set (s := 53 - exponent x).
    pose proof (exponent_low x E) as Hlow. rewrite (Qabs_pos x Hx) in Hlow.
    pose proof (two_power_pos s) as Hs.
    assert (Hy : (4503599627370496 <= x * 2 ^ s)%Q).
    { setoid_replace 4503599627370496%Q with (2 ^ (exponent x - 1) * 2 ^ s)%Q.
      - apply Qmult_le_compat_r; [exact Hlow | lra].
      - rewrite <- Qpower_plus by apply two_not_zero.
        replace (exponent x - 1 + s) with 52 by (unfold s; lia). reflexivity. }
    destruct (round_half_even_near (x * 2 ^ s)) as [H1 H2].
    set (r := inject_Z (round_half_even (x * 2 ^ s))) in *.
    set (y := (x * 2 ^ s)%Q) in *.
    split.
    + apply Qle_shift_div_l; [exact Hs|].
      setoid_replace ((1 - u) * x * 2 ^ s)%Q with ((1 - u) * y)%Q
        by (unfold y; ring).
      unfold u. lra.
    + apply Qle_shift_div_r; [exact Hs|].
      setoid_replace ((1 + u) * x * 2 ^ s)%Q with ((1 + u) * y)%Q
        by (unfold y; ring).
      unfold u. lra.
Qed.

Lemma nearest_nonneg (x : Q) : (0 <= x)%Q -> (0 <= nearest x)%Q.
Proof.
  intros Hx. destruct (nearest_near x Hx) as [H _]. unfold u in H. lra.
Qed.

Lemma nearest_pos (x : Q) : (0 < x)%Q -> (0 < nearest x)%Q.
Proof.
  intros Hx. destruct (nearest_near x) as [H _]; [lra|]. unfold u in H. lra.
Qed.

(** An integer below [2^53] is a float. *)
Lemma nearest_int (z : Z) :
  0 <= z < 2 ^ 53 -> (nearest (inject_Z z) == inject_Z z)%Q.
Proof.
  intros [H0 H1]. unfold nearest. destruct (Qeq_bool (inject_Z z) 0) eqn:E.
  - apply Qeq_bool_iff in E. now rewrite E.
  - apply Qeq_bool_neq in E. cbv zeta. rewrite Qred_correct.
    pose proof (exponent_low _ E) as Hlow.
    assert (Hz : (0 <= inject_Z z)%Q) by (rewrite <- (Zle_Qle 0); lia).
    rewrite (Qabs_pos _ Hz) in Hlow.
    assert (He : exponent (inject_Z z) - 1 < 53).
    { apply (Qpower_lt_compat_l_inv 2); [|reflexivity].
      eapply Qle_lt_trans; [exact Hlow|].
      rewrite <- (Zpower_Qpower 2) by lia. rewrite <- Zlt_Qlt. exact H1. }
    set (s := 53 - exponent (inject_Z z)) in *.
    assert (Hs : 0 <= s) by (unfold s; lia).
    assert (Ey : (inject_Z z * 2 ^ s == inject_Z (z * 2 ^ s))%Q).
    { rewrite inject_Z_mult. now rewrite (Zpower_Qpower 2) by exact Hs. }
    rewrite (round_half_even_comp _ _ Ey), round_half_even_int.
    rewrite inject_Z_mult, (Zpower_Qpower 2) by exact Hs.
    pose proof (Qpower_not_0 2 s two_not_zero) as Ht.
    set (t := (2 ^ s)%Q) in *. change (inject_Z 2 ^ s)%Q with t.
    field. exact Ht.
Qed.

(** ** Powers *)

Lemma power_nonneg (x : Q) (k : nat) : (0 <= x)%Q -> (0 <= power x k)%Q.
Proof.
  intros Hx. induction k as [|k IH]; cbn [power]; [lra|].
  now apply Qmult_le_0_compat.
Qed.

Lemma power_pos (x : Q) (k : nat) : (0 < x)%Q -> (0 < power x k)%Q.
Proof.
  intros Hx. induction k as [|k IH]; cbn [power]; [lra|].
  now apply Qmult_lt_0_compat.
Qed.

Lemma power_le_one (x : Q) (k : nat) :
  (0 <= x)%Q -> (x <= 1)%Q -> (power x k <= 1)%Q.
Proof.
  intros H0 H1. induction k as [|k IH]; cbn [power]; [lra|].
  pose proof (power_nonneg x k H0). nra.
Qed.

Lemma power_ge_one (x : Q) (k : nat) : (1 <= x)%Q -> (1 <= power x k)%Q.
Proof.
  intros H1. induction k as [|k IH]; cbn [power]; [lra | nra].
Qed.

End Binary64Facts.

(* ================================================================== *)
(** * Facts about the loop with rounded arithmetic *)
(* ================================================================== *)

Module RoundedFacts.
Import Py Clock Matcher Spec Outcome Related Facts TimeFacts Rounded.
Local Open Scope py_scope.
Local Open Scope list_scope.

(** Without rounding the loop is the loop of [Matcher]. *)
Lemma step_r_exact symbol orders l o :
  step_r (fun x => x) symbol orders l o = step symbol orders l o.
Proof. reflexivity. Qed.

Lemma run_r_exact symbol orders rows l :
  run_r (fun x => x) symbol orders rows l = run symbol orders rows l.
Proof.
  revert l. induction rows as [|o rows IH]; intros l; [reflexivity|].
  cbn [run_r run fold_left]. rewrite step_r_exact. apply IH.
Qed.

Section Arithmetic.
Variable rnd : Q -> Q.

Lemma step_r_ignored symbol orders l o :
  Side o <> "Buy"%string -> (Side o <> "Sell"%string \/ position l <= 0) ->
  step_r rnd symbol orders l o = l.
Proof.
  intros HB H. unfold step_r, iteration_r, try_except, body_r.
  destruct (String.eqb_spec (Side o) "Buy"); [contradiction|].
  unfold bind, gets.
  destruct (String.eqb_spec (Side o) "Sell"); cbn [andb]; [|reflexivity].
  destruct H as [H|H]; [contradiction|].
  destruct (0 <? position l) eqn:E; [apply Z.ltb_lt in E; lia | reflexivity].
Qed.

(** A Buy opens the position, or is added to it, or fails in the
    division after the position was updated. *)
Lemma step_r_buy symbol orders l o :
  Side o = "Buy"%string ->
  (position l = 0
   /\ step_r rnd symbol orders l o
      = mkLocals (trades l) (Filled o) (AvgPrice o) (Some (FilledTime o)) [o]
          (console l ++ [PrintEntry symbol (Filled o) (AvgPrice o)]))
  \/ (position l <> 0
      /\ exists a,
           averaged_r rnd l o = Ok a
           /\ step_r rnd symbol orders l o
              = mkLocals (trades l) (position l + Filled o) a (entry_time l)
                  (entry_orders l ++ [o])
                  (console l ++ [PrintAdd symbol (Filled o) (AvgPrice o) a]))
  \/ (position l <> 0
      /\ exists e,
           averaged_r rnd l o = Raise e
           /\ step_r rnd symbol orders l o
              = mkLocals (trades l) (position l + Filled o) (avg_cost l)
                  (entry_time l) (entry_orders l)
                  (console l ++ [PrintOrderError symbol e])).
Proof.
  intros HB. unfold step_r, iteration_r, try_except, body_r. rewrite HB.
  cbn [String.eqb Ascii.eqb Bool.eqb]. unfold on_buy_r, averaged_r.
  destruct l as [ts p a0 et eo c]. locals.
  destruct (Z.eqb_spec p 0) as [Hz|Hz].
  - left. split; [exact Hz | reflexivity].
  - right. cbn beta iota.
    destruct (div_r rnd _ _) as [a|e].
    + left. split; [exact Hz|]. exists a. split; reflexivity.
    + right. split; [exact Hz|]. exists e. split; reflexivity.
Qed.

(** A Sell against an open position is skipped, and only the console
    changes, or one trade is appended, whose entry price is the cost
    basis rounded. *)
Lemma step_r_sell symbol orders l o :
  Side o = "Sell"%string -> 0 < position l ->
  (exists out, step_r rnd symbol orders l o = with_console l out)
  \/ (exists t out,
        step_r rnd symbol orders l o
        = closed_or_reduced l (Z.min (Filled o) (position l)) t out
        /\ Trade.entry_price t = round2_r rnd (avg_cost l)).
Proof.
  intros HS Hp.
  enough (H : forall l',
             step_r rnd symbol orders l o = l' ->
             (exists out, l' = with_console l out)
             \/ (exists t out,
                   l' = closed_or_reduced l (Z.min (Filled o) (position l)) t out
                   /\ Trade.entry_price t = round2_r rnd (avg_cost l)))
    by (now apply H).
  intros l'. unfold step_r, iteration_r, try_except, body_r.
  rewrite HS. cbn [String.eqb Ascii.eqb Bool.eqb andb].
  unfold bind at 1, gets at 1.
  destruct (0 <? position l) eqn:E; [|apply Z.ltb_ge in E; lia].
  unfold on_sell_r. unfold bind at 1, gets at 1. unfold bind at 1, gets at 1.
  unfold bind at 1.
  destruct (calculate_duration_run symbol (entry_time l) o l) as (r & w & Hd & ->).
  destruct r as [d|e].
  2:{ destruct l. locals. intros <-. left. eexists. reflexivity. }
  unfold bind at 1. rewrite scale_information_run.
  unfold bind at 1, gets at 1. unfold bind at 1, lift at 1.
  cbn [with_console avg_cost].
  set (q := Z.min (Filled o) (position l)) in *.
  destruct (create_trade_r _ _ _ _ _ _ _ _) as [t|e] eqn:Et.
  - assert (He : Trade.entry_price t = round2_r rnd (avg_cost l)).
    { unfold create_trade_r in Et. destruct (div_r _ _ _); [|discriminate].
      now injection Et as <-. }
    destruct l as [ts p a et eo c]. locals. intros <-. right. exists t.
    eexists. split; [|exact He].
    destruct (p - q <=? 0); reflexivity.
  - destruct l. locals. intros <-. left. eexists. reflexivity.
Qed.

(** With an entry time and a row time of the same kind and a cost basis
    other than zero, a Sell against an open position is recorded. *)
Lemma step_r_recorded symbol orders l o t0 u0 :
  Side o = "Sell"%string -> 0 < position l ->
  entry_time l = Some (Ts t0) -> FilledTime o = Ts u0 -> aware u0 = aware t0 ->
  is_zero (avg_cost l) = false ->
  exists t out,
    step_r rnd symbol orders l o
    = closed_or_reduced l (Z.min (Filled o) (position l)) t out
    /\ Trade.entry_price t = round2_r rnd (avg_cost l).
Proof.
  intros HS Hp Het Hot Hk Hz.
  enough (H : forall l',
             step_r rnd symbol orders l o = l' ->
             exists t out,
               l' = closed_or_reduced l (Z.min (Filled o) (position l)) t out
               /\ Trade.entry_price t = round2_r rnd (avg_cost l))
    by (now apply H).
  intros l'. unfold step_r, iteration_r, try_except, body_r.
  rewrite HS. cbn [String.eqb Ascii.eqb Bool.eqb andb].
  unfold bind at 1, gets at 1.
  destruct (0 <? position l) eqn:E; [|apply Z.ltb_ge in E; lia].
  unfold on_sell_r. unfold bind at 1, gets at 1. unfold bind at 1, gets at 1.
  unfold bind at 1.
  destruct (calculate_duration_run symbol (entry_time l) o l) as (r & w & Hd & ->).
  destruct r as [d|e].
  2:{ exfalso. inversion Hd as [|t1 u1 e1 E1 E2 E3|].
      rewrite Het in E1. rewrite Hot in E2.
      injection E1 as <-. injection E2 as <-.
      rewrite (ts_sub_instant u0 t0 Hk) in E3. discriminate. }
  unfold bind at 1. rewrite scale_information_run.
  unfold bind at 1, gets at 1. unfold bind at 1, lift at 1.
  cbn [with_console avg_cost].
  set (q := Z.min (Filled o) (position l)) in *.
  destruct (create_trade_r _ _ _ _ _ _ _ _) as [t|e] eqn:Et.
  - assert (He : Trade.entry_price t = round2_r rnd (avg_cost l)).
    { unfold create_trade_r in Et. destruct (div_r _ _ _); [|discriminate].
      now injection Et as <-. }
    destruct l as [ts p a et eo c]. locals. intros <-. exists t.
    eexists. split; [|exact He].
    destruct (p - q <=? 0); reflexivity.
  - exfalso. unfold create_trade_r, div_r in Et. rewrite Hz in Et.
    destruct (sub_r _ _ _), (avg_cost l); discriminate.
Qed.

End Arithmetic.

End RoundedFacts.

(* ================================================================== *)
(** * Facts about the cost basis and the lots *)
(* ================================================================== *)

Module LotsFacts.
Import Py Clock Matcher Spec Outcome Related Facts Binary64 Rounded Lots.
Import MoreFacts Binary64Facts RoundedFacts.
Local Open Scope list_scope.

(** ** Sums over the lots *)

Lemma held_app lots lots' : (held (lots ++ lots') == held lots + held lots')%Q.
Proof.
  unfold held. induction lots as [|x lots IH]; cbn [app fold_right]; [ring|].
  rewrite IH. ring.
Qed.

Lemma cost_app lots lots' : (cost (lots ++ lots') == cost lots + cost lots')%Q.
Proof.
  unfold cost. induction lots as [|x lots IH]; cbn [app fold_right]; [ring|].
  rewrite IH. ring.
Qed.

Lemma held_keep s lots : (held (keep s lots) == s * held lots)%Q.
Proof.
  unfold held, keep. induction lots as [|x lots IH]; cbn [map fold_right fst];
    [ring|].
  rewrite IH. ring.
Qed.

Lemma cost_keep s lots : (cost (keep s lots) == s * cost lots)%Q.
Proof.
  unfold cost, keep. induction lots as [|x lots IH]; cbn [map fold_right fst snd];
    [ring|].
  rewrite IH. ring.
Qed.

Lemma roundings_keep s lots : roundings (keep s lots) = roundings lots.
Proof. unfold roundings, keep. now rewrite length_map. Qed.

Lemma keep_ok (P : Q -> Prop) s lots :
  (0 < s)%Q ->
  Forall (fun x => (0 < fst x)%Q /\ P (snd x)) lots ->
  Forall (fun x => (0 < fst x)%Q /\ P (snd x)) (keep s lots).
Proof.
  intros Hs H. unfold keep. apply Forall_map.
  eapply Forall_impl; [|exact H]. cbn [fst snd]. intros x [Hw Hp].
  split; [now apply Qmult_lt_0_compat | exact Hp].
Qed.

Lemma held_nonneg (P : Q -> Prop) lots :
  Forall (fun x => (0 < fst x)%Q /\ P (snd x)) lots -> (0 <= held lots)%Q.
Proof.
  unfold held. induction 1 as [|x lots [Hw _] _ IH]; cbn [fold_right]; lra.
Qed.

(** No share held, no lot. *)
Lemma held_zero (P : Q -> Prop) lots :
  Forall (fun x => (0 < fst x)%Q /\ P (snd x)) lots ->
  (held lots == 0)%Q -> lots = [].
Proof.
  intros H E. destruct lots as [|x lots]; [reflexivity|]. exfalso.
  apply Forall_cons_iff in H. destruct H as [[Hw _] H].
  pose proof (held_nonneg P lots H) as Hn.
  unfold held in E, Hn. cbn [fold_right] in E. lra.
Qed.

Lemma cost_pos lots :
  Forall (fun x => (0 < fst x)%Q /\ (0 < snd x)%Q) lots ->
  (0 <= cost lots)%Q /\ (lots <> [] -> (0 < cost lots)%Q).
Proof.
  unfold cost. induction 1 as [|x lots [Hw Hp] _ [IH _]]; cbn [fold_right].
  - split; [lra | congruence].
  - pose proof (Qmult_lt_0_compat _ _ Hw Hp). split; [lra | intros _; lra].
Qed.

(** The cost of lots whose prices lie between [lo] and [hi]. *)
Lemma cost_between lo hi lots :
  Forall (fun x => (0 < fst x)%Q /\ (lo <= snd x)%Q /\ (snd x <= hi)%Q) lots ->
  (lo * held lots <= cost lots)%Q /\ (cost lots <= hi * held lots)%Q.
Proof.
  unfold cost, held.
  induction 1 as [|x lots (Hw & H1 & H2) _ [IH1 IH2]]; cbn [fold_right]; [lra|].
  split; nra.
Qed.

(** ** One addition to the position *)

Lemma positive_float (z : Z) :
  0 < z < 2 ^ 53 ->
  (nearest (inject_Z z) == inject_Z z)%Q /\ (0 < inject_Z z)%Q.
Proof.
  intros Hz. split; [apply nearest_int; lia | rewrite <- (Zlt_Qlt 0); lia].
Qed.

Lemma positive_is_not_zero (z : Z) :
  0 < z -> is_zero (of_int_r nearest z) = false.
Proof.
  intros Hz. unfold is_zero, of_int_r. apply not_true_iff_false. intros H.
  apply Qeq_bool_iff in H.
  assert (0 < nearest (inject_Z z))%Q
    by (apply nearest_pos; rewrite <- (Zlt_Qlt 0); lia).
  lra.
Qed.

Lemma add_bounds (p f : Z) (a b c lo up : Q) :
  0 < p -> 0 < f -> p + f < 2 ^ 53 ->
  (0 <= b)%Q -> (0 <= c)%Q -> (0 <= lo)%Q -> (lo <= 1)%Q -> (1 <= up)%Q ->
  (lo * c <= inject_Z p * a)%Q -> (inject_Z p * a <= up * c)%Q ->
  let total :=
    nearest (nearest (nearest (inject_Z p) * a)
             + nearest (nearest (inject_Z f) * b)) in
  let a' := nearest (total / nearest (inject_Z (p + f))) in
  ((1 - u) * ((1 - u) * ((1 - u) * lo)) * (c + inject_Z f * b)
   <= inject_Z (p + f) * a')%Q
  /\ (inject_Z (p + f) * a'
      <= (1 + u) * ((1 + u) * ((1 + u) * up)) * (c + inject_Z f * b))%Q.
Proof.
  intros Hp Hf Hs Hb Hc Hlo Hlo1 Hup H1 H2.
  destruct (positive_float p) as (Ep & Pp); [lia|].
  destruct (positive_float f) as (Ef & Pf); [lia|].
  destruct (positive_float (p + f)) as (Es & Ps); [lia|].
  assert (Hlc : (0 <= lo * c)%Q) by now apply Qmult_le_0_compat.
  assert (Ha : (0 <= a)%Q) by nra.
  assert (Hfb : (0 <= inject_Z f * b)%Q) by (apply Qmult_le_0_compat; lra).
  assert (Hlb : (lo * (inject_Z f * b) <= inject_Z f * b)%Q) by nra.
  assert (Hub : (inject_Z f * b <= up * (inject_Z f * b))%Q) by nra.
  assert (H01 : (0 <= nearest (inject_Z p) * a)%Q) by (rewrite Ep; nra).
  assert (H02 : (0 <= nearest (inject_Z f) * b)%Q) by (rewrite Ef; lra).
  destruct (nearest_near _ H01) as [A1 A2].
  destruct (nearest_near _ H02) as [B1 B2].
  pose proof (nearest_nonneg _ H01) as A0. pose proof (nearest_nonneg _ H02) as B0.
  set (t1 := nearest (nearest (inject_Z p) * a)) in *.
  set (t2 := nearest (nearest (inject_Z f) * b)) in *.
  clearbody t1 t2. rewrite Ep in A1, A2. rewrite Ef in B1, B2.
  assert (H03 : (0 <= t1 + t2)%Q) by lra.
  destruct (nearest_near _ H03) as [C1 C2].
  pose proof (nearest_nonneg _ H03) as C0.
  cbv zeta. set (t3 := nearest (t1 + t2)) in *. clearbody t3.
  assert (H04 : (0 <= t3 / nearest (inject_Z (p + f)))%Q).
  { rewrite Es. apply Qle_shift_div_l; [exact Ps | lra]. }
  destruct (nearest_near _ H04) as [D1 D2].
  set (a' := nearest (t3 / nearest (inject_Z (p + f)))) in *. clearbody a'.
  rewrite Es in D1, D2.
  set (s := inject_Z (p + f)) in *.
  assert (E1 : (s * ((1 - u) * (t3 / s)) == (1 - u) * t3)%Q) by (field; lra).
  assert (E2 : (s * ((1 + u) * (t3 / s)) == (1 + u) * t3)%Q) by (field; lra).
  assert (D1' : ((1 - u) * t3 <= s * a')%Q).
  { rewrite <- E1. apply Qmult_le_l; [exact Ps | exact D1]. }
  assert (D2' : (s * a' <= (1 + u) * t3)%Q).
  { rewrite <- E2. apply Qmult_le_l; [exact Ps | exact D2]. }
  set (sa := (s * a')%Q) in *. clearbody sa.
  set (pa := (inject_Z p * a)%Q) in *. clearbody pa.
  set (fb := (inject_Z f * b)%Q) in *. clearbody fb.
  set (lc := (lo * c)%Q) in *. set (uc := (up * c)%Q) in *.
  set (lfb := (lo * fb)%Q) in *. set (ufb := (up * fb)%Q) in *.
  unfold u in *.
  split.
  - setoid_replace ((1 - (1 # 9007199254740992))
                    * ((1 - (1 # 9007199254740992))
                       * ((1 - (1 # 9007199254740992)) * lo)) * (c + fb))%Q
      with ((1 - (1 # 9007199254740992)) * ((1 - (1 # 9007199254740992))
            * ((1 - (1 # 9007199254740992)) * (lc + lfb))))%Q
      by (unfold lc, lfb; ring).
    clearbody lc lfb. lra.
  - setoid_replace ((1 + (1 # 9007199254740992))
                    * ((1 + (1 # 9007199254740992))
                       * ((1 + (1 # 9007199254740992)) * up)) * (c + fb))%Q
      with ((1 + (1 # 9007199254740992)) * ((1 + (1 # 9007199254740992))
            * ((1 + (1 # 9007199254740992)) * (uc + ufb))))%Q
      by (unfold uc, ufb; ring).
    clearbody uc ufb. lra.
Qed.

(** ** One row *)

Lemma bought_one o :
  0 < Filled o ->
  bought [o] = (if (Side o =? "Buy")%string then Filled o else 0)
  /\ 0 <= bought [o].
Proof.
  intros HF. unfold bought. cbn [fold_right].
  destruct (Side o =? "Buy")%string; split; lia.
Qed.

Lemma roundings_bounds lots :
  (0 <= power (1 - u) (roundings lots))%Q
  /\ (0 < power (1 - u) (roundings lots))%Q
  /\ (power (1 - u) (roundings lots) <= 1)%Q
  /\ (1 <= power (1 + u) (roundings lots))%Q.
Proof.
  assert (Hu : (0 < 1 - u)%Q /\ (1 - u <= 1)%Q /\ (1 <= 1 + u)%Q)
    by (unfold u; repeat split; lra).
  destruct Hu as (H0 & H1 & H2).
  split; [apply power_nonneg; lra|]. split; [now apply power_pos|].
  split; [apply power_le_one; lra | now apply power_ge_one].
Qed.

Lemma step_basis_ok (P : Q -> Prop) zone symbol orders l lots o rest :
  (forall p, P p -> (0 < p)%Q) ->
  basis_ok P zone l lots (o :: rest) ->
  basis_ok P zone (step64 symbol orders l o) (lots_step lots o) rest.
Proof.
  intros HP (Hq & Hpr & Ht & Hpos & Hbound & Hlots & Hheld & Hopen).
  apply Forall_cons_iff in Hq. destruct Hq as [HF Hq].
  apply Forall_cons_iff in Hpr. destruct Hpr as [Hb Hpr].
  apply Forall_cons_iff in Ht. destruct Ht as [(u0 & Eu & Au) Ht].
  rewrite bought_cons in Hbound.
  pose proof (bought_nonneg rest Hq) as Hrest.
  destruct (bought_one o HF) as [Eo Ho].
  assert (Hprices : Forall (fun x => (0 < fst x)%Q /\ (0 < snd x)%Q) lots).
  { eapply Forall_impl; [|exact Hlots].
    intros x [Hw Hx]. split; [exact Hw | now apply HP]. }
  destruct (roundings_bounds lots) as (K0 & K0' & K1 & K2).
  unfold lots_step.
  destruct (String.eqb_spec (Side o) "Buy") as [HB|HB].
  - destruct (Hb HB) as (b & Eb & HPb).
    assert (Epr : price o = b) by (unfold price; now rewrite Eb).
    pose proof (HP b HPb) as Hbpos.
    assert (HFq : (0 < inject_Z (Filled o))%Q) by (rewrite <- (Zlt_Qlt 0); lia).
    rewrite Epr. unfold step64.
    destruct (step_r_buy nearest symbol orders l o HB)
      as [[Hz ->]|[[Hnz (a' & Ea & ->)]|[Hnz (e & Ea & ->)]]];
      unfold basis_ok; cbn [position avg_cost entry_time].
    + rewrite Hz in Hheld. rewrite (held_zero P lots Hlots Hheld). cbn [app].
      split; [exact Hq|]. split; [exact Hpr|]. split; [exact Ht|].
      split; [lia|]. split; [lia|].
      split; [constructor; [split; [exact HFq | exact HPb] | constructor]|].
      split; [cbn; ring|].
      intros _. split; [exists u0; now rewrite Eu|].
      exists b. split; [exact Eb|].
      unfold roundings, cost.
      cbn [length Nat.sub Nat.mul Nat.add power fold_right fst snd].
      split; lra.
    + assert (Hlt : 0 < position l) by lia.
      destruct (Hopen Hlt) as (Hentry & a & Ea0 & L1 & L2).
      unfold averaged_r, div_r in Ea.
      rewrite (positive_is_not_zero (position l + Filled o)), Ea0, Eb in Ea by lia.
      cbn [mul_r add_r of_int_r] in Ea. injection Ea as <-.
      assert (Hne : (1 <= length lots)%nat).
      { destruct lots; [|cbn; lia]. cbn in Hheld.
        assert (0 < inject_Z (position l))%Q by (rewrite <- (Zlt_Qlt 0); lia).
        lra. }
      destruct (cost_pos lots Hprices) as [Hcost _].
      destruct (add_bounds (position l) (Filled o) a b (cost lots)
                  (power (1 - u) (roundings lots)) (power (1 + u) (roundings lots)))
        as [N1 N2]; auto; try lia; try lra.
      cbv zeta in N1, N2.
      split; [exact Hq|]. split; [exact Hpr|]. split; [exact Ht|].
      split; [lia|]. split; [lia|].
      split.
      { apply Forall_app. split; [exact Hlots|].
        constructor; [split; [exact HFq | exact HPb] | constructor]. }
      split; [rewrite held_app, Hheld, inject_Z_plus; cbn; ring|].
      intros _. split; [exact Hentry|].
      eexists. split; [reflexivity|].
      assert (Er : roundings (lots ++ [(inject_Z (Filled o), b)])
                   = (3 + roundings lots)%nat).
      { unfold roundings. rewrite length_app. cbn [length]. lia. }
      rewrite Er. cbn [Nat.add power].
      assert (Ec : (cost (lots ++ [(inject_Z (Filled o), b)])
                    == cost lots + inject_Z (Filled o) * b)%Q).
      { rewrite cost_app. cbn. ring. }
      rewrite Ec. split; [exact N1 | exact N2].
    + exfalso. unfold averaged_r, div_r in Ea.
      rewrite (positive_is_not_zero (position l + Filled o)) in Ea by lia.
      destruct (add_r _ _ _); discriminate.
  - destruct (String.eqb_spec (Side o) "Sell") as [HS|HS];
      [destruct (Z.lt_ge_cases 0 (position l)) as [Hlt|Hge]|].
    + destruct (Hopen Hlt) as ((t0 & Et0 & At0) & a & Ea0 & L1 & L2).
      assert (Pl : (0 < inject_Z (position l))%Q) by (rewrite <- (Zlt_Qlt 0); lia).
      assert (Hne : lots <> []).
      { intros ->. cbn in Hheld. lra. }
      destruct (cost_pos lots Hprices) as [_ Hcost]. specialize (Hcost Hne).
      assert (Ha : (0 < a)%Q) by nra.
      assert (Hz : is_zero (avg_cost l) = false).
      { rewrite Ea0. unfold is_zero. apply not_true_iff_false. intros H.
        apply Qeq_bool_iff in H. lra. }
      assert (Hk : aware u0 = aware t0) by congruence.
      unfold step64.
      destruct (step_r_recorded nearest symbol orders l o t0 u0 HS Hlt Et0 Eu Hk Hz)
        as (t & out & -> & _).
      unfold closed_or_reduced, basis_ok.
      destruct (Z.leb_spec (position l - Z.min (Filled o) (position l)) 0) as [Hc|Hc];
        cbn [position avg_cost entry_time].
      * assert (Hle : (held lots <= inject_Z (Filled o))%Q).
        { rewrite Hheld, <- Zle_Qle. lia. }
        apply Qle_bool_iff in Hle. rewrite Hle.
        split; [exact Hq|]. split; [exact Hpr|]. split; [exact Ht|].
        split; [lia|]. split; [lia|]. split; [constructor|].
        split; [reflexivity | intros H; lia].
      * assert (Hgt : Filled o < position l) by lia.
        rewrite Z.min_l by lia.
        destruct (Qle_bool (held lots) (inject_Z (Filled o))) eqn:Eq.
        { exfalso. apply Qle_bool_iff in Eq. rewrite Hheld, <- Zle_Qle in Eq. lia. }
        assert (HFq : (inject_Z (Filled o) < inject_Z (position l))%Q)
          by (rewrite <- Zlt_Qlt; lia).
        set (s := ((held lots - inject_Z (Filled o)) / held lots)%Q).
        assert (Es : (s == (inject_Z (position l) - inject_Z (Filled o))
                           / inject_Z (position l))%Q)
          by (unfold s; now rewrite Hheld).
        assert (Hs : (0 < s)%Q).
        { rewrite Es. apply Qlt_shift_div_l; [exact Pl | lra]. }
        assert (Ep : (inject_Z (position l - Filled o) == s * inject_Z (position l))%Q).
        { rewrite Es. unfold Z.sub. rewrite inject_Z_plus, inject_Z_opp.
          field. lra. }
        split; [exact Hq|]. split; [exact Hpr|]. split; [exact Ht|].
        split; [lia|]. split; [lia|].
        split; [now apply keep_ok|].
        split; [rewrite held_keep, Hheld; now symmetry|].
        intros _. split; [now exists t0|].
        exists a. split; [exact Ea0|].
        rewrite roundings_keep, cost_keep, Ep.
        set (lo := power (1 - u) (roundings lots)) in *.
        set (up := power (1 + u) (roundings lots)) in *.
        split.
        -- setoid_replace (lo * (s * cost lots))%Q with (lo * cost lots * s)%Q by ring.
           setoid_replace (s * inject_Z (position l) * a)%Q
             with (inject_Z (position l) * a * s)%Q by ring.
           apply Qmult_le_compat_r; [exact L1 | lra].
        -- setoid_replace (up * (s * cost lots))%Q with (up * cost lots * s)%Q by ring.
           setoid_replace (s * inject_Z (position l) * a)%Q
             with (inject_Z (position l) * a * s)%Q by ring.
           apply Qmult_le_compat_r; [exact L2 | lra].
    + unfold step64. rewrite step_r_ignored by auto.
      assert (Hz : position l = 0) by lia.
      rewrite Hz in Hheld. rewrite (held_zero P lots Hlots Hheld).
      unfold basis_ok.
      destruct (Qle_bool _ _); cbn [keep map];
        (split; [exact Hq|]; split; [exact Hpr|]; split; [exact Ht|];
         split; [lia|]; split; [lia|]; split; [constructor|];
         split; [rewrite Hz; reflexivity | intros H; lia]).
    + unfold step64. rewrite step_r_ignored by auto. unfold basis_ok.
      split; [exact Hq|]. split; [exact Hpr|]. split; [exact Ht|].
      split; [lia|]. split; [lia|]. split; [exact Hlots|].
      split; [exact Hheld | exact Hopen].
Qed.

(** ** A run *)

Lemma run_basis_ok (P : Q -> Prop) zone symbol orders rows l lots :
  (forall p, P p -> (0 < p)%Q) ->
  basis_ok P zone l lots rows ->
  basis_ok P zone (run64 symbol orders rows l) (fold_left lots_step rows lots) [].
Proof.
  intros HP. revert l lots.
  induction rows as [|o rows IH]; intros l lots H; [exact H|].
  unfold run64, run_r. cbn [fold_left].
  apply IH. now apply step_basis_ok.
Qed.

Lemma initial_basis_ok (P : Q -> Prop) zone rows out :
  positive_quantities rows -> priced P rows -> timed zone rows ->
  bought rows < 2 ^ 53 ->
  basis_ok P zone (initial out) [] rows.
Proof.
  intros Hq Hp Ht Hb. split; [exact Hq|]. split; [exact Hp|]. split; [exact Ht|].
  cbn [initial position]. split; [lia|]. split; [lia|].
  split; [constructor|]. split; [reflexivity | lia].
Qed.

(** The cost basis of an open position against the mean price of its
    lots. *)
Lemma basis_near_mean (P : Q -> Prop) zone l lots :
  basis_ok P zone l lots [] -> 0 < position l ->
  (held lots == inject_Z (position l))%Q
  /\ exists a, avg_cost l = Fin a /\ near_mean (roundings lots) lots a.
Proof.
  intros (_ & _ & _ & _ & _ & _ & Hheld & Hopen) Hlt.
  destruct (Hopen Hlt) as (_ & a & Ea & L1 & L2).
  split; [exact Hheld|]. exists a. split; [exact Ea|].
  assert (Pl : (0 < inject_Z (position l))%Q) by (rewrite <- (Zlt_Qlt 0); lia).
  unfold near_mean, mean_price. rewrite Hheld.
  set (lo := power (1 - u) (roundings lots)) in *.
  set (up := power (1 + u) (roundings lots)) in *.
  set (p := inject_Z (position l)) in *.
  split.
  - setoid_replace (lo * (cost lots / p))%Q with (lo * cost lots / p)%Q
      by (field; lra).
    apply Qle_shift_div_r; [exact Pl|].
    setoid_replace (a * p)%Q with (p * a)%Q by ring. exact L1.
  - setoid_replace (up * (cost lots / p))%Q with (up * cost lots / p)%Q
      by (field; lra).
    apply Qle_shift_div_l; [exact Pl|].
    setoid_replace (a * p)%Q with (p * a)%Q by ring. exact L2.
Qed.

(** ** Two sessions *)

(** Half of 100 shares at 10 is sold and 50 shares at 20 are bought: the
    position holds 50 shares of each, and the cost basis is their mean
    price, 15. *)
Example buy_sell_buy_example :
  avg_cost (run64 "ACME" [] Sample5.buy_sell_buy (initial [])) = Fin 15
  /\ Forall2 (fun x y => (fst x == fst y)%Q /\ (snd x == snd y)%Q)
       (lots_of Sample5.buy_sell_buy) [(50, 10); (50, 20)]%Q
  /\ (mean_price (lots_of Sample5.buy_sell_buy) == 15)%Q.
Proof.
  split; [reflexivity|]. split; [|reflexivity].
  repeat constructor.
Qed.

(** Buys of 200 and of 300 shares at 1.11: the cost basis is
    1.1100000000000003, the next float above the price. *)
Example two_buys_example :
  avg_cost (run64 "ACME" [] Sample5.two_buys (initial []))
  = Fin (1249748896595313 # 1125899906842624)
  /\ (Sample5.price == 4998995586381251 # 4503599627370496)%Q
  /\ (Sample5.price < 1249748896595313 # 1125899906842624)%Q.
Proof. repeat split. Qed.

End LotsFacts.

(* ================================================================== *)
(** * The cost basis *)
(* ================================================================== *)

Import Py Clock Matcher Spec Outcome Related Facts MoreFacts.
Import Binary64 Rounded Lots Binary64Facts RoundedFacts LotsFacts.
Local Open Scope list_scope.

(** C4.  In binary64, for rows of positive quantity that all have a time,
    all with a zone or all without, whose Buy prices are positive numbers,
    and with fewer than 2^53 shares bought in all: whenever the position is
    open, the lots of the Buy fills that contribute to it, read off the
    rows alone, hold as many shares as the position, and the cost basis is
    their quantity-weighted mean price up to three roundings for each Buy
    added to the first, each of relative size 2^-53 at most.  After two
    Buys from a flat position the cost basis is the float that the
    expression (q1*p1 + q2*p2)/(q1 + q2) evaluates to, within three
    roundings of the exact quotient.  A Buy onto an open position of
    quantity q and cost basis a sets the cost basis to the float of
    (q*a + fill quantity * fill price)/(q + fill quantity), and a Sell
    that leaves the position open leaves the cost basis as it was. *)
Theorem C4_avg_cost_weighted_mean (symbol : string) (orders : list Order) :
  (forall rows zone out,
      positive_quantities rows ->
      priced (fun p => (0 < p)%Q) rows ->
      timed zone rows ->
      bought rows < 2 ^ 53 ->
      0 < position (run64 symbol orders rows (initial out)) ->
      (held (lots_of rows)
       == inject_Z (position (run64 symbol orders rows (initial out))))%Q
      /\ exists a,
           avg_cost (run64 symbol orders rows (initial out)) = Fin a
           /\ near_mean (roundings (lots_of rows)) (lots_of rows) a)
  /\ (forall l o1 o2,
        position l = 0 ->
        Side o1 = "Buy"%string -> 0 < Filled o1 ->
        Side o2 = "Buy"%string -> 0 < Filled o2 ->
        div_r nearest
          (add_r nearest
             (mul_r nearest (of_int_r nearest (Filled o1)) (AvgPrice o1))
             (mul_r nearest (of_int_r nearest (Filled o2)) (AvgPrice o2)))
          (of_int_r nearest (Filled o1 + Filled o2))
        = Ok (avg_cost (run64 symbol orders [o1; o2] l))
        /\ forall p1 p2,
             AvgPrice o1 = Fin p1 -> AvgPrice o2 = Fin p2 ->
             (0 <= p1)%Q -> (0 <= p2)%Q -> Filled o1 + Filled o2 < 2 ^ 53 ->
             exists a,
               avg_cost (run64 symbol orders [o1; o2] l) = Fin a
               /\ (power (1 - u) 3
                   * ((inject_Z (Filled o1) * p1 + inject_Z (Filled o2) * p2)
                      / inject_Z (Filled o1 + Filled o2)) <= a)%Q
               /\ (a <= power (1 + u) 3
                        * ((inject_Z (Filled o1) * p1 + inject_Z (Filled o2) * p2)
                           / inject_Z (Filled o1 + Filled o2)))%Q)
  /\ (forall l o,
        Side o = "Buy"%string -> 0 < position l -> 0 < Filled o ->
        averaged_r nearest l o = Ok (avg_cost (step64 symbol orders l o)))
  /\ (forall l o,
        Side o = "Sell"%string -> 0 < position (step64 symbol orders l o) ->
        avg_cost (step64 symbol orders l o) = avg_cost l).
Proof.
  assert (Hadd : forall l o,
             Side o = "Buy"%string -> 0 < position l -> 0 < Filled o ->
             averaged_r nearest l o = Ok (avg_cost (step64 symbol orders l o))
             /\ position (step64 symbol orders l o) = position l + Filled o).
  { intros l o HB Hp HF. unfold step64.
    destruct (step_r_buy nearest symbol orders l o HB)
      as [[Hz _]|[[_ (a & Ea & ->)]|[_ (e & Ea & _)]]]; [lia | now split |].
    exfalso. unfold averaged_r, div_r in Ea.
    rewrite (positive_is_not_zero (position l + Filled o)) in Ea by lia.
    destruct (add_r _ _ _); discriminate. }
  split; [|split; [|split]].
  - intros rows zone out Hq Hp Ht Hb Hopen.
    apply (basis_near_mean (fun p => (0 < p)%Q) zone); [|exact Hopen].
    unfold lots_of. apply run_basis_ok; [auto|]. now apply initial_basis_ok.
  - intros l o1 o2 Hz HB1 HF1 HB2 HF2.
    unfold run64, run_r. cbn [fold_left]. change (step_r nearest) with step64.
    assert (E1 : position (step64 symbol orders l o1) = Filled o1
                 /\ avg_cost (step64 symbol orders l o1) = AvgPrice o1).
    { unfold step64.
      destruct (step_r_buy nearest symbol orders l o1 HB1)
        as [[_ ->]|[[Hnz _]|[Hnz _]]]; try contradiction. now split. }
    destruct E1 as [Ep Ea].
    destruct (Hadd (step64 symbol orders l o1) o2 HB2) as [E2 _]; [lia | exact HF2|].
    unfold averaged_r in E2. rewrite Ep, Ea in E2.
    split; [exact E2|].
    intros p1 p2 E1 E2' H1 H2 Hb. rewrite E1, E2' in E2.
    unfold div_r in E2.
    rewrite (positive_is_not_zero (Filled o1 + Filled o2)) in E2 by lia.
    cbn [mul_r add_r of_int_r] in E2. injection E2 as E2. rewrite <- E2.
    eexists. split; [reflexivity|].
    destruct (add_bounds (Filled o1) (Filled o2) p1 p2
                (inject_Z (Filled o1) * p1) 1 1) as [N1 N2];
      auto; try lia; try lra.
    { apply Qmult_le_0_compat; [rewrite <- (Zle_Qle 0); lia | exact H1]. }
    cbv zeta in N1, N2.
    assert (Ps : (0 < inject_Z (Filled o1 + Filled o2))%Q)
      by (rewrite <- (Zlt_Qlt 0); lia).
    cbn [power].
    set (a := nearest _) in *. set (s := inject_Z (Filled o1 + Filled o2)) in *.
    set (c := (inject_Z (Filled o1) * p1 + inject_Z (Filled o2) * p2)%Q) in *.
    split.
    + setoid_replace ((1 - u) * ((1 - u) * ((1 - u) * 1)) * (c / s))%Q
        with ((1 - u) * ((1 - u) * ((1 - u) * 1)) * c / s)%Q by (field; lra).
      apply Qle_shift_div_r; [exact Ps|].
      setoid_replace (a * s)%Q with (s * a)%Q by ring. exact N1.
    + setoid_replace ((1 + u) * ((1 + u) * ((1 + u) * 1)) * (c / s))%Q
        with ((1 + u) * ((1 + u) * ((1 + u) * 1)) * c / s)%Q by (field; lra).
      apply Qle_shift_div_l; [exact Ps|].
      setoid_replace (a * s)%Q with (s * a)%Q by ring. exact N2.
  - intros l o HB Hp HF. now apply Hadd.
  - intros l o HS Hp. unfold step64 in *.
    destruct (Z.lt_ge_cases 0 (position l)) as [Hq|Hq].
    + destruct (step_r_sell nearest symbol orders l o HS Hq)
        as [[out E]|(t & out & E & _)]; rewrite E in *; [reflexivity|].
      revert Hp. unfold closed_or_reduced.
      destruct (_ <=? 0); cbn [position avg_cost]; [lia | reflexivity].
    + rewrite step_r_ignored; [reflexivity | rewrite HS; discriminate | now right].
Qed.

(** A part of the position is sold before more is bought. *)
Lemma C4_avg_cost_weighted_mean_witness :
  (held (lots_of Sample5.buy_sell_buy)
   == inject_Z (position (run64 "ACME" [] Sample5.buy_sell_buy (initial []))))%Q
  /\ exists a,
       avg_cost (run64 "ACME" [] Sample5.buy_sell_buy (initial [])) = Fin a
       /\ near_mean (roundings (lots_of Sample5.buy_sell_buy))
            (lots_of Sample5.buy_sell_buy) a.
Proof.
  apply (proj1 (C4_avg_cost_weighted_mean "ACME" []) Sample5.buy_sell_buy true).
  - repeat constructor.
  - repeat constructor; intros _; eexists; (split; [reflexivity | reflexivity]).
  - repeat (constructor; [eexists; split; reflexivity|]). constructor.
  - reflexivity.
  - reflexivity.
Defined.

(* ================================================================== *)
(** * Further properties *)
(* ================================================================== *)

Import Related MoreFacts SignFacts TimeFacts Summary Analyst SummaryFacts Cells Cleaner
  CellFacts CleanerFacts.

(** X1.  A flat position splits the session: if the position is zero
    after the rows [before], the trades of [before ++ after] are the
    trades of [before] followed by the trades a fresh frame gives for
    [after] (with the same frame of orders for the estimate). *)
Theorem X1_flat_point_splits_session
    (symbol : string) (orders before after : list Order) (out : list Diag) :
  position (run symbol orders before (initial out)) = 0 ->
  trades (run symbol orders (before ++ after) (initial out))
  = trades (run symbol orders before (initial out))
    ++ trades (run symbol orders after (initial out)).
Proof.
  intros Hz. rewrite run_app.
  destruct (run_agree symbol orders after
              (run symbol orders before (initial out)) (initial out))
    as (new & E & E'); [now apply flat_agrees_with_initial|].
  now rewrite E, E'.
Qed.

(** The first entry of [two_entries] and the rows after it. *)
Lemma X1_flat_point_splits_session_witness :
  position (run "ACME" Sample.two_entries (firstn 3 Sample.two_entries) (initial [])) = 0
  /\ trades (Sample.run_all Sample.two_entries)
     = trades (run "ACME" Sample.two_entries (firstn 3 Sample.two_entries) (initial []))
       ++ trades (run "ACME" Sample.two_entries (skipn 3 Sample.two_entries) (initial [])).
Proof.
  split; [reflexivity|].
  apply (X1_flat_point_splits_session "ACME" Sample.two_entries
           (firstn 3 Sample.two_entries) (skipn 3 Sample.two_entries) []).
  reflexivity.
Defined.

(** X2.  With orders loaded, [match_trades_with_scaling] returns, and
    stores in [matched_trades], the trades of each symbol one symbol after
    the other, the symbols in order of first appearance; the trades of a
    symbol are those the matcher gives, in a frame of its own, for the
    rows of that symbol that have a time.  The orders stay as they are. *)
Theorem X2_driver_concatenates_symbols (p : Parser) (rows : list Order) :
  raw_orders p = Some rows ->
  exists p',
    match_trades_with_scaling p
    = (p', Ok (flat_map (matched rows) (unique (map Symbol rows))))
    /\ matched_trades p' = flat_map (matched rows) (unique (map Symbol rows))
    /\ raw_orders p' = Some rows.
Proof.
  intros Hr. destruct (driver_run p rows Hr) as (p' & E & Hm & Ho & _).
  now exists p'.
Qed.

(** Two symbols, interleaved. *)
Lemma X2_driver_concatenates_symbols_witness :
  exists p',
    match_trades_with_scaling
      (mkParser (Some Sample2.interleaved) [] [] [])
    = (p', Ok (flat_map (matched Sample2.interleaved) ["ACME"; "BOLT"]%string))
    /\ matched_trades p' = flat_map (matched Sample2.interleaved) ["ACME"; "BOLT"]%string
    /\ raw_orders p' = Some Sample2.interleaved.
Proof.
  apply (X2_driver_concatenates_symbols
           (mkParser (Some Sample2.interleaved) [] [] []) Sample2.interleaved).
  reflexivity.
Defined.

(** X3.  The trades [_match_symbol_trades] returns correspond one to one,
    in order, to some of the Sell rows it was given: each trade has the
    price of its row as exit price, at most the quantity of its row, and
    the symbol the matcher was called with.  No trade comes from a Buy row
    and no Sell row gives two trades, so there are at most as many trades
    as Sell rows. *)
Theorem X3_one_trade_per_sell_row
    (symbol : string) (orders : list Order) (out : list Diag) :
  exists l ts used,
    _match_symbol_trades symbol orders (initial out) = (l, Ok ts)
    /\ subsequence used (filter (fun o => (Side o =? "Sell")%string) orders)
    /\ Forall2 (fun t o => Trade.exit_price t = AvgPrice o
                           /\ Trade.quantity t <= Filled o
                           /\ Trade.symbol t = symbol) ts used
    /\ (length ts <= sells orders)%nat.
Proof.
  rewrite match_symbol_trades_run.
  destruct (run_subsequence symbol orders orders (initial out))
    as (new & used & Ht & Hs & Hall).
  cbn [initial trades app] in Ht.
  eexists _, _, used. split; [reflexivity|]. rewrite Ht.
  split; [exact Hs|]. split; [exact Hall|].
  rewrite (Forall2_length Hall). now apply subsequence_length.
Qed.

(** X4.  Every trade the matcher appends is typed "Scale Out", with a
    label "1/n" where n is at least 1, or "Full Exit", with the label
    "1/1": the numerator is always 1 and the type "Final Exit" is never
    given. *)
Theorem X4_labels_of_trades
    (symbol : string) (orders rows : list Order) (out : list Diag) :
  Forall (fun t =>
            (Trade.position_type t = "Scale Out"%string
             /\ exists n, 1 <= n /\ Trade.scale_number t = ("1/" ++ str n)%string)
            \/ (Trade.position_type t = "Full Exit"%string
                /\ Trade.scale_number t = "1/1"%string))
         (trades (run symbol orders rows (initial out))).
Proof.
  destruct (run_emitted (fun _ _ => True) symbol orders (fun _ _ _ _ => I)
              rows (initial out) I) as (new & Ht & Hall).
  rewrite Ht. cbn [initial trades app].
  eapply Forall_impl; [|exact Hall].
  intros t (l0 & o & rest & _ & _ & HS & Hp & E).
  destruct (step_sell_emitted symbol orders l0 o t HS Hp E) as (d & w & _ & Hc & _).
  apply create_trade_ok in Hc.
  destruct Hc as (_ & _ & _ & _ & _ & _ & _ & Hsn & Hpt).
  unfold scale_of in Hsn, Hpt. destruct (0 <? _); cbn [fst snd] in Hsn, Hpt.
  - left. split; [exact Hpt|].
    exists (_estimate_total_exits orders (entry_time l0)). split; [|exact Hsn].
    unfold _estimate_total_exits.
    destruct (entry_time l0) as [[|et]|]; try lia.
    destruct (future_sells orders et); lia.
  - right. now split.
Qed.

(** X5.  Every trade [match_trades_with_scaling] returns comes from a
    Sell row of the loaded orders that has a time: the trade bears the
    symbol of that row, its exit price is the price of the row and its
    quantity is at most the quantity of the row, and positive when that
    quantity is. *)
Theorem X5_trades_come_from_sell_rows (p : Parser) (rows : list Order) :
  raw_orders p = Some rows ->
  exists p' ts,
    match_trades_with_scaling p = (p', Ok ts)
    /\ Forall (fun t => exists o,
                 In o rows
                 /\ Side o = "Sell"%string
                 /\ isna (FilledTime o) = false
                 /\ Trade.symbol t = Symbol o
                 /\ Trade.exit_price t = AvgPrice o
                 /\ Trade.quantity t <= Filled o
                 /\ (0 < Filled o -> 0 < Trade.quantity t)) ts.
Proof.
  intros Hr. destruct (driver_run p rows Hr) as (p' & E & _).
  eexists _, _. split; [exact E|].
  apply Forall_forall. intros t Ht. apply in_flat_map in Ht.
  destruct Ht as (s & _ & Ht). now apply (matched_provenance rows s).
Qed.

(** Two symbols, interleaved, one row without a time. *)
Lemma X5_trades_come_from_sell_rows_witness :
  exists p' ts,
    match_trades_with_scaling (mkParser (Some Sample2.interleaved) [] [] [])
    = (p', Ok ts)
    /\ Forall (fun t => exists o,
                 In o Sample2.interleaved
                 /\ Side o = "Sell"%string
                 /\ isna (FilledTime o) = false
                 /\ Trade.symbol t = Symbol o
                 /\ Trade.exit_price t = AvgPrice o
                 /\ Trade.quantity t <= Filled o
                 /\ (0 < Filled o -> 0 < Trade.quantity t)) ts.
Proof.
  apply (X5_trades_come_from_sell_rows
           (mkParser (Some Sample2.interleaved) [] [] []) Sample2.interleaved).
  reflexivity.
Defined.

(** X6.  Rounding never turns a gain into a loss or a loss into a gain:
    for a recorded trade with a numeric cost basis and exit price and a
    fill of positive quantity, the P&L in dollars is not negative when the
    exit price is at least the cost basis and not positive when it is at
    most the cost basis; with a positive cost basis the same holds of the
    P&L in percent. *)
Theorem X6_rounding_keeps_sign
    (symbol : string) (orders : list Order) (l : Locals) (o : Order)
    (t : Trade.t) (a p : Q) :
  Side o = "Sell"%string ->
  0 < position l ->
  0 < Filled o ->
  trades (step symbol orders l o) = trades l ++ [t] ->
  avg_cost l = Fin a ->
  AvgPrice o = Fin p ->
  (exists x, Trade.pnl_dollar t = Fin x
             /\ ((a <= p)%Q -> (0 <= x)%Q) /\ ((p <= a)%Q -> (x <= 0)%Q))
  /\ ((0 < a)%Q ->
      exists y, Trade.pnl_percent t = Fin y
                /\ ((a <= p)%Q -> (0 <= y)%Q) /\ ((p <= a)%Q -> (y <= 0)%Q)).
Proof.
  intros HS Hp HF E Ha Hprice.
  destruct (step_sell_emitted symbol orders l o t HS Hp E) as (d & w & _ & Hc & _).
  apply create_trade_ok in Hc.
  destruct Hc as (_ & _ & _ & _ & Hd & (ratio & Hr & Hpct) & _).
  rewrite Ha, Hprice in Hd, Hr. cbn [fsub fmul of_int] in Hd.
  set (q := Z.min (Filled o) (position l)) in *.
  assert (Hq : (0 <= inject_Z q)%Q) by (apply inject_Z_nonneg; lia).
  split.
  - destruct (round2_sign ((p - a) * inject_Z q)) as (x & Ex & Hpos & Hneg).
    exists x. split; [congruence|]. split; intros Hle.
    + apply Hpos. apply Qmult_le_0_compat; [|exact Hq].
      unfold Qminus. rewrite <- (Qplus_opp_r a).
      apply Qplus_le_compat; [exact Hle | apply Qle_refl].
    + apply Hneg. rewrite <- (Qmult_0_l (inject_Z q)).
      apply Qmult_le_compat_r; [|exact Hq].
      unfold Qminus. rewrite <- (Qplus_opp_r a).
      apply Qplus_le_compat; [exact Hle | apply Qle_refl].
  - intros Hapos. unfold fdiv in Hr. cbn [fsub is_zero] in Hr.
    destruct (Qeq_bool a 0); [discriminate|]. injection Hr as <-.
    cbn [fmul of_int] in Hpct.
    destruct (round2_sign ((p - a) / a * inject_Z 100)) as (y & Ey & Hpos & Hneg).
    exists y. split; [congruence|]. split; intros Hle.
    + apply Hpos. apply Qmult_le_0_compat; [|discriminate].
      apply Qle_shift_div_l; [exact Hapos|]. rewrite Qmult_0_l.
      unfold Qminus. rewrite <- (Qplus_opp_r a).
      apply Qplus_le_compat; [exact Hle | apply Qle_refl].
    + apply Hneg. rewrite <- (Qmult_0_l (inject_Z 100)).
      apply Qmult_le_compat_r; [|discriminate].
      apply Qle_shift_div_r; [exact Hapos|]. rewrite Qmult_0_l.
      unfold Qminus. rewrite <- (Qplus_opp_r a).
      apply Qplus_le_compat; [exact Hle | apply Qle_refl].
Qed.

(** The trade of [quick_exit]: bought at 10, sold at 11. *)
Lemma X6_rounding_keeps_sign_witness :
  (exists x, Fin (10000 # 100) = Fin x
             /\ ((10 <= 11)%Q -> (0 <= x)%Q) /\ ((11 <= 10)%Q -> (x <= 0)%Q))
  /\ ((0 < 10)%Q ->
      exists y, Fin (1000 # 100) = Fin y
                /\ ((10 <= 11)%Q -> (0 <= y)%Q) /\ ((11 <= 10)%Q -> (y <= 0)%Q)).
Proof.
  refine (X6_rounding_keeps_sign "ACME" Sample.quick_exit
            (run "ACME" Sample.quick_exit (firstn 1 Sample.quick_exit) (initial []))
            (Sample.sell 100 11 100)
            (Trade.mk "2025-09-15" "ACME" "ACME" (Fin (1000 # 100)) "09:30:00 EDT"
               (Fin 11) "09:31:40 EDT" 100 (Fin (10000 # 100)) (Fin (1000 # 100)) 1
               "1/1" "Full Exit" "" "" "" "" "" "" "")
            10 11 _ _ _ _ _ _); reflexivity.
Defined.

(** X7.  Rows without a time never reach the matcher: with orders loaded,
    every trade [match_trades_with_scaling] returns has a date, an entry
    time and an exit time other than "Unknown", and the call prints no
    warning about a duration that could not be computed. *)
Theorem X7_driver_trades_have_times (p : Parser) (rows : list Order) :
  raw_orders p = Some rows ->
  exists p' ts,
    match_trades_with_scaling p = (p', Ok ts)
    /\ Forall (fun t => Trade.date t <> "Unknown"%string
                        /\ Trade.entry_time t <> "Unknown"%string
                        /\ Trade.exit_time t <> "Unknown"%string) ts
    /\ filter is_warning (output p') = filter is_warning (output p).
Proof.
  intros Hr. destruct (driver_run p rows Hr) as (p' & E & _ & _ & Hq).
  eexists _, _. split; [exact E|]. split; [|exact Hq].
  apply Forall_forall. intros t Ht. apply in_flat_map in Ht.
  destruct Ht as (s & _ & Ht). unfold matched in Ht.
  pose proof (run_texts_known s (group rows s) (group rows s) []
                (proj1 (group_has_times rows s []))) as Hall.
  rewrite Forall_forall in Hall. now apply Hall.
Qed.

(** Two symbols, interleaved, one row without a time. *)
Lemma X7_driver_trades_have_times_witness :
  exists p' ts,
    match_trades_with_scaling (mkParser (Some Sample2.interleaved) [] [] [])
    = (p', Ok ts)
    /\ Forall (fun t => Trade.date t <> "Unknown"%string
                        /\ Trade.entry_time t <> "Unknown"%string
                        /\ Trade.exit_time t <> "Unknown"%string) ts
    /\ filter is_warning (output p') = [].
Proof.
  apply (X7_driver_trades_have_times
           (mkParser (Some Sample2.interleaved) [] [] []) Sample2.interleaved).
  reflexivity.
Defined.

(** X8.  When the rows given to [_match_symbol_trades] all have a time,
    all with a zone or all without, and come in time order, no trade it
    returns has a negative duration. *)
Theorem X8_ordered_rows_give_durations
    (zone : bool) (symbol : string) (orders : list Order) (out : list Diag) :
  timed zone orders ->
  in_time_order orders ->
  exists l ts,
    _match_symbol_trades symbol orders (initial out) = (l, Ok ts)
    /\ Forall (fun t => 0 <= Trade.duration_minutes t) ts.
Proof.
  intros Ht Hs. rewrite match_symbol_trades_run.
  eexists _, _. split; [reflexivity|]. now apply (run_durations zone).
Qed.

(** The rows of [two_legs], one minute apart. *)
Lemma X8_ordered_rows_give_durations_witness :
  timed true Sample.two_legs
  /\ in_time_order Sample.two_legs
  /\ exists l ts,
       _match_symbol_trades "ACME" Sample.two_legs (initial []) = (l, Ok ts)
       /\ Forall (fun t => 0 <= Trade.duration_minutes t) ts.
Proof.
  assert (Ht : timed true Sample.two_legs)
    by (repeat constructor; eexists; split; reflexivity).
  assert (Hs : in_time_order Sample.two_legs)
    by (repeat constructor; cbn; lia).
  split; [exact Ht|]. split; [exact Hs|].
  now apply (X8_ordered_rows_give_durations true).
Defined.

(** X9.  The provisional denominator is never below 1 and never above the
    number of Sell rows of the frame it is computed on (or 1, when there
    is none), whatever the entry time. *)
Theorem X9_estimate_bounds (orders : list Order) (entry_time : option pytime) :
  1 <= _estimate_total_exits orders entry_time
  /\ _estimate_total_exits orders entry_time <= Z.max 1 (Z.of_nat (sells orders)).
Proof.
  unfold _estimate_total_exits.
  destruct entry_time as [[|t]|]; try lia.
  destruct (future_sells orders t) as [kept|e] eqn:E; [|lia].
  apply future_sells_bound in E. lia.
Qed.

(** X10.  [_extract_grade] always returns one of A, B, C, D, F.  It
    returns the first letter, in that order, whose marker "GRADE: " plus
    the letter occurs somewhere in the text, wherever the markers stand in
    the text; so a text with the marker of A is graded A whatever else it
    holds.  A text with none of the five markers is graded C. *)
Theorem X10_extract_grade (analysis : string) :
  In (_extract_grade analysis) ["A"; "B"; "C"; "D"; "F"]%string
  /\ (forall pre c post,
        ["A"; "B"; "C"; "D"; "F"]%string = pre ++ c :: post ->
        Forall (fun b => contains ("GRADE: " ++ b) analysis = false) pre ->
        contains ("GRADE: " ++ c) analysis = true ->
        _extract_grade analysis = c)
  /\ (contains "GRADE: A" analysis = true -> _extract_grade analysis = "A"%string)
  /\ (Forall (fun b => contains ("GRADE: " ++ b) analysis = false)
             ["A"; "B"; "C"; "D"; "F"]%string ->
      _extract_grade analysis = "C"%string).
Proof.
  split; [apply grade_range|]. unfold _extract_grade. split; [|split].
  - intros pre c post -> Hpre Hc. now rewrite (first_marked_found pre c post).
  - intros H. cbn [first_marked]. change ("GRADE: " ++ "A")%string with "GRADE: A"%string.
    now rewrite H.
  - intros H. now rewrite first_marked_none.
Qed.

(** A reply that grades B first and mentions A later. *)
Lemma X10_extract_grade_witness :
  _extract_grade "GRADE: B. With a tighter stop this was GRADE: A" = "A"%string.
Proof.
  apply (proj1 (proj2 (proj2
    (X10_extract_grade "GRADE: B. With a tighter stop this was GRADE: A")))).
  reflexivity.
Defined.

(** X11.  [analyze_trade] returns the text of the reply with the grade
    read from it, one of A, B, C, D, F, when the call to the API gives a
    reply; when the call fails it returns the failure message after
    "Analysis failed: " with the grade "N/A".  So the grade is "N/A"
    exactly when the call failed. *)
Theorem X11_analyze_trade
    (create : string -> Z -> string -> reply)
    (show : pyfloat -> string) (format : string -> pyfloat -> string)
    (trade : Trade.t) (voice_input : option string) :
  let answer :=
    create model 500 (_create_analysis_prompt show format trade voice_input) in
  let outcome := analyze_trade create show format trade voice_input in
  (forall text, answer = Text text ->
     outcome = (text, _extract_grade text)
     /\ In (snd outcome) ["A"; "B"; "C"; "D"; "F"]%string)
  /\ (forall e, answer = Failed e ->
        outcome = (("Analysis failed: " ++ e)%string, "N/A"%string))
  /\ (snd outcome = "N/A"%string <-> exists e, answer = Failed e).
Proof.
  intros answer outcome. subst answer outcome. unfold analyze_trade.
  destruct (create model 500 _) as [text|e].
  - split; [|split].
    + intros ? [= <-]. split; [reflexivity|]. apply grade_range.
    + discriminate.
    + cbn [snd]. split.
      * intros H. pose proof (grade_range text) as Hin. rewrite H in Hin.
        cbn in Hin. repeat (destruct Hin as [Hin|Hin]; [discriminate|]). contradiction.
      * intros [e' He]. discriminate.
  - split; [|split].
    + discriminate.
    + now intros ? [= <-].
    + cbn [snd]. split; [eauto | reflexivity].
Qed.

(** A reply graded B, and a failed call. *)
Lemma X11_analyze_trade_witness :
  analyze_trade Sample3.graded_b Sample3.show Sample3.format
    Sample3.trade (Some "felt rushed"%string)
  = ("Solid entry. GRADE: B"%string, "B"%string)
  /\ analyze_trade Sample3.unreachable Sample3.show Sample3.format
       Sample3.trade None
     = ("Analysis failed: connection error"%string, "N/A"%string).
Proof.
  split.
  - apply (proj1 (X11_analyze_trade Sample3.graded_b Sample3.show Sample3.format
                    Sample3.trade (Some "felt rushed"%string))).
    reflexivity.
  - apply (proj1 (proj2 (X11_analyze_trade Sample3.unreachable Sample3.show
                           Sample3.format Sample3.trade None))).
    reflexivity.
Defined.

(** X12.  [analyze_trading_session] never raises: the empty list is
    answered "No trades to analyze" whatever the API would do, which keeps
    the two divisions by the number of trades from dividing by zero, and a
    failure of the API is returned as a text. *)
Theorem X12_session_analysis_never_raises
    (create : string -> Z -> string -> reply)
    (format : string -> pyfloat -> string)
    (trades_list : list Trade.t) :
  (exists text, analyze_trading_session create format trades_list = Ok text)
  /\ (trades_list = [] ->
      analyze_trading_session create format trades_list
      = Ok "No trades to analyze"%string)
  /\ (trades_list <> [] ->
      exists avg win,
        avg_duration trades_list = Ok (Fin avg)
        /\ win_rate trades_list = Ok (Fin win)).
Proof.
  destruct trades_list as [|t ts].
  - split; [eexists; reflexivity|]. split; [reflexivity | congruence].
  - assert (Ha : exists avg, avg_duration (t :: ts) = Ok (Fin avg)).
    { unfold avg_duration, fdiv. rewrite length_nonzero. eexists. reflexivity. }
    assert (Hw : exists win, win_rate (t :: ts) = Ok (Fin win)).
    { unfold win_rate, fdiv. rewrite length_nonzero. eexists. reflexivity. }
    destruct Ha as (avg & Ha). destruct Hw as (win & Hw).
    split; [|split; [discriminate | intros _; now exists avg, win]].
    unfold analyze_trading_session. rewrite Ha, Hw.
    destruct (create _ _ _); eexists; reflexivity.
Qed.


(** A session of one trade. *)
Lemma X12_session_analysis_never_raises_witness :
  (exists text,
      analyze_trading_session Sample3.unreachable Sample3.format [Sample3.trade]
      = Ok text)
  /\ exists avg win,
       avg_duration [Sample3.trade] = Ok (Fin avg)
       /\ win_rate [Sample3.trade] = Ok (Fin win).
Proof.
  destruct (X12_session_analysis_never_raises Sample3.unreachable Sample3.format
              [Sample3.trade]) as (H1 & _ & H3).
  split; [exact H1 | apply H3; discriminate].
Defined.


(** X14.  [_clean_webull_data] parses the column of times with the
    normalizer, one result per row, and sorts.  When the times that parsed
    are all with a zone or all without, the frame it returns holds the
    same rows (each with its parsed time), ordered by symbol and, within a
    symbol, by time, the rows without a time last; rows with the same
    symbol and the same time keep the order of the file, and a frame
    already in that order is returned as it is.  When the parsed times mix
    the two kinds it raises. *)
Theorem X14_cleaning_sorts_rows
    (numeric : string -> pyfloat) (show : pyfloat -> string)
    (coerce : string -> result pytime) (df : list Raw.t) :
  exists warnings times,
    _parse_datetime_robust coerce (map Raw.FilledTime df) [] = (warnings, Ok times)
    /\ length times = length df
    /\ match snd (_clean_webull_data numeric show coerce df) with
       | Ok rows =>
           one_kind (with_times numeric show df times) = true
           /\ Permutation rows (with_times numeric show df times)
           /\ StronglySorted (fun a b => row_le a b = true) rows
           /\ (forall k, filter (same_key k) rows
                         = filter (same_key k) (with_times numeric show df times))
           /\ (StronglySorted (fun a b => row_le a b = true)
                 (with_times numeric show df times) ->
               rows = with_times numeric show df times)
       | Raise e =>
           e = TypeError /\ one_kind (with_times numeric show df times) = false
       end.
Proof.
  destruct (clean_run numeric show coerce df) as (w & times & E & Hlen & ->).
  exists w, times. split; [exact E|]. split; [exact Hlen|].
  unfold sort_values. destruct (one_kind _) eqn:Ek.
  - split; [reflexivity|]. split; [apply sorted_rows_permutation|].
    split; [apply sorted_rows_sorted|]. split.
    + intros k. apply sorted_rows_stable.
    + apply sorted_rows_fixed.
  - now split.
Qed.

(** The sample file, listed latest first. *)
Lemma X14_cleaning_sorts_rows_witness :
  map (fun r => (Symbol (order r), Side (order r)))
      (sorted_rows (with_times Sample4.numeric Sample4.show Sample4.file
                      (snd (Sample4.times))))
  = [("ACME", "Buy"); ("ACME", "Sell"); ("BOLT", "Buy")]%string
  /\ forall k,
       filter (same_key k)
              (sorted_rows (with_times Sample4.numeric Sample4.show Sample4.file
                              (snd (Sample4.times))))
       = filter (same_key k)
                (with_times Sample4.numeric Sample4.show Sample4.file
                   (snd (Sample4.times))).
Proof.
  split; [reflexivity|].
  destruct (X14_cleaning_sorts_rows Sample4.numeric Sample4.show to_datetime_iso
              Sample4.file) as (w & times & E & _ & H).
  assert (Et : times = snd Sample4.times).
  { vm_compute in E. injection E as _ E. rewrite <- E. reflexivity. }
  rewrite Et in H.
  change (snd (_clean_webull_data Sample4.numeric Sample4.show to_datetime_iso
                 Sample4.file))
    with (Ok (sorted_rows (with_times Sample4.numeric Sample4.show Sample4.file
                             (snd Sample4.times)))) in H.
  exact (proj1 (proj2 (proj2 (proj2 H)))).
Defined.

(** X15.  [parse_webull_csv] returns nothing and leaves the parser as it
    was, stored orders included, when the file cannot be read or the
    cleaning raises, and says so in its last line.  Otherwise it returns
    the rows of the cleaned frame whose status is "Filled", in the order
    of that frame, and stores them as the orders; the matched trades are
    left alone. *)
Theorem X15_parse_stores_filled_rows
    (numeric : string -> pyfloat) (show : pyfloat -> string)
    (coerce : string -> result pytime) (read_csv : string -> loaded)
    (self : Parser) (path : string) :
  match parse_webull_csv numeric show coerce read_csv self path with
  | (self', notes, None) =>
      self' = self
      /\ exists before e, notes = before ++ [ParseError e]
  | (self', notes, Some rows) =>
      raw_orders self' = Some (map order rows)
      /\ matched_trades self' = matched_trades self
      /\ Forall (fun r => Status r = "Filled"%string) rows
      /\ StronglySorted (fun a b => row_le a b = true) rows
      /\ exists df cleaned_df,
           read_csv path = Frame df
           /\ snd (_clean_webull_data numeric show coerce df) = Ok cleaned_df
           /\ rows = filter (fun r => (Status r =? "Filled")%string) cleaned_df
  end.
Proof.
  unfold parse_webull_csv. destruct (read_csv path) as [df|message].
  - destruct (_clean_webull_data numeric show coerce df) as [more [cleaned_df|e]] eqn:E.
    + split; [reflexivity|]. split; [reflexivity|]. split; [|split].
      * apply Forall_forall. intros r Hr. apply filter_In in Hr.
        now apply String.eqb_eq.
      * apply sorted_filter.
        apply (clean_ok numeric show coerce df). now rewrite E.
      * exists df, cleaned_df. rewrite E. auto.
    + split; [reflexivity|]. eexists (_ ++ _), _. now rewrite app_assoc.
  - split; [reflexivity|]. now exists [], (Reading message).
Qed.

(** X16.  After a [parse_webull_csv] that returned a frame,
    [match_trades_with_scaling] gives no trade a negative duration: the
    cleaning has put the rows of each symbol in time order, and a file
    whose times cannot be compared with one another does not get this
    far. *)
Theorem X16_parsed_orders_give_durations
    (numeric : string -> pyfloat) (show : pyfloat -> string)
    (coerce : string -> result pytime) (read_csv : string -> loaded)
    (self self' : Parser) (path : string) (notes : list Note) (rows : list Row) :
  parse_webull_csv numeric show coerce read_csv self path = (self', notes, Some rows) ->
  exists final ts,
    match_trades_with_scaling self' = (final, Ok ts)
    /\ Forall (fun t => 0 <= Trade.duration_minutes t) ts.
Proof.
  intros H.
  destruct (parse_ok numeric show coerce read_csv self path self' notes rows H)
    as (Hraw & Hsorted & zone & Hkind).
  apply (driver_durations zone self' (map order rows) Hraw).
  intros s. split; [now apply group_timed | now apply group_in_time_order].
Qed.

(** The sample file. *)
Lemma X16_parsed_orders_give_durations_witness :
  parse_webull_csv Sample4.numeric Sample4.show to_datetime_iso Sample4.read_csv
    Sample4.fresh "orders.csv"
  = (fst (fst Sample4.parsed), snd (fst Sample4.parsed), Some Sample4.rows)
  /\ exists final ts,
       match_trades_with_scaling (fst (fst Sample4.parsed)) = (final, Ok ts)
       /\ Forall (fun t => 0 <= Trade.duration_minutes t) ts.
Proof.
  split; [vm_compute; reflexivity|].
  apply (X16_parsed_orders_give_durations Sample4.numeric Sample4.show
           to_datetime_iso Sample4.read_csv Sample4.fresh
           (fst (fst Sample4.parsed)) "orders.csv"
           (snd (fst Sample4.parsed)) Sample4.rows).
  vm_compute; reflexivity.
Defined.

(** X17.  In binary64, for rows of positive quantity that all have a time,
    all with a zone or all without, with fewer than 2^53 shares bought in
    all and Buy prices between [lo] and [hi], where [lo] is positive:
    whenever a position is open the cost basis of [_match_symbol_trades]
    is a number between [lo] and [hi] up to three roundings for each Buy
    added to the first of the entry, each of relative size 2^-53 at most.
    The bounds [lo] and [hi] themselves can be passed in the last digits:
    two Buys at 1.11 give 1.1100000000000003. *)
Theorem X17_cost_basis_between_buy_prices
    (symbol : string) (orders rows : list Order) (zone : bool) (lo hi : Q)
    (out : list Diag) :
  positive_quantities rows ->
  priced (fun p => (lo <= p)%Q /\ (p <= hi)%Q) rows ->
  timed zone rows ->
  (0 < lo)%Q ->
  bought rows < 2 ^ 53 ->
  0 < position (run64 symbol orders rows (initial out)) ->
  exists a,
    avg_cost (run64 symbol orders rows (initial out)) = Fin a
    /\ (power (1 - u) (roundings (lots_of rows)) * lo <= a)%Q
    /\ (a <= power (1 + u) (roundings (lots_of rows)) * hi)%Q.
Proof.
  intros Hq Hp Ht Hlo Hb Hopen.
  assert (H : basis_ok (fun p => (lo <= p)%Q /\ (p <= hi)%Q) zone
                (run64 symbol orders rows (initial out)) (lots_of rows) []).
  { unfold lots_of. apply run_basis_ok; [intros p [H1 _]; lra|].
    now apply initial_basis_ok. }
  destruct H as (_ & _ & _ & _ & _ & Hlots & Hheld & Hbasis).
  destruct (Hbasis Hopen) as (_ & a & Ea & L1 & L2).
  exists a. split; [exact Ea|].
  destruct (cost_between lo hi _ Hlots) as [C1 C2].
  rewrite Hheld in C1, C2.
  assert (Pl : (0 < inject_Z (position (run64 symbol orders rows (initial out))))%Q)
    by (rewrite <- (Zlt_Qlt 0); lia).
  destruct (roundings_bounds (lots_of rows)) as (K1 & _ & _ & K2).
  set (k1 := power (1 - u) _) in *. set (k2 := power (1 + u) _) in *.
  set (p := inject_Z _) in *. set (c := cost _) in *.
  split.
  - apply (Qmult_le_l _ _ p Pl).
    apply Qle_trans with (k1 * c)%Q; [|exact L1].
    setoid_replace (p * (k1 * lo))%Q with (lo * p * k1)%Q by ring.
    setoid_replace (k1 * c)%Q with (c * k1)%Q by ring.
    now apply Qmult_le_compat_r.
  - apply (Qmult_le_l _ _ p Pl).
    apply Qle_trans with (k2 * c)%Q; [exact L2|].
    setoid_replace (p * (k2 * hi))%Q with (hi * p * k2)%Q by ring.
    setoid_replace (k2 * c)%Q with (c * k2)%Q by ring.
    apply Qmult_le_compat_r; [exact C2 | lra].
Qed.

(** Two Buys at 1.11. *)
Lemma X17_cost_basis_between_buy_prices_witness :
  exists a,
    avg_cost (run64 "ACME" [] Sample5.two_buys (initial [])) = Fin a
    /\ (power (1 - u) (roundings (lots_of Sample5.two_buys)) * Sample5.price <= a)%Q
    /\ (a <= power (1 + u) (roundings (lots_of Sample5.two_buys)) * Sample5.price)%Q.
Proof.
  apply (X17_cost_basis_between_buy_prices "ACME" [] Sample5.two_buys true
           Sample5.price Sample5.price []).
  - repeat constructor.
  - repeat constructor; intros _; eexists;
      (split; [reflexivity | split; apply Qle_refl]).
  - repeat (constructor; [eexists; split; reflexivity|]). constructor.
  - reflexivity.
  - reflexivity.
  - reflexivity.
Defined.

(** X18.  When every loaded order has a positive quantity, every trade
    [match_trades_with_scaling] returns has a positive quantity, and for
    each symbol the quantities of its trades add up to no more than the
    Buy rows of that symbol hold. *)
Theorem X18_trades_within_bought (p : Parser) (rows : list Order) :
  raw_orders p = Some rows ->
  Spec.positive_quantities rows ->
  exists p' ts,
    match_trades_with_scaling p = (p', Ok ts)
    /\ Forall (fun t => 0 < Trade.quantity t) ts
    /\ forall s,
         Spec.sold (filter (fun t => (Trade.symbol t =? s)%string) ts)
         <= Spec.bought (filter (fun o => (Symbol o =? s)%string) rows).
Proof.
  intros Hr Hq. destruct (driver_run p rows Hr) as (p' & E & _).
  eexists _, _. split; [exact E|]. split.
  - apply Forall_forall. intros t Ht. apply in_flat_map in Ht.
    destruct Ht as (s & _ & Ht).
    destruct (matched_provenance rows s t Ht) as (o & Hin & _ & _ & _ & _ & _ & Hpos).
    apply Hpos. unfold Spec.positive_quantities in Hq.
    rewrite Forall_forall in Hq. now apply Hq.
  - intros s. rewrite (filter_matched rows s _ (unique_NoDup _)).
    destruct (in_dec string_dec s _); [now apply matched_within_bought|].
    apply bought_nonneg. now apply bought_filter.
Qed.

(** Two symbols, interleaved, one row without a time. *)
Lemma X18_trades_within_bought_witness :
  exists p' ts,
    match_trades_with_scaling (mkParser (Some Sample2.interleaved) [] [] [])
    = (p', Ok ts)
    /\ Forall (fun t => 0 < Trade.quantity t) ts
    /\ forall s,
         Spec.sold (filter (fun t => (Trade.symbol t =? s)%string) ts)
         <= Spec.bought (filter (fun o => (Symbol o =? s)%string)
                           Sample2.interleaved).
Proof.
  apply (X18_trades_within_bought
           (mkParser (Some Sample2.interleaved) [] [] []) Sample2.interleaved).
  - reflexivity.
  - repeat constructor.
Defined.

(** X19.  [_parse_datetime_robust] treats each cell on its own: the list
    it returns holds, cell by cell, what the cell gives when it stands
    alone, whatever the other cells are and whatever was printed before,
    and what it prints is added after what was printed before, cell by
    cell.  A cell prints at most one warning, and a cell that prints one
    gives the missing-value marker, so there are at least as many markers
    in the result as warnings. *)
Theorem X19_cells_parsed_one_by_one
    (coerce : string -> result pytime) (series : list (option string))
    (out : list Warn) :
  _parse_datetime_robust coerce series out
  = (out ++ flat_map (cell_warnings coerce) series,
     Ok (map (cell_time coerce) series))
  /\ (forall cell,
        cell_warnings coerce cell = []
        \/ exists e,
             cell_warnings coerce cell = [PrintFailed (option_map strip cell) e]
             /\ cell_time coerce cell = NaT)
  /\ (length (flat_map (cell_warnings coerce) series)
      <= length (filter isna (map (cell_time coerce) series)))%nat.
Proof.
  split; [apply parse_datetime_robust_run|].
  split; [apply cell_warnings_cases|].
  induction series as [|cell series IH]; [constructor|].
  cbn [flat_map map filter]. rewrite length_app.
  destruct (cell_warnings_cases coerce cell) as [->|(e & -> & ->)].
  - cbn [length]. destruct (isna _); cbn [length]; lia.
  - cbn [length isna]. lia.
Qed.

(** X20.  After a [parse_webull_csv] that returned a frame, every trade
    [match_trades_with_scaling] returns comes from a row of the file whose
    status is "Filled", whose side is "Sell" and whose time cell is
    neither missing nor empty: the trade bears the symbol of that row, its
    exit price is the average price of the row read as a number, and its
    quantity is at most the quantity of the row. *)
Theorem X20_trades_come_from_filled_rows
    (numeric : string -> pyfloat) (show : pyfloat -> string)
    (coerce : string -> result pytime) (read_csv : string -> loaded)
    (self self' : Parser) (path : string) (notes : list Note) (rows : list Row) :
  parse_webull_csv numeric show coerce read_csv self path = (self', notes, Some rows) ->
  exists df final ts,
    read_csv path = Frame df
    /\ match_trades_with_scaling self' = (final, Ok ts)
    /\ Forall (fun t => exists r,
                 In r df
                 /\ Raw.Status r = "Filled"%string
                 /\ Raw.Side r = "Sell"%string
                 /\ Raw.FilledTime r <> None
                 /\ Raw.FilledTime r <> Some ""%string
                 /\ Trade.symbol t = Raw.Symbol r
                 /\ Trade.exit_price t = to_numeric numeric (Raw.AvgPrice r)
                 /\ Trade.quantity t <= Raw.Filled r) ts.
Proof.
  intros H.
  destruct (parse_rows_from_file numeric show coerce read_csv self path self'
              notes rows H) as (df & Hdf & Hraw & Hrows).
  destruct (driver_run self' (map order rows) Hraw) as (final & E & _).
  exists df. eexists _, _. split; [exact Hdf|]. split; [exact E|].
  apply Forall_forall. intros t Ht. apply in_flat_map in Ht.
  destruct Ht as (s & _ & Ht).
  destruct (matched_provenance _ s t Ht)
    as (o & Hin & HS & Hna & Hsym & Hx & Hqty & _).
  apply in_map_iff in Hin. destruct Hin as (r' & <- & Hin).
  destruct (Hrows r' Hin) as (Hst & r & Hr & ->).
  cbn [cleaned order Status Symbol Side AvgPrice Filled FilledTime] in *.
  destruct (cell_time_blank coerce _ Hna) as [H1 H2].
  exists r. repeat split; auto.
Qed.

(** The sample file: its cancelled order gives no trade. *)
Lemma X20_trades_come_from_filled_rows_witness :
  parse_webull_csv Sample4.numeric Sample4.show to_datetime_iso Sample4.read_csv
    Sample4.fresh "orders.csv"
  = (fst (fst Sample4.parsed), snd (fst Sample4.parsed), Some Sample4.rows)
  /\ exists df final ts,
       Sample4.read_csv "orders.csv" = Frame df
       /\ match_trades_with_scaling (fst (fst Sample4.parsed)) = (final, Ok ts)
       /\ Forall (fun t => exists r,
                    In r df
                    /\ Raw.Status r = "Filled"%string
                    /\ Raw.Side r = "Sell"%string
                    /\ Raw.FilledTime r <> None
                    /\ Raw.FilledTime r <> Some ""%string
                    /\ Trade.symbol t = Raw.Symbol r
                    /\ Trade.exit_price t
                       = to_numeric Sample4.numeric (Raw.AvgPrice r)
                    /\ Trade.quantity t <= Raw.Filled r) ts.
Proof.
  split; [vm_compute; reflexivity|].
  apply (X20_trades_come_from_filled_rows Sample4.numeric Sample4.show
           to_datetime_iso Sample4.read_csv Sample4.fresh
           (fst (fst Sample4.parsed)) "orders.csv"
           (snd (fst Sample4.parsed)) Sample4.rows).
  vm_compute; reflexivity.
Defined.

(** X21.  [match_trades_with_scaling] starts from an empty list each time
    and replaces the stored trades: called a second time it returns the
    same trades and stores the same, nothing is doubled.  With orders
    loaded the trades are those of the symbols in order of first
    appearance; with none loaded it says so, returns the empty list and
    leaves the stored trades as they were. *)
Theorem X21_matching_twice_gives_the_same (p : Parser) :
  exists p1 p2 ts,
    match_trades_with_scaling p = (p1, Ok ts)
    /\ match_trades_with_scaling p1 = (p2, Ok ts)
    /\ matched_trades p2 = matched_trades p1
    /\ raw_orders p2 = raw_orders p
    /\ match raw_orders p with
       | Some rows =>
           ts = flat_map (matched rows) (unique (map Symbol rows))
           /\ matched_trades p1 = ts
       | None =>
           ts = []
           /\ matched_trades p1 = matched_trades p
           /\ output p1 = output p ++ [PrintNoOrders]
       end.
Proof.
  destruct (raw_orders p) as [rows|] eqn:Hr.
  - destruct (driver_run p rows Hr) as (p1 & E1 & Hm1 & Hr1 & _).
    destruct (driver_run p1 rows Hr1) as (p2 & E2 & Hm2 & Hr2 & _).
    exists p1, p2. eexists. split; [exact E1|]. split; [exact E2|].
    split; [congruence|]. split; [congruence|]. split; [reflexivity | exact Hm1].
  - unfold match_trades_with_scaling.
    unfold bind at 1, gets at 1. rewrite Hr.
    unfold bind at 1, say, modify, ret. cbn [raw_orders].
    unfold bind at 1, gets at 1. cbn [raw_orders]. rewrite Hr.
    eexists _, _, _. split; [reflexivity|]. split; [reflexivity|].
    cbn [raw_orders matched_trades output]. auto.
Qed.
